(** * Resource lifecycle orchestration of the SageMaker ML pipeline scripts

    A shallow embedding of the polling, deployment, invocation-test, cleanup
    and orchestration scripts, and the properties of their control flow.

    The scripts talk to AWS through boto3 and to the local machine through
    [time], [datetime] and [subprocess].  Every such interaction is a node of
    a program tree ([Py.prog]); an environment ([Py.env]) answers the nodes,
    and [Py.run] threads the environment's state, records the service calls
    in a trace and collects what is printed.  A statement that quantifies
    over all environments therefore speaks about every execution. *)

From Stdlib Require Import ZArith List String Ascii Lia.
From stdpp Require Import base gmap strings list pretty.

(** ** The Python runtime the scripts run on *)

Module Py.

(** Why a botocore waiter gave up. *)
Inductive waiter_failure : Type :=
| TerminalFailure
| MaxAttemptsExceeded
| ErrorResponse (msg : string).

(** The subclasses of [Exception] the scripts can meet.  [ClientError] is an
    error response of the service; [BotoCoreError] stands for the client-side
    failures (no connection, no credentials, no region, bad parameters),
    which are not [ClientError]s; [EOFError] is what [input] raises on a
    closed standard input. *)
Inductive exception : Type :=
| ClientError (msg : string)
| BotoCoreError (msg : string)
| WaiterError (reason : waiter_failure)
| CalledProcessError (returncode : Z) (stderr : string)
| ValueError (msg : string)
| EOFError.

(** What unwinds the stack: an [Exception], or [SystemExit] (raised by
    [sys.exit]), which derives from [BaseException] and is not caught by
    [except Exception]. *)
Inductive raised : Type :=
| Exc (e : exception)
| SystemExit (code : Z).

(** [str(e)]. *)
Definition str (e : exception) : string :=
  match e with
  | ClientError msg => msg
  | BotoCoreError msg => msg
  | WaiterError TerminalFailure =>
      "Waiter EndpointInService failed: Waiter encountered a terminal failure state"
  | WaiterError MaxAttemptsExceeded =>
      "Waiter EndpointInService failed: Max attempts exceeded"
  | WaiterError (ErrorResponse msg) =>
      "Waiter EndpointInService failed: " +:+ msg
  | CalledProcessError rc _ =>
      "Command returned non-zero exit status " +:+ pretty rc
  | ValueError msg => msg
  | EOFError => "EOF when reading a line"
  end.

(** [needle in haystack] on strings. *)
Definition contains (needle haystack : string) : bool :=
  match String.index 0 needle haystack with
  | Some _ => true
  | None => false
  end.

(** A naive [datetime.datetime]. *)
Record datetime : Type := mk_datetime {
  year : Z; month : Z; day : Z;
  hour : Z; minute : Z; second : Z; microsecond : Z
}.

(** Responses of the service, with the fields the scripts read; a time is
    held as the text it prints as. *)
Record endpoint_description : Type := mk_endpoint_description {
  EndpointStatus : string;
  EndpointArn : string;
  FailureReason : option string;
  CreationTime : string
}.

Record training_job_summary : Type := mk_training_job_summary {
  TrainingJobName : string;
  TrainingJobStatus : string
}.

Record endpoint_summary : Type := mk_endpoint_summary {
  EndpointName : string;
  SummaryStatus : string;
  SummaryCreationTime : string;
  LastModifiedTime : string
}.

(** The operations that can fail: the construction of a boto3 client
    ([boto3.client(service_name, region_name=...)], which raises when no
    region is configured or the region is malformed), the boto3 client
    methods, [subprocess.run] and [input].  Tags and container environment
    variables of the creation calls are not modelled.
    [list_training_jobs_by_time] is [list_training_jobs] called without a
    name filter. *)
Inductive op : Type :=
| create_model (model_name image model_data_url role_arn : string)
| create_endpoint_config (config_name model_name instance_type : string)
| create_endpoint (endpoint_name config_name : string)
| describe_endpoint (endpoint_name : string)
| delete_endpoint (endpoint_name : string)
| delete_endpoint_config (config_name : string)
| delete_model (model_name : string)
| invoke_endpoint (endpoint_name body : string)
| list_objects_v2 (bucket prefix : string)
| list_training_jobs (name_contains : string) (max_results : nat)
| list_endpoints (name_contains : string) (max_results : nat)
| start_workflow_run (name : string)
| get_workflow_run (name run_id : string)
| subprocess_run (command : string)
| boto3_client (service_name : string) (region_name : option string)
| list_training_jobs_by_time (max_results : nat)
| describe_training_job (job_name : string)
| input (prompt : string).

(** What each operation returns when it does not raise.  [list_objects_v2]
    gives the ['KeyCount'] entry if present; [get_workflow_run] gives the
    ['Status'] run property if present; [invoke_endpoint] gives the decoded
    body; [subprocess_run] gives the captured standard output;
    [describe_training_job] gives the S3 path of the model artifacts;
    [input] gives the line read. *)
Definition resp (o : op) : Type :=
  match o with
  | create_model _ _ _ _ => string
  | create_endpoint_config _ _ _ => string
  | create_endpoint _ _ => string
  | describe_endpoint _ => endpoint_description
  | delete_endpoint _ => unit
  | delete_endpoint_config _ => unit
  | delete_model _ => unit
  | invoke_endpoint _ _ => string
  | list_objects_v2 _ _ => option nat
  | list_training_jobs _ _ => list training_job_summary
  | list_endpoints _ _ => list endpoint_summary
  | start_workflow_run _ => string
  | get_workflow_run _ _ => option string
  | subprocess_run _ => string
  | boto3_client _ _ => unit
  | list_training_jobs_by_time _ => list training_job_summary
  | describe_training_job _ => string
  | input _ => string
  end.

Definition reply (o : op) : Type := (exception + resp o)%type.

(** The local queries, which do not fail.  [time_time] is in whole
    seconds. *)
Inductive query : Type :=
| datetime_now
| time_time
| time_sleep (secs : Z).

Definition answer (q : query) : Type :=
  match q with
  | datetime_now => datetime
  | time_time => Z
  | time_sleep _ => unit
  end.

(** A printed line: the text of the format string (emoji and degree signs
    left out) and the values interpolated into it, in order.  Every [print]
    of the scripts writes to standard output. *)
Record msg : Type := Line { fmt : string; args : list string }.

(** Programs. *)
Inductive prog (A : Type) : Type :=
| Ret (a : A)
| Raise (r : raised)
| Echo (m : msg) (k : prog A)
| Ask (q : query) (k : answer q -> prog A)
| Call (o : op) (k : reply o -> prog A).

Arguments Ret {A} a.
Arguments Raise {A} r.
Arguments Echo {A} m k.
Arguments Ask {A} q k.
Arguments Call {A} o k.

Fixpoint bind {A B : Type} (p : prog A) (f : A -> prog B) : prog B :=
  match p with
  | Ret a => f a
  | Raise r => Raise r
  | Echo m k => Echo m (bind k f)
  | Ask q k => Ask q (fun a => bind (k a) f)
  | Call o k => Call o (fun r => bind (k r) f)
  end.

(** [try: p  except <class> as e: h e], where [h e = None] when [e] is not
    of the class. *)
Fixpoint try_except {A : Type} (p : prog A) (h : exception -> option (prog A)) : prog A :=
  match p with
  | Ret a => Ret a
  | Raise (Exc e) => match h e with Some q => q | None => Raise (Exc e) end
  | Raise (SystemExit c) => Raise (SystemExit c)
  | Echo m k => Echo m (try_except k h)
  | Ask q k => Ask q (fun a => try_except (k a) h)
  | Call o k => Call o (fun r => try_except (k r) h)
  end.

Definition except_Exception {A : Type} (h : exception -> prog A) : exception -> option (prog A) :=
  fun e => Some (h e).

Definition except_ClientError {A : Type} (h : exception -> prog A) : exception -> option (prog A) :=
  fun e => match e with ClientError _ => Some (h e) | _ => None end.

Definition call (o : op) : prog (resp o) :=
  Call o (fun r => match r with inl e => Raise (Exc e) | inr v => Ret v end).

Definition ask (q : query) : prog (answer q) := Ask q Ret.

Definition print (f : string) (xs : list string) : prog unit :=
  Echo (Line f xs) (Ret tt).

Definition sys_exit {A : Type} (code : Z) : prog A := Raise (SystemExit code).

(** [for x in l: body x]. *)
Fixpoint for_each {A : Type} (l : list A) (body : A -> prog unit) : prog unit :=
  match l with
  | [] => Ret tt
  | x :: l' => bind (body x) (fun _ => for_each l' body)
  end.

(** A [for] loop that updates a local variable. *)
Fixpoint for_fold {A S : Type} (l : list A) (s : S) (body : A -> S -> prog S) : prog S :=
  match l with
  | [] => Ret s
  | x :: l' => bind (body x s) (fun s' => for_fold l' s' body)
  end.

(** How one turn of a [while True] loop ends. *)
Inductive loop_ctl (R : Type) : Type :=
| Continue
| Return (r : R).

Arguments Continue {R}.
Arguments Return {R} r.

(** The environment: the service and the local machine, with a state. *)
Record env (W : Type) : Type := mk_env {
  on_call : forall o : op, W -> reply o * W;
  on_ask : forall q : query, W -> answer q * W
}.

Arguments on_call {W} e o w.
Arguments on_ask {W} e q w.

(** A service call and its reply. *)
Inductive event : Type :=
| Ev (o : op) (r : reply o).

Record outcome (W A : Type) : Type := mk_outcome {
  result : raised + A;
  world : W;
  trace : list event;
  stdout : list msg
}.

Arguments mk_outcome {W A} result world trace stdout.
Arguments result {W A} o.
Arguments world {W A} o.
Arguments trace {W A} o.
Arguments stdout {W A} o.

Fixpoint run {W A : Type} (E : env W) (p : prog A) (w : W) : outcome W A :=
  match p with
  | Ret a => mk_outcome (inr a) w [] []
  | Raise r => mk_outcome (inl r) w [] []
  | Echo m k =>
      let o := run E k w in
      mk_outcome (result o) (world o) (trace o) (m :: stdout o)
  | Ask q k =>
      let '(a, w') := on_ask E q w in
      run E (k a) w'
  | Call c k =>
      let '(r, w') := on_call E c w in
      let o := run E (k r) w' in
      mk_outcome (result o) (world o) (Ev c r :: trace o) (stdout o)
  end.

(** A script run as [__main__]: a normal end exits with 0, [sys.exit(c)]
    exits with [c], an uncaught exception exits with 1 after the interpreter
    has written the traceback to standard error.  Nothing else writes to
    standard error. *)
Record process (W : Type) : Type := mk_process {
  exit_code : Z;
  proc_stdout : list msg;
  proc_stderr : list string;
  proc_trace : list event;
  proc_world : W
}.

Arguments mk_process {W} exit_code proc_stdout proc_stderr proc_trace proc_world.
Arguments exit_code {W} p.
Arguments proc_stdout {W} p.
Arguments proc_stderr {W} p.
Arguments proc_trace {W} p.
Arguments proc_world {W} p.

Definition run_script {W A : Type} (E : env W) (main : prog A) (w : W) : process W :=
  let o := run E main w in
  match result o with
  | inr _ => mk_process 0 (stdout o) [] (trace o) (world o)
  | inl (SystemExit c) => mk_process c (stdout o) [] (trace o) (world o)
  | inl (Exc e) => mk_process 1 (stdout o) ["Traceback: " +:+ str e] (trace o) (world o)
  end.

End Py.

Import Py.

Notation "'let*' x ':=' p 'in' q" := (bind p (fun x => q))
  (at level 10, x name, p at level 200, q at level 200).
Notation "p ;; q" := (bind p (fun _ => q))
  (at level 100, q at level 200, right associativity).

(** ** Resource names: [datetime.now().strftime('%Y%m%d-%H%M%S')] *)

Module Naming.

Definition digit (n : Z) : ascii := ascii_of_nat (48 + Z.to_nat n).

(** [%m], [%d], [%H], [%M], [%S]: two digits, zero padded. *)
Definition pad2 (n : Z) : string :=
  String (digit (n / 10)) (String (digit (n mod 10)) EmptyString).

(** [%Y]: four digits, zero padded. *)
Definition pad4 (n : Z) : string :=
  String (digit (n / 1000)) (String (digit (n / 100 mod 10)) (pad2 (n mod 100))).

Definition strftime_Ymd_HMS (t : datetime) : string :=
  pad4 (year t) +:+ pad2 (month t) +:+ pad2 (day t) +:+ "-" +:+
  pad2 (hour t) +:+ pad2 (minute t) +:+ pad2 (second t).

(** The f-strings [f'sensor-prediction-training-{timestamp}'] and the like:
    a prefix, a dash and the timestamp. *)
Definition resource_name (kind_prefix : string) (now : datetime) : string :=
  kind_prefix +:+ "-" +:+ strftime_Ymd_HMS now.

Definition job_name (now : datetime) : string :=
  resource_name "sensor-prediction-training" now.

Definition model_name (now : datetime) : string :=
  resource_name "sensor-prediction-model" now.

Definition endpoint_config_name (now : datetime) : string :=
  resource_name "sensor-prediction-config" now.

Definition endpoint_name (now : datetime) : string :=
  resource_name "sensor-prediction-endpoint" now.

(** The proleptic Gregorian calendar of [datetime]. *)
Definition is_leap (y : Z) : bool :=
  (y mod 4 =? 0)%Z && (negb (y mod 100 =? 0)%Z || (y mod 400 =? 0)%Z).

Definition days_in_month (y m : Z) : Z :=
  if (m =? 2)%Z then (if is_leap y then 29 else 28)%Z
  else if ((m =? 4) || (m =? 6) || (m =? 9) || (m =? 11))%Z then 30%Z
  else 31%Z.

Definition days_before_year (y : Z) : Z :=
  ((y - 1) * 365 + (y - 1) / 4 - (y - 1) / 100 + (y - 1) / 400)%Z.

(** Days of the year before the first day of month [m]. *)
Definition days_before_month (y m : Z) : Z :=
  foldr Z.add 0%Z ((fun i => days_in_month y (Z.of_nat i)) <$> seq 1 (Z.to_nat m - 1)).

Definition toordinal (t : datetime) : Z :=
  (days_before_year (year t) + days_before_month (year t) (month t) + day t)%Z.



End Naming.

(** ** The [endpoint_in_service] waiter of botocore

    The waiter is library code the scripts call.  It describes the endpoint;
    ['InService'] ends the wait, ['Failed'] or an error response raises
    [WaiterError], any other status sleeps [delay] seconds and polls again
    until [max_attempts] polls have been made, after which it raises
    [WaiterError] too.  An exception that is not an error response of the
    service passes through. *)

Module Botocore.

Fixpoint wait_loop (more : nat) (endpoint_name : string) (delay : Z) : prog unit :=
  Call (describe_endpoint endpoint_name) (fun r =>
    match r with
    | inl (ClientError m) => Raise (Exc (WaiterError (ErrorResponse m)))
    | inl e => Raise (Exc e)
    | inr d =>
        if bool_decide (EndpointStatus d = "InService") then Ret tt
        else if bool_decide (EndpointStatus d = "Failed")
        then Raise (Exc (WaiterError TerminalFailure))
        else match more with
             | O => Raise (Exc (WaiterError MaxAttemptsExceeded))
             | S more' => ask (time_sleep delay) ;; wait_loop more' endpoint_name delay
             end
    end).

Definition endpoint_in_service_wait (endpoint_name : string) (delay : Z) (max_attempts : nat) : prog unit :=
  wait_loop (max_attempts - 1) endpoint_name delay.

End Botocore.

(** ** scripts/deploy_model.py *)

Module DeployModel.

Definition role_arn : string :=
  "arn:aws:iam::296062569059:role/sagemaker-ml-pipeline-sagemaker-role-f5ofrag0".

Definition model_artifacts : string :=
  "s3://sagemaker-ml-pipeline-models-f5ofrag0/output/sensor-prediction-training-20250805-153525/output/model.tar.gz".

Definition container_image : string :=
  "683313688378.dkr.ecr.us-east-1.amazonaws.com/sagemaker-xgboost:1.7-1".

Record deployment : Type := mk_deployment {
  model_name : string;
  endpoint_config_name : string;
  endpoint_name : string;
  endpoint_arn : string
}.

Definition deploy_model : prog deployment :=
  let* t1 := ask datetime_now in
  let model_name := Naming.model_name t1 in
  let* t2 := ask datetime_now in
  let endpoint_config_name := Naming.endpoint_config_name t2 in
  let* t3 := ask datetime_now in
  let endpoint_name := Naming.endpoint_name t3 in
  try_except
    (print "Creating SageMaker model: {}" [model_name] ;;
     let* create_model_response :=
       call (create_model model_name container_image model_artifacts role_arn) in
     print "Model created: {}" [create_model_response] ;;
     print "Creating endpoint configuration: {}" [endpoint_config_name] ;;
     let* create_config_response :=
       call (create_endpoint_config endpoint_config_name model_name "ml.t2.medium") in
     print "Endpoint configuration created: {}" [create_config_response] ;;
     print "Creating endpoint: {}" [endpoint_name] ;;
     let* create_endpoint_response :=
       call (create_endpoint endpoint_name endpoint_config_name) in
     print "Endpoint creation initiated: {}" [create_endpoint_response] ;;
     print "Waiting for endpoint to be in service..." [] ;;
     Botocore.endpoint_in_service_wait endpoint_name 30 20 ;;
     let* endpoint_response := call (describe_endpoint endpoint_name) in
     print "Endpoint Status: {}" [EndpointStatus endpoint_response] ;;
     print "Endpoint Name: {}" [endpoint_name] ;;
     print "Endpoint ARN: {}" [EndpointArn endpoint_response] ;;
     Ret (mk_deployment model_name endpoint_config_name endpoint_name
            (EndpointArn endpoint_response)))
    (except_Exception (fun e =>
       print "Error during deployment: {}" [str e] ;;
       Raise (Exc e))).

(** The [__main__] block. *)
Definition main : prog unit :=
  let* result := deploy_model in
  print "Deployment completed successfully!" [] ;;
  print "Endpoint name: {}" [endpoint_name result] ;;
  print "You can now use this endpoint for real-time predictions." [].

End DeployModel.

(** ** scripts/deploy_model_github.py *)

Module DeployModelGithub.

(** The values imported from [config.py]. *)
Record config : Type := mk_config {
  AWS_REGION : string;
  SAGEMAKER_ROLE_ARN : string;
  XGBOOST_CONTAINER_IMAGE : string;
  ENDPOINT_INSTANCE_TYPE : string;
  PROJECT_NAME : string
}.

(** [x if x else d] for an optional string argument: [None] and the empty
    string are both false. *)
Definition or_default (x : option string) (d : string) : string :=
  match x with
  | Some s => if bool_decide (s = "") then d else s
  | None => d
  end.

Definition deploy_model (cfg : config) (model_artifacts_s3_path : string)
    (model_name endpoint_name : option string) : prog (option string) :=
  let* timestamp := ask datetime_now in
  let model_name := or_default model_name (Naming.model_name timestamp) in
  let endpoint_name := or_default endpoint_name (Naming.endpoint_name timestamp) in
  let endpoint_config_name := Naming.endpoint_config_name timestamp in
  try_except
    (print "Creating SageMaker model: {}" [model_name] ;;
     print "Model artifacts: {}" [model_artifacts_s3_path] ;;
     print "Role ARN: {}" [SAGEMAKER_ROLE_ARN cfg] ;;
     print "Container image: {}" [XGBOOST_CONTAINER_IMAGE cfg] ;;
     let* model_response :=
       call (create_model model_name (XGBOOST_CONTAINER_IMAGE cfg)
               model_artifacts_s3_path (SAGEMAKER_ROLE_ARN cfg)) in
     print "Model created: {}" [model_response] ;;
     print "Creating endpoint configuration: {}" [endpoint_config_name] ;;
     print "Instance type: {}" [ENDPOINT_INSTANCE_TYPE cfg] ;;
     let* config_response :=
       call (create_endpoint_config endpoint_config_name model_name
               (ENDPOINT_INSTANCE_TYPE cfg)) in
     print "Endpoint configuration created: {}" [config_response] ;;
     print "Creating endpoint: {}" [endpoint_name] ;;
     print "This may take 5-10 minutes..." [] ;;
     let* endpoint_response := call (create_endpoint endpoint_name endpoint_config_name) in
     print "Endpoint creation initiated: {}" [endpoint_response] ;;
     print "Waiting for endpoint to be in service..." [] ;;
     Botocore.endpoint_in_service_wait endpoint_name 30 20 ;;
     let* endpoint_desc := call (describe_endpoint endpoint_name) in
     if bool_decide (EndpointStatus endpoint_desc = "InService") then
       print "Endpoint is now in service!" [] ;;
       print "Endpoint Name: {}" [endpoint_name] ;;
       print "Status: {}" [EndpointStatus endpoint_desc] ;;
       print "Creation Time: {}" [CreationTime endpoint_desc] ;;
       print "Test your endpoint with:" [] ;;
       print "   python test_endpoint_predictions_github.py {}" [endpoint_name] ;;
       Ret (Some endpoint_name)
     else
       print "Endpoint failed to start: {}" [EndpointStatus endpoint_desc] ;;
       match FailureReason endpoint_desc with
       | Some reason => print "   Reason: {}" [reason]
       | None => Ret tt
       end ;;
       Ret None)
    (except_Exception (fun e =>
       print "Error deploying model: {}" [str e] ;;
       Ret None)).

(** The branch of the [__main__] block that deploys: [sys.argv[1]] is the
    artifact path. *)
Definition main_deploy (cfg : config) (model_artifacts_path : string) : prog unit :=
  if negb (String.prefix "s3://" model_artifacts_path) then
    print "Model artifacts path must be an S3 URI (s3://...)" [] ;;
    sys_exit 1
  else
    print "Deploying model from: {}" [model_artifacts_path] ;;
    let* endpoint_name := deploy_model cfg model_artifacts_path None None in
    match endpoint_name with
    | Some name =>
        if bool_decide (name = "") then
          print "Deployment failed. Check the logs above for details." []
        else
          print "Deployment successful!" [] ;;
          print "Endpoint Name: {}" [name] ;;
          print "Next steps:" [] ;;
          print "   1. Test predictions: python test_endpoint_predictions_github.py {}" [name] ;;
          print "   2. Monitor endpoint: python deploy_model_github.py --status {}" [name]
    | None => print "Deployment failed. Check the logs above for details." []
    end.

End DeployModelGithub.

(** ** Text helpers of the scripts *)

Module Text.

Definition is_space (c : ascii) : bool :=
  let n := nat_of_ascii c in
  (n =? 32)%nat || ((9 <=? n)%nat && (n <=? 13)%nat).

Fixpoint lstrip (l : list ascii) : list ascii :=
  match l with
  | c :: l' => if is_space c then lstrip l' else l
  | [] => []
  end.

(** [s.strip()]. *)
Definition strip (s : string) : string :=
  string_of_list_ascii (rev (lstrip (rev (lstrip (list_ascii_of_string s))))).

(** [sep.join(l)]. *)
Fixpoint join (sep : string) (l : list string) : string :=
  match l with
  | [] => ""
  | [x] => x
  | x :: l' => x +:+ sep +:+ join sep l'
  end.

(** [s.lower()] on ASCII text. *)
Definition lower_ascii (c : ascii) : ascii :=
  let n := nat_of_ascii c in
  if (65 <=? n)%nat && (n <=? 90)%nat then ascii_of_nat (n + 32) else c.

Definition lower (s : string) : string :=
  string_of_list_ascii (map lower_ascii (list_ascii_of_string s)).

(** [%H:%M:%S]. *)
Definition strftime_HMS (t : datetime) : string :=
  Naming.pad2 (hour t) +:+ ":" +:+ Naming.pad2 (minute t) +:+ ":" +:+ Naming.pad2 (second t).

End Text.

(** ** monitor_endpoint.py *)

Module MonitorEndpoint.

Definition csv_input : string := "25.5,68.2,0.374,8,1,217,25.1,67.8,1.2,2.1".

(** One turn of the [while True] loop: the body of the [try] and its
    handler.  The elapsed time is printed in seconds. *)
Definition monitor_turn (endpoint_name : string) (start_time max_wait_minutes max_wait_seconds : Z) : prog (loop_ctl bool) :=
  try_except
    (let* response := call (describe_endpoint endpoint_name) in
     let status := EndpointStatus response in
     let* now := ask time_time in
     let elapsed_time := (now - start_time)%Z in
     let* timestamp := ask datetime_now in
     print "[{}] Status: {} (Elapsed: {} s)"
       [Text.strftime_HMS timestamp; status; pretty elapsed_time] ;;
     if bool_decide (status = "InService") then
       print "Endpoint is now IN SERVICE!" [] ;;
       print "Testing endpoint with sample data..." [] ;;
       try_except
         (let* prediction_response := call (invoke_endpoint endpoint_name csv_input) in
          let prediction := Text.strip prediction_response in
          print "Test prediction successful: {}" [prediction] ;;
          print "Endpoint URL: {}" [EndpointArn response])
         (except_Exception (fun e =>
            print "Test prediction failed: {}" [str e])) ;;
       Ret (Return true)
     else if bool_decide (status = "Failed") then
       print "Endpoint deployment FAILED!" [] ;;
       match FailureReason response with
       | Some reason => print "Failure reason: {}" [reason]
       | None => Ret tt
       end ;;
       Ret (Return false)
     else if (elapsed_time >? max_wait_seconds)%Z then
       print "Timeout reached ({} minutes)" [pretty max_wait_minutes] ;;
       print "Endpoint is still creating. You can continue monitoring manually." [] ;;
       Ret (Return false)
     else
       ask (time_sleep 30) ;;
       Ret Continue)
    (except_Exception (fun e =>
       print "Error monitoring endpoint: {}" [str e] ;;
       Ret (Return false))).

(** The [while True] loop, unrolled at most [fuel] times; [None] when the
    loop has not returned by then. *)
Fixpoint monitor_loop (fuel : nat) (endpoint_name : string) (start_time max_wait_minutes max_wait_seconds : Z) : prog (option bool) :=
  match fuel with
  | O => Ret None
  | S fuel' =>
      let* c := monitor_turn endpoint_name start_time max_wait_minutes max_wait_seconds in
      match c with
      | Return b => Ret (Some b)
      | Continue => monitor_loop fuel' endpoint_name start_time max_wait_minutes max_wait_seconds
      end
  end.

Definition monitor_endpoint_deployment (fuel : nat) (endpoint_name : string) (max_wait_minutes : Z) : prog (option bool) :=
  let* start_time := ask time_time in
  let max_wait_seconds := (max_wait_minutes * 60)%Z in
  print "Monitoring endpoint: {}" [endpoint_name] ;;
  print "Maximum wait time: {} minutes" [pretty max_wait_minutes] ;;
  monitor_loop fuel endpoint_name start_time max_wait_minutes max_wait_seconds.

End MonitorEndpoint.

(** ** deploy.py *)

Module Deploy.

Definition run_command (command : string) : prog string :=
  print "Running: {}" [command] ;;
  try_except
    (let* result := call (subprocess_run command) in
     print "{}" [result] ;;
     Ret result)
    (fun e =>
       match e with
       | CalledProcessError _ err =>
           Some (print "Error running command: {}" [str e] ;;
                 print "Error output: {}" [err] ;;
                 sys_exit 1)
       | _ => None
       end).

(** The [while True] loop of [run_glue_workflow], unrolled at most [fuel]
    times; [None] when it has not ended by then. *)
Fixpoint workflow_loop (fuel : nat) (workflow_name run_id : string) : prog (option unit) :=
  match fuel with
  | O => Ret None
  | S fuel' =>
      let* response := call (get_workflow_run workflow_name run_id) in
      let status := default "RUNNING" response in
      print "Workflow status: {}" [status] ;;
      if bool_decide (status = "COMPLETED") then
        print "Workflow completed successfully" [] ;;
        Ret (Some tt)
      else if bool_decide (status = "FAILED") then
        print "Workflow failed" [] ;;
        sys_exit 1
      else
        ask (time_sleep 30) ;;
        workflow_loop fuel' workflow_name run_id
  end.

Definition run_glue_workflow (fuel : nat) (workflow_name : string) : prog (option unit) :=
  print "Starting Glue workflow: {}" [workflow_name] ;;
  try_except
    (let* run_id := call (start_workflow_run workflow_name) in
     print "Workflow started with run ID: {}" [run_id] ;;
     print "Monitoring workflow progress..." [] ;;
     workflow_loop fuel workflow_name run_id)
    (except_Exception (fun e =>
       print "Error running Glue workflow: {}" [str e] ;;
       sys_exit 1)).

Definition generate_sample_data : prog unit :=
  print "Generating sample sensor data..." [] ;;
  run_command "python generate_sample_data.py" ;;
  print "Sample data generated successfully" [].

(** [json.loads] is a parameter: it gives the parsed outputs, or the message
    of the [JSONDecodeError] it raises, which is a [ValueError]. *)
Definition deploy_infrastructure {J : Type} (json_loads : string -> string + J) : prog J :=
  print "Deploying AWS infrastructure with Terraform..." [] ;;
  print "Initializing Terraform..." [] ;;
  run_command "terraform init" ;;
  print "Planning Terraform deployment..." [] ;;
  run_command "terraform plan" ;;
  print "Applying Terraform deployment..." [] ;;
  run_command "terraform apply -auto-approve" ;;
  print "Getting Terraform outputs..." [] ;;
  let* outputs := run_command "terraform output -json" in
  match json_loads outputs with
  | inr v => Ret v
  | inl m => Raise (Exc (ValueError m))
  end.

Definition check_sagemaker_endpoint (endpoint_name : string) : prog bool :=
  print "Checking SageMaker endpoint: {}" [endpoint_name] ;;
  try_except
    (let* response := call (describe_endpoint endpoint_name) in
     let status := EndpointStatus response in
     print "Endpoint status: {}" [status] ;;
     if bool_decide (status = "InService") then
       print "SageMaker endpoint is ready for predictions" [] ;;
       Ret true
     else
       print "Endpoint is still {}. Please wait..." [status] ;;
       Ret false)
    (except_Exception (fun e =>
       print "Error checking endpoint: {}" [str e] ;;
       Ret false)).

Definition test_data : string := "25.5,65.2,0.391,2.1,15.3,14,3,180,50,0.95".

Definition test_endpoint (endpoint_name : string) : prog unit :=
  print "Testing SageMaker endpoint: {}" [endpoint_name] ;;
  try_except
    (let* result := call (invoke_endpoint endpoint_name test_data) in
     print "Prediction result: {}" [result])
    (except_Exception (fun e =>
       print "Error testing endpoint: {}" [str e])).

(** The loop [while not check_sagemaker_endpoint(endpoint_name)] of [main],
    unrolled at most [fuel] times; [None] when it has not ended by then. *)
Fixpoint endpoint_wait_loop (fuel : nat) (endpoint_name : string) : prog (option unit) :=
  match fuel with
  | O => Ret None
  | S fuel' =>
      let* ready := check_sagemaker_endpoint endpoint_name in
      if ready then Ret (Some tt)
      else
        ask (time_sleep 60) ;;
        endpoint_wait_loop fuel' endpoint_name
  end.

(** The end of [main], from the wait for the endpoint on; the endpoint name
    and the data bucket are read from the Terraform outputs before. *)
Definition main_endpoint_stage (fuel : nat) (endpoint_name data_bucket : string) : prog (option unit) :=
  print "Waiting for SageMaker endpoint to be ready..." [] ;;
  let* ended := endpoint_wait_loop fuel endpoint_name in
  match ended with
  | None => Ret None
  | Some _ =>
      test_endpoint endpoint_name ;;
      print "Deployment completed successfully!" [] ;;
      print "Next steps:" [] ;;
      print "   1. Monitor your resources in AWS Console" [] ;;
      print "   2. Use the SageMaker endpoint for predictions: {}" [endpoint_name] ;;
      print "   3. Check processed data in S3 bucket: {}" [data_bucket] ;;
      print "   4. To destroy resources: terraform destroy" [] ;;
      Ret (Some tt)
  end.

End Deploy.

(** ** Floating-point numbers

    The scripts parse, subtract, compare and format Python floats.  The
    control flow does not depend on how that arithmetic is carried out, so
    it is an interface. *)

Record float_ops : Type := mk_float_ops {
  float : Type;
  (** the float a decimal literal of the source denotes *)
  lit : string -> float;
  (** [float(s)]; [None] when it raises [ValueError] *)
  float_of_string : string -> option float;
  (** [str(x)] *)
  str_float : float -> string;
  (** [f"{x:.2f}"] *)
  format_2f : float -> string;
  fsub : float -> float -> float;
  fabs : float -> float;
  flt : float -> float -> bool
}.

(** ** scripts/test_endpoint_predictions.py *)

Module TestEndpointPredictions.

(** One test sample: the ten features the comment of the source lists. *)
Record features (F : float_ops) : Type := mk_features {
  temperature : float F;
  humidity : float F;
  temp_humidity_ratio : float F;
  hour_of_day : Z;
  day_of_week : Z;
  day_of_year : Z;
  temp_rolling_mean : float F;
  humidity_rolling_mean : float F;
  temp_rolling_std : float F;
  humidity_rolling_std : float F
}.

Arguments mk_features {F}.
Arguments temperature {F} f.
Arguments humidity {F} f.
Arguments temp_humidity_ratio {F} f.
Arguments hour_of_day {F} f.
Arguments day_of_week {F} f.
Arguments day_of_year {F} f.
Arguments temp_rolling_mean {F} f.
Arguments humidity_rolling_mean {F} f.
Arguments temp_rolling_std {F} f.
Arguments humidity_rolling_std {F} f.

(** [','.join(map(str, sample))]. *)
Definition csv_input {F : float_ops} (sample : features F) : string :=
  Text.join ","
    [str_float F (temperature sample); str_float F (humidity sample);
     str_float F (temp_humidity_ratio sample);
     pretty (hour_of_day sample); pretty (day_of_week sample);
     pretty (day_of_year sample);
     str_float F (temp_rolling_mean sample); str_float F (humidity_rolling_mean sample);
     str_float F (temp_rolling_std sample); str_float F (humidity_rolling_std sample)].

Definition test_samples (F : float_ops) : list (features F) :=
  let f := lit F in
  [ mk_features (f "25.5") (f "68.2") (f "0.374") 8 1 217 (f "25.1") (f "67.8") (f "1.2") (f "2.1");
    mk_features (f "32.1") (f "55.3") (f "0.581") 14 1 217 (f "31.8") (f "56.1") (f "2.1") (f "3.2");
    mk_features (f "28.7") (f "72.4") (f "0.396") 19 1 217 (f "28.9") (f "71.2") (f "1.8") (f "2.8");
    mk_features (f "22.3") (f "78.1") (f "0.286") 23 1 217 (f "22.8") (f "77.5") (f "1.5") (f "2.4");
    mk_features (f "35.2") (f "45.8") (f "0.769") 12 2 218 (f "34.8") (f "46.2") (f "2.5") (f "3.1") ].

(** The body of the [for] loop for sample number [i]. *)
Definition test_sample {F : float_ops} (endpoint_name : string) (i : nat) (sample : features F) : prog unit :=
  try_except
    (let csv := csv_input sample in
     print "Test Sample {}:" [pretty i] ;;
     print "Input features: {}" [csv] ;;
     print "Temperature: {}C, Humidity: {}%"
       [str_float F (temperature sample); str_float F (humidity sample)] ;;
     print "Time: Hour {}, Day of week {}"
       [pretty (hour_of_day sample); pretty (day_of_week sample)] ;;
     let* response := call (invoke_endpoint endpoint_name csv) in
     let result := Text.strip response in
     match float_of_string F result with
     | None => Raise (Exc (ValueError ("could not convert string to float: " +:+ result)))
     | Some predicted_temp =>
         print "Predicted next temperature: {:.2f}C" [format_2f F predicted_temp] ;;
         let temp_diff := fsub F predicted_temp (temperature sample) in
         let trend :=
           if flt F (fabs F temp_diff) (lit F "1") then "stable"
           else if flt F (lit F "0") temp_diff then "increasing"
           else "decreasing" in
         print "Temperature trend: {} ({:+.2f}C change)" [trend; format_2f F temp_diff]
     end)
    (except_Exception (fun e =>
       print "Error making prediction for sample {}: {}" [pretty i; str e])).

(** [enumerate(l, start)]. *)
Fixpoint enumerate {A : Type} (start : nat) (l : list A) : list (nat * A) :=
  match l with
  | [] => []
  | x :: l' => (start, x) :: enumerate (S start) l'
  end.

(** The function for a given list of samples. *)
Definition test_endpoint_predictions_on {F : float_ops} (endpoint_name : string) (samples : list (features F)) : prog unit :=
  print "Testing endpoint: {}" [endpoint_name] ;;
  for_each (enumerate 1 samples) (fun '(i, sample) => test_sample endpoint_name i sample) ;;
  print "Endpoint testing completed!" [].

Definition test_endpoint_predictions (F : float_ops) (endpoint_name : string) : prog unit :=
  test_endpoint_predictions_on endpoint_name (test_samples F).

End TestEndpointPredictions.

(** ** test_endpoint.py *)

Module TestEndpoint.

(** What one turn of the loop of [test_batch_predictions] draws from
    [np.random] and formats (lines 68 to 80 of the source): the two values
    kept in the result and the CSV payload. *)
Record draw (F : float_ops) : Type := mk_draw {
  avg_temp : float F;
  avg_humidity : float F;
  test_data : string
}.

Arguments avg_temp {F} d.
Arguments avg_humidity {F} d.
Arguments test_data {F} d.

(** One entry of the list [predictions]. *)
Record prediction (F : float_ops) : Type := mk_prediction {
  sample : nat;
  input_temp : float F;
  input_humidity : float F;
  predicted_temp : float F;
  difference : float F
}.

Arguments mk_prediction {F}.
Arguments sample {F} p.
Arguments input_temp {F} p.
Arguments input_humidity {F} p.
Arguments predicted_temp {F} p.
Arguments difference {F} p.

(** The body of the loop for index [i], with the list built so far. *)
Definition batch_turn {F : float_ops} (endpoint_name : string) (draws : nat -> draw F) (i : nat) (predictions : list (prediction F)) : prog (list (prediction F)) :=
  let d := draws i in
  try_except
    (let* response := call (invoke_endpoint endpoint_name (test_data d)) in
     match float_of_string F response with
     | None => Raise (Exc (ValueError ("could not convert string to float: " +:+ response)))
     | Some p =>
         let predictions' :=
           predictions ++ [mk_prediction (i + 1) (avg_temp d) (avg_humidity d) p
                             (fsub F p (avg_temp d))] in
         print "Sample {}: Input={:.2f}C, Predicted={:.2f}C, Diff={:.2f}C"
           [pretty (i + 1); format_2f F (avg_temp d); format_2f F p;
            format_2f F (fsub F p (avg_temp d))] ;;
         Ret predictions'
     end)
    (except_Exception (fun e =>
       print "Error in sample {}: {}" [pretty (i + 1); str e] ;;
       Ret predictions)).

Definition test_batch_predictions {F : float_ops} (endpoint_name : string) (draws : nat -> draw F) (num_samples : nat) : prog (list (prediction F)) :=
  print "Testing {} batch predictions..." [pretty num_samples] ;;
  for_fold (seq 0 num_samples) [] (batch_turn endpoint_name draws).

(** The payload of [test_single_prediction]. *)
Definition single_test_data : string := "25.5,65.2,0.391,2.1,15.3,14,3,180,50,0.95".

Definition test_single_prediction {F : float_ops} (endpoint_name : string) : prog (option (float F)) :=
  print "Testing single prediction..." [] ;;
  try_except
    (let* result := call (invoke_endpoint endpoint_name single_test_data) in
     print "Input features: {}" [single_test_data] ;;
     print "Predicted temperature: {}C" [result] ;;
     match float_of_string F result with
     | Some x => Ret (Some x)
     | None => Raise (Exc (ValueError ("could not convert string to float: " +:+ result)))
     end)
    (except_Exception (fun e =>
       print "Error making prediction: {}" [str e] ;;
       Ret None)).

(** What [analyze_predictions] asks of pandas: the statistics of a column
    and the share of two counts as a percentage with one decimal. *)
Record frame_ops (F : float_ops) : Type := mk_frame_ops {
  col_mean : list (float F) -> float F;
  col_std : list (float F) -> float F;
  col_min : list (float F) -> float F;
  col_max : list (float F) -> float F;
  format_percent : nat -> nat -> string
}.

Arguments col_mean {F} f l.
Arguments col_std {F} f l.
Arguments col_min {F} f l.
Arguments col_max {F} f l.
Arguments format_percent {F} f a b.

Definition analyze_predictions {F : float_ops} (P : frame_ops F) (predictions : list (prediction F)) : prog unit :=
  match predictions with
  | [] => print "No predictions to analyze" []
  | _ =>
      let differences := difference <$> predictions in
      print "Prediction Analysis:" [] ;;
      print "   Average input temperature: {:.2f}C"
        [format_2f F (col_mean P (input_temp <$> predictions))] ;;
      print "   Average predicted temperature: {:.2f}C"
        [format_2f F (col_mean P (predicted_temp <$> predictions))] ;;
      print "   Average difference: {:.2f}C" [format_2f F (col_mean P differences)] ;;
      print "   Standard deviation of differences: {:.2f}C" [format_2f F (col_std P differences)] ;;
      print "   Min difference: {:.2f}C" [format_2f F (col_min P differences)] ;;
      print "   Max difference: {:.2f}C" [format_2f F (col_max P differences)] ;;
      let reasonable_predictions :=
        length (List.filter (fun p => flt F (fabs F (difference p)) (lit F "5")) predictions) in
      let total_predictions := length predictions in
      print "   Reasonable predictions (+-5C): {}/{} ({:.1f}%)"
        [pretty reasonable_predictions; pretty total_predictions;
         format_percent P reasonable_predictions total_predictions]
  end.

Definition check_endpoint_status (endpoint_name : string) : prog bool :=
  try_except
    (let* response := call (describe_endpoint endpoint_name) in
     let status := EndpointStatus response in
     print "Endpoint Status: {}" [status] ;;
     if bool_decide (status = "InService") then
       print "Endpoint is ready for predictions" [] ;;
       Ret true
     else
       print "Endpoint is {}. Please wait for it to be InService." [status] ;;
       Ret false)
    (except_Exception (fun e =>
       print "Error checking endpoint status: {}" [str e] ;;
       Ret false)).

(** [main] from the point where [get_endpoint_name] has given the endpoint
    name; [draws] is what the ten turns of the batch draw. *)
Definition main_tests {F : float_ops} (P : frame_ops F) (endpoint_name : string) (draws : nat -> draw F) : prog unit :=
  print "Testing endpoint: {}" [endpoint_name] ;;
  let* ready := check_endpoint_status endpoint_name in
  if negb ready then Ret tt
  else
    let* single_result := test_single_prediction (F := F) endpoint_name in
    match single_result with
    | Some _ =>
        let* batch_results := test_batch_predictions endpoint_name draws 10 in
        analyze_predictions P batch_results ;;
        print "Testing completed successfully!" [] ;;
        print "Next steps:" [] ;;
        print "   1. Integrate the endpoint into your application" [] ;;
        print "   2. Monitor endpoint performance in AWS Console" [] ;;
        print "   3. Set up CloudWatch alarms for monitoring" [] ;;
        print "   4. Consider auto-scaling for production workloads" []
    | None => print "Testing failed. Please check the endpoint and try again." []
    end.

End TestEndpoint.

(** ** scripts/cleanup_failed_resources.py *)

Module Cleanup.

Definition failed_endpoints : list string := ["sensor-prediction-endpoint-20250805-124642"].
Definition failed_configs : list string := ["sensor-prediction-config-20250805-124642"].
Definition failed_models : list string := ["sensor-prediction-model-20250805-124642"].

(** The three loop bodies. *)
Definition cleanup_endpoint (endpoint_name : string) : prog unit :=
  try_except
    (print "Checking endpoint: {}" [endpoint_name] ;;
     let* response := call (describe_endpoint endpoint_name) in
     let status := EndpointStatus response in
     if bool_decide (status ∈ ["Failed"; "OutOfService"]) then
       print "Deleting failed endpoint: {}" [endpoint_name] ;;
       call (delete_endpoint endpoint_name) ;;
       print "Endpoint {} deletion initiated" [endpoint_name]
     else if bool_decide (status = "Creating") then
       print "Endpoint {} still creating - will likely fail" [endpoint_name] ;;
       print "   You can delete it manually once it fails" []
     else
       print "Endpoint {} status: {}" [endpoint_name; status])
    (except_ClientError (fun e =>
       if contains "does not exist" (str e)
       then print "Endpoint {} does not exist" [endpoint_name]
       else print "Error checking endpoint {}: {}" [endpoint_name; str e])).

Definition cleanup_config (config_name : string) : prog unit :=
  try_except
    (print "Deleting endpoint config: {}" [config_name] ;;
     call (delete_endpoint_config config_name) ;;
     print "Endpoint config {} deleted" [config_name])
    (except_ClientError (fun e =>
       if contains "does not exist" (str e)
       then print "Endpoint config {} does not exist" [config_name]
       else print "Error deleting config {}: {}" [config_name; str e])).

Definition cleanup_model (model_name : string) : prog unit :=
  try_except
    (print "Deleting model: {}" [model_name] ;;
     call (delete_model model_name) ;;
     print "Model {} deleted" [model_name])
    (except_ClientError (fun e =>
       if contains "does not exist" (str e)
       then print "Model {} does not exist" [model_name]
       else print "Error deleting model {}: {}" [model_name; str e])).

(** The function for given candidate lists. *)
Definition cleanup_failed_resources_on (endpoints configs models : list string) : prog unit :=
  print "CLEANING UP FAILED SAGEMAKER RESOURCES" [] ;;
  for_each endpoints cleanup_endpoint ;;
  for_each configs cleanup_config ;;
  for_each models cleanup_model ;;
  print "CLEANUP COMPLETED" [] ;;
  print "Current working resources:" [] ;;
  print "Endpoint: sensor-prediction-endpoint-20250805-130217 (InService)" [] ;;
  print "Model: sensor-prediction-model-20250805-130217" [] ;;
  print "Config: sensor-prediction-config-20250805-130217" [].

Definition cleanup_failed_resources : prog unit :=
  cleanup_failed_resources_on failed_endpoints failed_configs failed_models.

(** The icon [show_current_status] puts before an endpoint. *)
Definition status_icon (status : string) : string :=
  if bool_decide (status = "InService") then "✅"
  else if bool_decide (status = "Failed") then "❌"
  else "⏳".

Definition show_current_status : prog unit :=
  print "CURRENT PIPELINE STATUS" [] ;;
  try_except
    (let* endpoints := call (list_endpoints "sensor-prediction" 5) in
     print "Endpoints:" [] ;;
     for_each endpoints (fun endpoint =>
       print "{} {} - {}"
         [status_icon (SummaryStatus endpoint); EndpointName endpoint; SummaryStatus endpoint]))
    (except_Exception (fun e =>
       print "Error checking endpoints: {}" [str e])).

(** The [__main__] block; [argv] is [sys.argv]. *)
Definition main (argv : list string) : prog unit :=
  if bool_decide (1 < length argv) && bool_decide (argv !! 1 = Some "--status")
  then show_current_status
  else cleanup_failed_resources ;; show_current_status.

End Cleanup.

(** ** scripts/run_full_pipeline.py: the run by its service calls

    [run_full_ml_pipeline] from the point where its clients exist, without
    the construction of the clients; the function from its first line is in
    [RunFullPipelineScript] below. *)

Module RunFullPipeline.

Definition bucket_data : string := "sagemaker-ml-pipeline-data-f5ofrag0".
Definition bucket_models : string := "sagemaker-ml-pipeline-models-f5ofrag0".
Definition csv_input : string := "25.5,68.2,0.374,8,1,217,25.1,67.8,1.2,2.1".

Definition run_full_ml_pipeline : prog bool :=
  print "STARTING COMPLETE ML PIPELINE" [] ;;
  try_except
    (print "1. Checking training data availability..." [] ;;
     let* training_objects := call (list_objects_v2 bucket_data "training/") in
     if bool_decide (default 0 training_objects = 0) then
       print "No training data found. Please run data processing first." [] ;;
       Ret false
     else
       print "Found {} training data files." [pretty (default 0 training_objects)] ;;
       print "2. Checking recent training jobs..." [] ;;
       let* training_jobs := call (list_training_jobs "sensor-prediction" 3) in
       match List.find (fun job => bool_decide (TrainingJobStatus job = "Completed")) training_jobs with
       | None =>
           print "No successful training job found. Starting new training..." [] ;;
           print "Please run start_training_job.py first." [] ;;
           Ret false
       | Some latest_successful_job =>
           print "Found successful training job: {}" [TrainingJobName latest_successful_job] ;;
           let model_artifacts_path :=
             "s3://" +:+ bucket_models +:+ "/output/" +:+
             TrainingJobName latest_successful_job +:+ "/output/model.tar.gz" in
           print "3. Checking endpoint status..." [] ;;
           let* endpoints := call (list_endpoints "sensor-prediction" 1) in
           let* active_endpoint :=
             match endpoints with
             | endpoint :: _ =>
                 if bool_decide (SummaryStatus endpoint = "InService") then
                   print "Found active endpoint: {}" [EndpointName endpoint] ;;
                   Ret (Some (EndpointName endpoint))
                 else
                   print "Endpoint {} status: {}" [EndpointName endpoint; SummaryStatus endpoint] ;;
                   Ret None
             | [] => Ret None
             end in
           match active_endpoint with
           | Some name =>
               if bool_decide (name = "") then
                 print "No active endpoint found. Deployment may still be in progress." [] ;;
                 print "Check deploy_model.py output for deployment status." [] ;;
                 Ret false
               else
                 print "4. Testing endpoint with sample data..." [] ;;
                 let* response := call (invoke_endpoint name csv_input) in
                 let prediction := Text.strip response in
                 print "Test prediction successful: {}" [prediction] ;;
                 print "PIPELINE EXECUTION SUMMARY" [] ;;
                 print "Training Job: {}" [TrainingJobName latest_successful_job] ;;
                 print "Model Artifacts: {}" [model_artifacts_path] ;;
                 print "Active Endpoint: {}" [name] ;;
                 print "Test Prediction: {}" [prediction] ;;
                 print "ML Pipeline is fully operational!" [] ;;
                 Ret true
           | None =>
               print "No active endpoint found. Deployment may still be in progress." [] ;;
               print "Check deploy_model.py output for deployment status." [] ;;
               Ret false
           end
       end)
    (except_Exception (fun e =>
       print "Pipeline execution failed: {}" [str e] ;;
       Ret false)).

End RunFullPipeline.

(** ** scripts/run_full_pipeline.py, from the first line of its functions

    [RunFullPipeline.run_full_ml_pipeline] above is the run by its service
    calls, from the point where the clients exist.  Here are the functions
    as the source has them: [run_full_ml_pipeline] builds three clients
    after the banner and before its [try], and the client of the runtime
    inside the [try]; [quick_endpoint_status] builds its client before its
    [try].  The separator lines are left out. *)

Module RunFullPipelineScript.

Definition run_full_ml_pipeline : prog bool :=
  print "STARTING COMPLETE ML PIPELINE" [] ;;
  call (boto3_client "sagemaker" None) ;;
  call (boto3_client "s3" None) ;;
  call (boto3_client "glue" None) ;;
  try_except
    (print "1. Checking training data availability..." [] ;;
     let* training_objects := call (list_objects_v2 RunFullPipeline.bucket_data "training/") in
     if bool_decide (default 0 training_objects = 0) then
       print "No training data found. Please run data processing first." [] ;;
       Ret false
     else
       print "Found {} training data files." [pretty (default 0 training_objects)] ;;
       print "2. Checking recent training jobs..." [] ;;
       let* training_jobs := call (list_training_jobs "sensor-prediction" 3) in
       match List.find (fun job => bool_decide (TrainingJobStatus job = "Completed")) training_jobs with
       | None =>
           print "No successful training job found. Starting new training..." [] ;;
           print "Please run start_training_job.py first." [] ;;
           Ret false
       | Some latest_successful_job =>
           print "Found successful training job: {}" [TrainingJobName latest_successful_job] ;;
           let model_artifacts_path :=
             "s3://" +:+ RunFullPipeline.bucket_models +:+ "/output/" +:+
             TrainingJobName latest_successful_job +:+ "/output/model.tar.gz" in
           print "3. Checking endpoint status..." [] ;;
           let* endpoints := call (list_endpoints "sensor-prediction" 1) in
           let* active_endpoint :=
             match endpoints with
             | endpoint :: _ =>
                 if bool_decide (SummaryStatus endpoint = "InService") then
                   print "Found active endpoint: {}" [EndpointName endpoint] ;;
                   Ret (Some (EndpointName endpoint))
                 else
                   print "Endpoint {} status: {}" [EndpointName endpoint; SummaryStatus endpoint] ;;
                   Ret None
             | [] => Ret None
             end in
           match active_endpoint with
           | Some name =>
               if bool_decide (name = "") then
                 print "No active endpoint found. Deployment may still be in progress." [] ;;
                 print "Check deploy_model.py output for deployment status." [] ;;
                 Ret false
               else
                 print "4. Testing endpoint with sample data..." [] ;;
                 call (boto3_client "sagemaker-runtime" None) ;;
                 let* response := call (invoke_endpoint name RunFullPipeline.csv_input) in
                 let prediction := Text.strip response in
                 print "Test prediction successful: {}" [prediction] ;;
                 print "PIPELINE EXECUTION SUMMARY" [] ;;
                 print "Training Job: {}" [TrainingJobName latest_successful_job] ;;
                 print "Model Artifacts: {}" [model_artifacts_path] ;;
                 print "Active Endpoint: {}" [name] ;;
                 print "Test Prediction: {}" [prediction] ;;
                 print "ML Pipeline is fully operational!" [] ;;
                 Ret true
           | None =>
               print "No active endpoint found. Deployment may still be in progress." [] ;;
               print "Check deploy_model.py output for deployment status." [] ;;
               Ret false
           end
       end)
    (except_Exception (fun e =>
       print "Pipeline execution failed: {}" [str e] ;;
       Ret false)).

Definition quick_endpoint_status : prog unit :=
  call (boto3_client "sagemaker" None) ;;
  try_except
    (let* endpoints := call (list_endpoints "sensor-prediction" 3) in
     print "Current Endpoint Status:" [] ;;
     match endpoints with
     | [] => print "No endpoints found." []
     | _ =>
         for_each endpoints (fun endpoint =>
           print "Name: {}" [EndpointName endpoint] ;;
           print "Status: {}" [SummaryStatus endpoint] ;;
           print "Created: {}" [SummaryCreationTime endpoint] ;;
           print "Modified: {}" [LastModifiedTime endpoint])
     end)
    (except_Exception (fun e =>
       print "Error checking endpoint status: {}" [str e])).

(** The [__main__] block; [argv] is [sys.argv]. *)
Definition main (argv : list string) : prog unit :=
  if bool_decide (1 < length argv) && bool_decide (argv !! 1 = Some "--status")
  then quick_endpoint_status
  else run_full_ml_pipeline ;; Ret tt.

End RunFullPipelineScript.

(** ** scripts/cleanup_failed_resources.py, from the first line of its
    functions: each builds its client first. *)

Module CleanupScript.

Definition cleanup_failed_resources : prog unit :=
  call (boto3_client "sagemaker" None) ;;
  Cleanup.cleanup_failed_resources.

Definition show_current_status : prog unit :=
  call (boto3_client "sagemaker" None) ;;
  Cleanup.show_current_status.

(** The [__main__] block; [argv] is [sys.argv]. *)
Definition main (argv : list string) : prog unit :=
  if bool_decide (1 < length argv) && bool_decide (argv !! 1 = Some "--status")
  then show_current_status
  else cleanup_failed_resources ;; show_current_status.

End CleanupScript.

(** ** deploy.py, from the first line of its functions

    [Deploy.run_glue_workflow] is the stage by its service calls, from the
    point where the client of Glue exists; here is the function as the
    source has it, which builds the client after its first line of output
    and before its [try]. *)

Module DeployScript.

Definition run_glue_workflow (fuel : nat) (workflow_name : string) : prog (option unit) :=
  print "Starting Glue workflow: {}" [workflow_name] ;;
  call (boto3_client "glue" None) ;;
  try_except
    (let* run_id := call (start_workflow_run workflow_name) in
     print "Workflow started with run ID: {}" [run_id] ;;
     print "Monitoring workflow progress..." [] ;;
     Deploy.workflow_loop fuel workflow_name run_id)
    (except_Exception (fun e =>
       print "Error running Glue workflow: {}" [str e] ;;
       sys_exit 1)).

End DeployScript.

(** ** monitor_endpoint.py, from the first line of its function: the two
    clients are built before the clock is read. *)

Module MonitorEndpointScript.

Definition monitor_endpoint_deployment (fuel : nat) (endpoint_name : string) (max_wait_minutes : Z) : prog (option bool) :=
  call (boto3_client "sagemaker" None) ;;
  call (boto3_client "sagemaker-runtime" None) ;;
  MonitorEndpoint.monitor_endpoint_deployment fuel endpoint_name max_wait_minutes.

End MonitorEndpointScript.

(** ** scripts/deploy_model_github.py, from the first line

    [DeployModelGithub.deploy_model] is the stage from the point where the
    client exists.  Here are the functions as the source has them, each
    building its client in the region of the configuration first, and the
    whole of the [__main__] block behind the import of the configuration. *)

Module DeployModelGithubScript.

Import DeployModelGithub.

Definition deploy_model (cfg : config) (model_artifacts_s3_path : string)
    (model_name endpoint_name : option string) : prog (option string) :=
  call (boto3_client "sagemaker" (Some (AWS_REGION cfg))) ;;
  DeployModelGithub.deploy_model cfg model_artifacts_s3_path model_name endpoint_name.

Definition check_endpoint_status (cfg : config) (endpoint_name : string) : prog (option string) :=
  call (boto3_client "sagemaker" (Some (AWS_REGION cfg))) ;;
  try_except
    (let* response := call (describe_endpoint endpoint_name) in
     let status := EndpointStatus response in
     print "Endpoint Status: {}" [status] ;;
     print "Endpoint Name: {}" [endpoint_name] ;;
     print "Creation Time: {}" [CreationTime response] ;;
     (if bool_decide (status = "InService") then
        print "Endpoint is ready for predictions!" []
      else if bool_decide (status = "Failed") then
        print "Endpoint failed: {}" [default "Unknown error" (FailureReason response)]
      else if bool_decide (status = "Creating") || bool_decide (status = "Updating") then
        print "Endpoint is {}..." [Text.lower status]
      else Ret tt) ;;
     Ret (Some status))
    (except_Exception (fun e =>
       print "Error checking endpoint status: {}" [str e] ;;
       Ret None)).

(** The mark [list_recent_training_jobs] puts before a job. *)
Definition status_emoji (status : string) : string :=
  if bool_decide (status = "Completed") then "✅"
  else if bool_decide (status = "Failed") then "❌"
  else if bool_decide (status = "InProgress") then "🔄"
  else "❓".

Definition list_recent_training_jobs (cfg : config) (max_results : nat) : prog (list training_job_summary) :=
  call (boto3_client "sagemaker" (Some (AWS_REGION cfg))) ;;
  try_except
    (let* jobs := call (list_training_jobs_by_time max_results) in
     print "Recent Training Jobs:" [] ;;
     for_each (TestEndpointPredictions.enumerate 1 jobs) (fun '(i, job) =>
       print "  {}. {} {} - {}"
         [pretty i; status_emoji (TrainingJobStatus job); TrainingJobName job;
          TrainingJobStatus job] ;;
       if bool_decide (TrainingJobStatus job = "Completed") then
         let* artifacts_path := call (describe_training_job (TrainingJobName job)) in
         print "     Model artifacts: {}" [artifacts_path]
       else Ret tt) ;;
     Ret jobs)
    (except_Exception (fun e =>
       print "Error listing training jobs: {}" [str e] ;;
       Ret [])).

(** The module as [__main__].  [imported] is what the import of the
    configuration at the head of the module gave: [None] when it raised
    [ImportError].  [argv] is [sys.argv]. *)
Definition main (imported : option config) (argv : list string) : prog unit :=
  match imported with
  | None =>
      print "config.py not found. Please copy config.example.py to config.py and update with your AWS details." [] ;;
      sys_exit 1
  | Some cfg =>
      print "SAGEMAKER MODEL DEPLOYMENT" [] ;;
      if bool_decide (length argv < 2) then
        print "Usage Options:" [] ;;
        print "1. Deploy with model artifacts path:" [] ;;
        print "   python deploy_model_github.py <s3_model_artifacts_path>" [] ;;
        print "2. Check endpoint status:" [] ;;
        print "   python deploy_model_github.py --status <endpoint_name>" [] ;;
        print "3. List recent training jobs:" [] ;;
        print "   python deploy_model_github.py --list-jobs" [] ;;
        print "Examples:" [] ;;
        print "   python deploy_model_github.py s3://my-bucket/model-artifacts/job-name/output/model.tar.gz" [] ;;
        print "   python deploy_model_github.py --status my-endpoint-name" [] ;;
        print "   python deploy_model_github.py --list-jobs" [] ;;
        sys_exit 1
      else
        let arg1 := default "" (argv !! 1) in
        if bool_decide (arg1 = "--status") && bool_decide (2 < length argv) then
          let endpoint_name := default "" (argv !! 2) in
          print "Checking status for endpoint: {}" [endpoint_name] ;;
          check_endpoint_status cfg endpoint_name ;;
          Ret tt
        else if bool_decide (arg1 = "--list-jobs") then
          print "Listing recent training jobs..." [] ;;
          let* jobs := list_recent_training_jobs cfg 10 in
          match jobs with
          | [] => Ret tt
          | _ :: _ =>
              print "To deploy a completed model, use:" [] ;;
              print "   python deploy_model_github.py <model_artifacts_s3_path>" []
          end
        else
          let model_artifacts_path := arg1 in
          if negb (String.prefix "s3://" model_artifacts_path) then
            print "Model artifacts path must be an S3 URI (s3://...)" [] ;;
            sys_exit 1
          else
            print "Deploying model from: {}" [model_artifacts_path] ;;
            let* endpoint_name := deploy_model cfg model_artifacts_path None None in
            match endpoint_name with
            | Some name =>
                if bool_decide (name = "") then
                  print "Deployment failed. Check the logs above for details." []
                else
                  print "Deployment successful!" [] ;;
                  print "Endpoint Name: {}" [name] ;;
                  print "Next steps:" [] ;;
                  print "   1. Test predictions: python test_endpoint_predictions_github.py {}" [name] ;;
                  print "   2. Monitor endpoint: python deploy_model_github.py --status {}" [name]
            | None => print "Deployment failed. Check the logs above for details." []
            end
  end.

End DeployModelGithubScript.

(** ** test_endpoint.py, from the first line of [main]

    [TestEndpoint.main_tests] is [main] from the point where the endpoint
    name is known.  Here is what comes before: the clients, built inside a
    [try], and [get_endpoint_name]. *)

Module TestEndpointScript.

(** [outputs_value] stands for
    [json.loads(text)['sagemaker_endpoint_name']['value']], which raises
    when the text is no JSON or the entries are missing; the value is taken
    for a string.  The handler asks for the name on standard input, and
    [input] raises [EOFError] when there is none. *)
Definition get_endpoint_name (outputs_value : string -> exception + string) : prog string :=
  try_except
    (let* result_stdout := call (subprocess_run "terraform output -json") in
     match outputs_value result_stdout with
     | inr value => Ret value
     | inl e => Raise (Exc e)
     end)
    (except_Exception (fun e =>
       print "Error getting endpoint name: {}" [str e] ;;
       print "Please provide the endpoint name manually." [] ;;
       call (input "Enter SageMaker endpoint name: "))).

(** [draws] is what the ten turns of the batch draw. *)
Definition main {F : float_ops} (P : TestEndpoint.frame_ops F)
    (outputs_value : string -> exception + string)
    (draws : nat -> TestEndpoint.draw F) : prog unit :=
  print "SageMaker Endpoint Testing Script" [] ;;
  let* initialized :=
    try_except
      (call (boto3_client "sagemaker" None) ;;
       call (boto3_client "sagemaker-runtime" None) ;;
       print "AWS clients initialized" [] ;;
       Ret true)
      (except_Exception (fun e =>
         print "Error initializing AWS clients: {}" [str e] ;;
         print "Please check your AWS credentials and region." [] ;;
         Ret false)) in
  if negb initialized then Ret tt
  else
    let* endpoint_name := get_endpoint_name outputs_value in
    TestEndpoint.main_tests P endpoint_name draws.

End TestEndpointScript.

(** ** Reading traces *)

Definition ev_op (ev : event) : op :=
  match ev with Ev o _ => o end.

(** The call did not raise. *)
Definition ev_ok (ev : event) : bool :=
  match ev with
  | Ev _ (inr _) => true
  | Ev _ (inl _) => false
  end.

(** The exception a call raised. *)
Definition ev_error (ev : event) : option exception :=
  match ev with
  | Ev _ (inl e) => Some e
  | Ev _ (inr _) => None
  end.

Definition is_creation (o : op) : bool :=
  match o with
  | create_model _ _ _ _ | create_endpoint_config _ _ _ | create_endpoint _ _ => true
  | _ => false
  end.

Definition is_describe (o : op) : bool :=
  match o with
  | describe_endpoint _ => true
  | _ => false
  end.

Definition is_listing (o : op) : bool :=
  match o with
  | list_objects_v2 _ _ | list_training_jobs _ _ | list_endpoints _ _ => true
  | _ => false
  end.

Definition is_invoke (o : op) : bool :=
  match o with
  | invoke_endpoint _ _ => true
  | _ => false
  end.

(** ** A polled resource: a sequence of fetch results and a clock

    The environment of the polling loops.  The [k]-th status query is
    answered by [fetch k] and takes [latency k] seconds; [time.sleep(d)]
    takes [d] seconds.  The other calls succeed at once. *)

Module PollEnv.

Record poll_state : Type := mk_poll_state {
  polls : nat;
  clock : Z
}.

Definition start : poll_state := mk_poll_state 0 0.

Definition today : datetime := mk_datetime 2025 8 5 12 46 42 0.

Definition on_call (fetch : nat -> exception + string) (latency : nat -> Z) (o : op) (w : poll_state) : reply o * poll_state :=
  let polled := mk_poll_state (S (polls w)) (clock w + latency (polls w)) in
  match o return reply o * poll_state with
  | describe_endpoint _ =>
      (match fetch (polls w) with
       | inl e => inl e
       | inr s => inr (mk_endpoint_description s "arn:aws:sagemaker:endpoint" None
                         "2025-08-05 12:46:42+00:00")
       end, polled)
  | get_workflow_run _ _ =>
      (match fetch (polls w) with
       | inl e => inl e
       | inr s => inr (Some s)
       end, polled)
  | create_model _ _ _ _ => (inr "arn:aws:sagemaker:model", w)
  | create_endpoint_config _ _ _ => (inr "arn:aws:sagemaker:endpoint-config", w)
  | create_endpoint _ _ => (inr "arn:aws:sagemaker:endpoint", w)
  | delete_endpoint _ => (inr tt, w)
  | delete_endpoint_config _ => (inr tt, w)
  | delete_model _ => (inr tt, w)
  | invoke_endpoint _ _ => (inr "25.0", w)
  | list_objects_v2 _ _ => (inr None, w)
  | list_training_jobs _ _ => (inr [], w)
  | list_endpoints _ _ => (inr [], w)
  | start_workflow_run _ => (inr "wr_1", w)
  | subprocess_run _ => (inr "", w)
  | boto3_client _ _ => (inr tt, w)
  | list_training_jobs_by_time _ => (inr [], w)
  | describe_training_job _ => (inr "", w)
  | input _ => (inr "", w)
  end.

Definition on_ask (q : query) (w : poll_state) : answer q * poll_state :=
  match q return answer q * poll_state with
  | datetime_now => (today, w)
  | time_time => (clock w, w)
  | time_sleep d => (tt, mk_poll_state (polls w) (clock w + d))
  end.

Definition poll_env (fetch : nat -> exception + string) (latency : nat -> Z) : env poll_state :=
  mk_env poll_state (on_call fetch latency) on_ask.

(** A fetch sequence without errors. *)
Definition statuses (s : nat -> string) : nat -> exception + string :=
  fun k => inr (s k).

(** A finite sequence, continued by [d]. *)
Definition stream_of_list {A : Type} (l : list A) (d : A) : nat -> A :=
  fun k => nth k l d.

(** Seconds on the clock, counted from the start of the monitor, when the
    [k]-th status query of a loop that sleeps 30 seconds between queries
    has been answered. *)
Fixpoint elapsed_at (latency : nat -> Z) (k : nat) : Z :=
  match k with
  | O => latency O
  | S k' => (elapsed_at latency k' + 30 + latency (S k'))%Z
  end.

End PollEnv.

(** ** The outcome of a poll

    The polling loops have no result type of their own; their ends are read
    as follows.  The waiter: a normal return is ['InService'] reached, a
    [WaiterError] for a terminal failure is ['Failed'] reached, a
    [WaiterError] for the attempts is the timeout.  The monitor: [True] is
    ['InService'] reached; [False] is ['Failed'] reached or the timeout,
    told apart by the line printed before the return. *)

Inductive poll_outcome : Type :=
| Terminal (status : string)
| TimedOut.

Definition waiter_outcome (r : raised + unit) : option poll_outcome :=
  match r with
  | inr _ => Some (Terminal "InService")
  | inl (Exc (WaiterError TerminalFailure)) => Some (Terminal "Failed")
  | inl (Exc (WaiterError MaxAttemptsExceeded)) => Some TimedOut
  | _ => None
  end.

Definition printed (f : string) (out : list msg) : bool :=
  existsb (fun m => bool_decide (fmt m = f)) out.

Definition monitor_outcome {W : Type} (o : outcome W (option bool)) : option poll_outcome :=
  match result o with
  | inr (Some true) => Some (Terminal "InService")
  | inr (Some false) =>
      if printed "Endpoint deployment FAILED!" (stdout o) then Some (Terminal "Failed")
      else if printed "Timeout reached ({} minutes)" (stdout o) then Some TimedOut
      else None
  | _ => None
  end.

(** A status that ends the poll of an endpoint. *)
Definition endpoint_terminal (s : string) : bool :=
  bool_decide (s = "InService") || bool_decide (s = "Failed").

(** A status that ends the poll of a workflow run. *)
Definition workflow_terminal (s : string) : bool :=
  bool_decide (s = "COMPLETED") || bool_decide (s = "FAILED").

(** The sequence [s] shows the terminal status [t] at some query [k] below
    [n], and no terminal status before. *)
Definition reaches_within (terminal : string -> bool) (s : nat -> string) (n : nat) (t : string) : Prop :=
  exists k, k < n /\ s k = t /\ terminal t = true /\
            forall j, j < k -> terminal (s j) = false.

(** The same for a wall-clock ceiling: every query before [k] was answered
    within [limit] seconds of the start. *)
Definition reaches_in_time (s : nat -> string) (latency : nat -> Z) (limit : Z) (t : string) : Prop :=
  exists k, s k = t /\ endpoint_terminal t = true /\
            forall j, j < k -> endpoint_terminal (s j) = false /\
                               (PollEnv.elapsed_at latency j <= limit)%Z.

(** ** A reference control plane for the inference service

    The external service as the cleanup agent sees it: endpoints with their
    descriptions, endpoint configurations and models by name.  Deleting
    removes the resource; describing or deleting an absent resource is
    answered by an error response that says the resource does not exist.
    [faults] are the errors the service or the connection raises for a call
    instead of serving it.  The operations of the other services are not
    served; a client is built and a line is read without an error. *)

Module ControlPlane.

Record state : Type := mk_state {
  endpoints : gmap string endpoint_description;
  endpoint_configs : gset string;
  models : gset string;
  faults : op -> option exception
}.

Definition not_found (kind name : string) : exception :=
  ClientError (kind +:+ " does not exist: " +:+ name).

(** The creation time of what this plane creates. *)
Definition created : string := "2025-08-05 12:46:42+00:00".

Definition not_served : exception :=
  ClientError "UnknownOperationException".

Definition set_endpoints (s : state) (m : gmap string endpoint_description) : state :=
  mk_state m (endpoint_configs s) (models s) (faults s).

Definition set_endpoint_configs (s : state) (c : gset string) : state :=
  mk_state (endpoints s) c (models s) (faults s).

Definition set_models (s : state) (m : gset string) : state :=
  mk_state (endpoints s) (endpoint_configs s) m (faults s).

Definition serve (o : op) (s : state) : reply o * state :=
  match o return reply o * state with
  | describe_endpoint n =>
      match endpoints s !! n with
      | Some d => (inr d, s)
      | None => (inl (not_found "Endpoint" n), s)
      end
  | delete_endpoint n =>
      match endpoints s !! n with
      | Some _ => (inr tt, set_endpoints s (delete n (endpoints s)))
      | None => (inl (not_found "Endpoint" n), s)
      end
  | delete_endpoint_config n =>
      if decide (n ∈ endpoint_configs s)
      then (inr tt, set_endpoint_configs s (endpoint_configs s ∖ {[n]}))
      else (inl (not_found "Endpoint configuration" n), s)
  | delete_model n =>
      if decide (n ∈ models s)
      then (inr tt, set_models s (models s ∖ {[n]}))
      else (inl (not_found "Model" n), s)
  | create_model n _ _ _ =>
      (inr ("arn:aws:sagemaker:model/" +:+ n), set_models s (models s ∪ {[n]}))
  | create_endpoint_config n _ _ =>
      (inr ("arn:aws:sagemaker:endpoint-config/" +:+ n),
       set_endpoint_configs s (endpoint_configs s ∪ {[n]}))
  | create_endpoint n _ =>
      let arn := "arn:aws:sagemaker:endpoint/" +:+ n in
      (inr arn, set_endpoints s (<[n := mk_endpoint_description "Creating" arn None created]>
                                   (endpoints s)))
  | invoke_endpoint n _ =>
      match endpoints s !! n with
      | Some d =>
          if bool_decide (EndpointStatus d = "InService")
          then (inr "25.0", s)
          else (inl (ClientError "Endpoint is not in service"), s)
      | None => (inl (not_found "Endpoint" n), s)
      end
  | list_endpoints _ k =>
      (inr (take k ((fun '(n, d) => mk_endpoint_summary n (EndpointStatus d)
                                      (CreationTime d) (CreationTime d))
                      <$> map_to_list (endpoints s))), s)
  | list_objects_v2 _ _ => (inl not_served, s)
  | list_training_jobs _ _ => (inl not_served, s)
  | start_workflow_run _ => (inl not_served, s)
  | get_workflow_run _ _ => (inl not_served, s)
  | subprocess_run _ => (inl not_served, s)
  | boto3_client _ _ => (inr tt, s)
  | list_training_jobs_by_time _ => (inl not_served, s)
  | describe_training_job _ => (inl not_served, s)
  | input _ => (inr "", s)
  end.

Definition on_call (o : op) (s : state) : reply o * state :=
  match faults s o with
  | Some e => (inl e, s)
  | None => serve o s
  end.

Definition on_ask (q : query) (s : state) : answer q * state :=
  match q return answer q * state with
  | datetime_now => (PollEnv.today, s)
  | time_time => (0%Z, s)
  | time_sleep _ => (tt, s)
  end.

Definition control_plane : env state := mk_env state on_call on_ask.

Definition no_faults : op -> option exception := fun _ => None.


End ControlPlane.

(** ** Whole numbers as floats

    An instance of the float interface for examples: numbers without a
    fraction, written in decimal. *)

Module WholeNumbers.

Fixpoint digits (acc : Z) (l : list ascii) : option Z :=
  match l with
  | [] => Some acc
  | c :: l' =>
      let n := nat_of_ascii c in
      if ((48 <=? n) && (n <=? 57))%nat
      then digits (acc * 10 + Z.of_nat (n - 48)) l'
      else if (n =? 46)%nat then Some acc
      else None
  end.

(** The number before the decimal point; [None] for text that is not a
    number. *)
Definition parse (s : string) : option Z :=
  match list_ascii_of_string (Text.strip s) with
  | [] => None
  | "-"%char :: l => match l with [] => None | _ => Z.opp <$> digits 0 l end
  | l => digits 0 l
  end.

Definition ops : float_ops :=
  mk_float_ops Z (fun s => default 0%Z (parse s)) parse pretty pretty Z.sub Z.abs Z.ltb.

End WholeNumbers.

(** ** Composition of outcomes *)

(** The outcome of a program followed by another. *)
Definition and_then {W A B : Type} (o : outcome W A) (o' : outcome W B) : outcome W B :=
  mk_outcome (result o') (world o') (trace o ++ trace o') (stdout o ++ stdout o').

(** The outcome of a program that raised, seen by what follows it. *)
Definition cut_short {W A B : Type} (o : outcome W A) (r : raised) : outcome W B :=
  mk_outcome (inl r) (world o) (trace o) (stdout o).

(** ** Shapes of names *)



(** ** Programs by the calls they can make *)

(** Whatever the replies, every call of [p] satisfies [P]. *)
Fixpoint calls_only {A : Type} (P : op -> bool) (p : prog A) : Prop :=
  match p with
  | Ret _ => True
  | Raise _ => True
  | Echo _ k => calls_only P k
  | Ask q k => forall a, calls_only P (k a)
  | Call o k => P o = true /\ forall r, calls_only P (k r)
  end.

(** The creation calls of a trace, in the order they were made. *)
Definition creations (tr : list event) : list event :=
  List.filter (fun ev => is_creation (ev_op ev)) tr.

(** The creation calls are a model, then an endpoint configuration that
    names the model, then an endpoint that names the configuration; each
    call is made only when the one before returned. *)
Definition ordered_creations (tr : list event) : Prop :=
  (exists m i d r e,
     creations tr = [Ev (create_model m i d r) (inl e)]) \/
  (exists m i d r a c t e,
     creations tr = [Ev (create_model m i d r) (inr a);
                     Ev (create_endpoint_config c m t) (inl e)]) \/
  (exists m i d r a c t a' n rep,
     creations tr = [Ev (create_model m i d r) (inr a);
                     Ev (create_endpoint_config c m t) (inr a');
                     Ev (create_endpoint n c) rep]).

Definition not_creation (o : op) : bool := negb (is_creation o).

(** Wherever the trace has a call that creates an endpoint, a model was
    created before, then an endpoint configuration that names the model and
    that the endpoint names, and both calls returned. *)
Definition endpoint_after_model_and_config (tr : list event) : Prop :=
  forall pre n c rep post,
    tr = pre ++ Ev (create_endpoint n c) rep :: post ->
    exists m i d r a t a' l1 l2 l3,
      pre = l1 ++ Ev (create_model m i d r) (inr a) ::
            l2 ++ Ev (create_endpoint_config c m t) (inr a') :: l3.

(** ** The orchestration run by its calls *)

Definition read_or_invoke (o : op) : bool := is_listing o || is_invoke o.

(** The trace is the three listings followed by the invocation [ev], and
    the listings showed training data, a completed training job among the
    most recent ones, and the most recent endpoint in service; [ev] invokes
    that endpoint. *)
Definition reuses_existing (tr : list event) (ev : event) : Prop :=
  exists n jobs job ep rest,
    tr = [Ev (list_objects_v2 RunFullPipeline.bucket_data "training/") (inr n);
          Ev (list_training_jobs "sensor-prediction" 3) (inr jobs);
          Ev (list_endpoints "sensor-prediction" 1) (inr (ep :: rest));
          ev] /\
    ev_op ev = invoke_endpoint (EndpointName ep) RunFullPipeline.csv_input /\
    default 0 n <> 0 /\
    List.find (fun j => bool_decide (TrainingJobStatus j = "Completed")) jobs = Some job /\
    SummaryStatus ep = "InService".

(** ** Entry points *)

(** The last call of the trace raised [e]. *)
Definition ended_by (tr : list event) (e : exception) : Prop :=
  exists ev, last tr = Some ev /\ ev_error ev = Some e.

(** ** The cleanup sweep by its candidates *)

(** A candidate of the sweep: a name from one of the three lists. *)
Inductive candidate : Type :=
| CEndpoint (name : string)
| CConfig (name : string)
| CModel (name : string).

#[global] Instance candidate_eq_dec : EqDecision candidate.
Proof. solve_decision. Defined.

(** The candidates in the order the three loops visit them. *)
Definition candidates (endpoints configs models : list string) : list candidate :=
  (CEndpoint <$> endpoints) ++ (CConfig <$> configs) ++ (CModel <$> models).

Definition cleanup_step (c : candidate) : prog unit :=
  match c with
  | CEndpoint n => Cleanup.cleanup_endpoint n
  | CConfig n => Cleanup.cleanup_config n
  | CModel n => Cleanup.cleanup_model n
  end.

(** The calls made for one endpoint candidate: the status query alone when
    it raises or shows a status other than ['Failed'] and ['OutOfService'];
    the status query and the deletion when it shows one of the two. *)
Definition endpoint_segment (n : string) (seg : list event) : Prop :=
  (exists e, seg = [Ev (describe_endpoint n) (inl e)]) \/
  (exists d, seg = [Ev (describe_endpoint n) (inr d)] /\
             EndpointStatus d <> "Failed" /\ EndpointStatus d <> "OutOfService") \/
  (exists d r, seg = [Ev (describe_endpoint n) (inr d); Ev (delete_endpoint n) r] /\
               (EndpointStatus d = "Failed" \/ EndpointStatus d = "OutOfService")).

(** The calls made for one candidate: for a configuration or a model, the
    deletion and nothing else. *)
Definition candidate_segment (c : candidate) (seg : list event) : Prop :=
  match c with
  | CEndpoint n => endpoint_segment n seg
  | CConfig n => exists r, seg = [Ev (delete_endpoint_config n) r]
  | CModel n => exists r, seg = [Ev (delete_model n) r]
  end.

(** Every exception in the trace is an error response of the service. *)
Definition client_errors_only (tr : list event) : Prop :=
  forall ev e, In ev tr -> ev_error ev = Some e -> exists m, e = ClientError m.

(** The operations of a trace. *)
Definition ops (tr : list event) : list op := ev_op <$> tr.

(** ** The sweep on the reference control plane *)

Module Sweep.

Import ControlPlane.

(** The sweep removes the candidate from the state [s]. *)
Definition will_delete (c : candidate) (s : state) : bool :=
  match c with
  | CEndpoint n =>
      match faults s (describe_endpoint n), endpoints s !! n, faults s (delete_endpoint n) with
      | None, Some d, None => bool_decide (EndpointStatus d ∈ ["Failed"; "OutOfService"])
      | _, _, _ => false
      end
  | CConfig n =>
      match faults s (delete_endpoint_config n) with
      | None => bool_decide (n ∈ endpoint_configs s)
      | Some _ => false
      end
  | CModel n =>
      match faults s (delete_model n) with
      | None => bool_decide (n ∈ models s)
      | Some _ => false
      end
  end.

Definition remove (c : candidate) (s : state) : state :=
  match c with
  | CEndpoint n => set_endpoints s (delete n (endpoints s))
  | CConfig n => set_endpoint_configs s (endpoint_configs s ∖ {[n]})
  | CModel n => set_models s (models s ∖ {[n]})
  end.

(** The state after the sweep over the candidates [l]. *)
Definition sweep_world (l : list candidate) (s : state) : state :=
  world (run control_plane (for_each l cleanup_step) s).

End Sweep.

(** ** The invocation tests by their samples *)

(** The reply to an invocation. *)
Definition invoke_reply (ev : event) : exception + string :=
  match ev with
  | Ev o r =>
      match o return reply o -> exception + string with
      | invoke_endpoint _ _ => fun r => r
      | _ => fun _ => inl (ValueError "not an invocation")
      end r
  end.

Module BatchReport.

Import TestEndpoint.

(** The error of turn [i], if the reply [r] makes it fail: the exception of
    the invocation, or the [ValueError] of [float]. *)
Definition turn_error {F : float_ops} (r : exception + string) : option exception :=
  match r with
  | inl e => Some e
  | inr body =>
      match float_of_string F body with
      | Some _ => None
      | None => Some (ValueError ("could not convert string to float: " +:+ body))
      end
  end.

(** The entry turn [i] appends to the list [predictions]. *)
Definition turn_entry {F : float_ops} (draws : nat -> draw F) (i : nat) (r : exception + string) : option (prediction F) :=
  match r with
  | inl _ => None
  | inr body =>
      match float_of_string F body with
      | Some p =>
          Some (mk_prediction (i + 1) (avg_temp (draws i)) (avg_humidity (draws i)) p
                  (fsub F p (avg_temp (draws i))))
      | None => None
      end
  end.

(** The line turn [i] prints: the result, or the error. *)
Definition turn_line {F : float_ops} (draws : nat -> draw F) (i : nat) (r : exception + string) : msg :=
  match turn_entry draws i r, @turn_error F r with
  | Some e, _ =>
      Line "Sample {}: Input={:.2f}C, Predicted={:.2f}C, Diff={:.2f}C"
        [pretty (sample e); format_2f F (input_temp e); format_2f F (predicted_temp e);
         format_2f F (difference e)]
  | None, Some e => Line "Error in sample {}: {}" [pretty (i + 1); str e]
  | None, None => Line "" []
  end.

End BatchReport.

Module SampleReport.

Import TestEndpointPredictions.

(** The lines printed for a sample before it is sent. *)
Definition sample_header {F : float_ops} (i : nat) (sample : features F) : list msg :=
  [ Line "Test Sample {}:" [pretty i];
    Line "Input features: {}" [csv_input sample];
    Line "Temperature: {}C, Humidity: {}%"
      [str_float F (temperature sample); str_float F (humidity sample)];
    Line "Time: Hour {}, Day of week {}"
      [pretty (hour_of_day sample); pretty (day_of_week sample)] ].

Definition trend {F : float_ops} (temp_diff : float F) : string :=
  if flt F (fabs F temp_diff) (lit F "1") then "stable"
  else if flt F (lit F "0") temp_diff then "increasing"
  else "decreasing".

(** The lines printed for a sample once the invocation has answered [r]:
    the prediction and its trend, or the error. *)
Definition sample_report {F : float_ops} (i : nat) (sample : features F) (r : exception + string) : list msg :=
  match r with
  | inl e => [Line "Error making prediction for sample {}: {}" [pretty i; str e]]
  | inr body =>
      match float_of_string F (Text.strip body) with
      | Some p =>
          [ Line "Predicted next temperature: {:.2f}C" [format_2f F p];
            Line "Temperature trend: {} ({:+.2f}C change)"
              [trend (fsub F p (temperature sample));
               format_2f F (fsub F p (temperature sample))] ]
      | None =>
          [Line "Error making prediction for sample {}: {}"
             [pretty i;
              str (ValueError ("could not convert string to float: " +:+ Text.strip body))]]
      end
  end.

End SampleReport.

(** ** Polling loops by their turns *)

(** Seconds on the clock, counted from the start of the monitor, when the
    [k]-th turn of its loop begins. *)
Definition clock_before (latency : nat -> Z) (k : nat) : Z :=
  match k with
  | O => 0%Z
  | S k' => (PollEnv.elapsed_at latency k' + 30)%Z
  end.

(** A turn of the monitor that does not end the loop: the query is
    answered by a status that is not terminal, within the limit. *)
Definition quiet_turn (fetch : nat -> exception + string) (latency : nat -> Z) (limit : Z) (k : nat) : Prop :=
  exists st, fetch k = inr st /\ endpoint_terminal st = false /\
             (PollEnv.elapsed_at latency k <= limit)%Z.

(** The loop has not returned, however often it is unrolled. *)
Definition never_returns {W A : Type} (E : env W) (loop : nat -> prog (option A)) (w : W) : Prop :=
  forall fuel, result (run E (loop fuel) w) = inr None.

(** The loop unrolled [fuel] times has made [fuel] status queries. *)
Definition polls_without_bound (fetch : nat -> exception + string) (latency : nat -> Z) (loop : nat -> prog (option unit)) : Prop :=
  forall fuel,
    PollEnv.polls (world (run (PollEnv.poll_env fetch latency) (loop fuel) PollEnv.start)) = fuel.

(** The line the monitor prints at every turn. *)
Definition status_line : string := "[{}] Status: {} (Elapsed: {} s)".

(** The lines by which the ends of the monitor are told apart. *)
Definition failed_line : string := "Endpoint deployment FAILED!".
Definition timeout_line : string := "Timeout reached ({} minutes)".
Definition error_line : string := "Error monitoring endpoint: {}".

(** ** The stages of [deploy.py] by their calls *)

(** The commands of [deploy_infrastructure], in the order of the source. *)
Definition terraform_commands : list string :=
  ["terraform init"; "terraform plan"; "terraform apply -auto-approve"; "terraform output -json"].

(** A status query of the endpoint [name] that does not show it in service:
    the query raised, or returned another status. *)
Definition not_ready (name : string) (ev : event) : Prop :=
  (exists e, ev = Ev (describe_endpoint name) (inl e)) \/
  (exists d, ev = Ev (describe_endpoint name) (inr d) /\ EndpointStatus d <> "InService").


(** ** The tests of [test_endpoint.py] by their calls *)

(** The number the reply to an invocation stands for: [None] when the
    invocation raised or the body is not a number. *)
Definition parsed_reply (F : float_ops) (r : exception + string) : option (float F) :=
  match r with
  | inr body => float_of_string F body
  | inl _ => None
  end.

(** ** The sweep by what it keeps *)

Module SweepFrame.

Import ControlPlane.

(** The state [s'] keeps what the candidates [l] do not cover: every
    endpoint of [s] that is no candidate, or whose status is neither
    ['Failed'] nor ['OutOfService'], is in [s'] with the same description;
    every endpoint configuration and every model of [s] that is no
    candidate is in [s']; and [s'] holds nothing that [s] does not hold. *)
Definition keeps (l : list candidate) (s s' : state) : Prop :=
  (forall n d, endpoints s !! n = Some d ->
     CEndpoint n ∉ l \/ EndpointStatus d ∉ ["Failed"; "OutOfService"] ->
     endpoints s' !! n = Some d) /\
  (forall n, n ∈ endpoint_configs s -> CConfig n ∉ l -> n ∈ endpoint_configs s') /\
  (forall n, n ∈ models s -> CModel n ∉ l -> n ∈ models s') /\
  (forall n d, endpoints s' !! n = Some d -> endpoints s !! n = Some d) /\
  endpoint_configs s' ⊆ endpoint_configs s /\
  models s' ⊆ models s.

End SweepFrame.

(** What an entry [p] of the list of [test_batch_predictions] says about the
    turn that appended it, when the first of the replies [tr] is the one of
    turn [a]: the entry carries the number of the turn, the prediction is
    the number its reply stands for, and the inputs are the draws of the
    turn. *)
Definition entry_of_turn {F : float_ops} (draws : nat -> TestEndpoint.draw F)
    (tr : list event) (a : nat) (p : TestEndpoint.prediction F) : Prop :=
  a < TestEndpoint.sample p /\
  (exists ev, tr !! (TestEndpoint.sample p - 1 - a) = Some ev /\
              parsed_reply F (invoke_reply ev) = Some (TestEndpoint.predicted_temp p)) /\
  TestEndpoint.input_temp p = TestEndpoint.avg_temp (draws (TestEndpoint.sample p - 1)) /\
  TestEndpoint.input_humidity p = TestEndpoint.avg_humidity (draws (TestEndpoint.sample p - 1)) /\
  TestEndpoint.difference p = fsub F (TestEndpoint.predicted_temp p) (TestEndpoint.input_temp p).

(** ** The time a poll takes *)

(** The seconds the [n] status queries from the [k]-th on take to be
    answered. *)
Definition answer_time (latency : nat -> Z) (k n : nat) : Z :=
  foldr Z.add 0%Z (latency <$> seq k n).

(** ** Clients

    A script runs with the clients it built, or ends where one cannot be
    built. *)

Definition is_client (o : op) : bool :=
  match o with
  | boto3_client _ _ => true
  | _ => false
  end.


(** One of the clients [cs] could not be built: the trace consists of
    constructions of [cs], in this order, and the last of them raised [e];
    so no other call was made. *)
Definition unbuilt (cs : list op) (tr : list event) (e : exception) : Prop :=
  ops tr `prefix_of` cs /\ ended_by tr e.

(** ** The checks of the orchestration run *)

(** The clients [run_full_ml_pipeline] builds before its [try]. *)
Definition pipeline_clients : list op :=
  [boto3_client "sagemaker" None; boto3_client "s3" None; boto3_client "glue" None].

(** Their constructions when none raised. *)
Definition pipeline_clients_built : list event :=
  [Ev (boto3_client "sagemaker" None) (inr tt);
   Ev (boto3_client "s3" None) (inr tt);
   Ev (boto3_client "glue" None) (inr tt)].

(** The endpoint the listing of the endpoints shows as active: the first
    one, if it is in service and has a name. *)
Definition active_endpoint (endpoints : list endpoint_summary) : option string :=
  match endpoints with
  | endpoint :: _ =>
      if bool_decide (SummaryStatus endpoint = "InService") && negb (bool_decide (EndpointName endpoint = ""))
      then Some (EndpointName endpoint)
      else None
  | [] => None
  end.

(** The first completed job of the listing of the training jobs. *)
Definition completed_job (jobs : list training_job_summary) : option training_job_summary :=
  List.find (fun job => bool_decide (TrainingJobStatus job = "Completed")) jobs.

(** The calls of [run_full_ml_pipeline] after its clients, and what it
    returns: it stops with [False] at the first check that raises or does
    not pass (no training data, no completed job, no active endpoint), and
    at the client of the runtime if it cannot be built; otherwise it goes
    on to the next check, and after the last to the invocation of the
    active endpoint, and returns whether the invocation returned. *)
Inductive pipeline_run : list event -> bool -> Prop :=
| stop_at_data (r : exception + option nat) :
    match r with inl _ => True | inr n => default 0 n = 0 end ->
    pipeline_run [Ev (list_objects_v2 RunFullPipeline.bucket_data "training/") r] false
| stop_at_jobs (n : option nat) (r : exception + list training_job_summary) :
    default 0 n <> 0 ->
    match r with inl _ => True | inr jobs => completed_job jobs = None end ->
    pipeline_run [Ev (list_objects_v2 RunFullPipeline.bucket_data "training/") (inr n);
                  Ev (list_training_jobs "sensor-prediction" 3) r] false
| stop_at_endpoints (n : option nat) (jobs : list training_job_summary)
    (r : exception + list endpoint_summary) :
    default 0 n <> 0 ->
    completed_job jobs <> None ->
    match r with inl _ => True | inr endpoints => active_endpoint endpoints = None end ->
    pipeline_run [Ev (list_objects_v2 RunFullPipeline.bucket_data "training/") (inr n);
                  Ev (list_training_jobs "sensor-prediction" 3) (inr jobs);
                  Ev (list_endpoints "sensor-prediction" 1) r] false
| stop_at_runtime (n : option nat) (jobs : list training_job_summary)
    (endpoints : list endpoint_summary) (e : exception) :
    default 0 n <> 0 ->
    completed_job jobs <> None ->
    active_endpoint endpoints <> None ->
    pipeline_run [Ev (list_objects_v2 RunFullPipeline.bucket_data "training/") (inr n);
                  Ev (list_training_jobs "sensor-prediction" 3) (inr jobs);
                  Ev (list_endpoints "sensor-prediction" 1) (inr endpoints);
                  Ev (boto3_client "sagemaker-runtime" None) (inl e)] false
| tested (n : option nat) (jobs : list training_job_summary)
    (endpoints : list endpoint_summary) (name : string) (r : exception + string) :
    default 0 n <> 0 ->
    completed_job jobs <> None ->
    active_endpoint endpoints = Some name ->
    pipeline_run [Ev (list_objects_v2 RunFullPipeline.bucket_data "training/") (inr n);
                  Ev (list_training_jobs "sensor-prediction" 3) (inr jobs);
                  Ev (list_endpoints "sensor-prediction" 1) (inr endpoints);
                  Ev (boto3_client "sagemaker-runtime" None) (inr tt);
                  Ev (invoke_endpoint name RunFullPipeline.csv_input) r]
                 (match r with inr _ => true | inl _ => false end).

(** ** Status modes *)


(** ** The clients of the monitor and of the tests of the endpoint *)



(** ** The entry point of [deploy_model_github.py] *)



(** ** The tests of [test_endpoint.py] by their calls *)



(** ** Fetch errors during a poll *)


(** * Properties *)

(** ** The interpreter *)

Section Run.

Context {W : Type} (E : env W).

Lemma run_bind {A B : Type} (p : prog A) (f : A -> prog B) (w : W) :
  run E (bind p f) w =
  match result (run E p w) with
  | inr a => and_then (run E p w) (run E (f a) (world (run E p w)))
  | inl r => cut_short (run E p w) r
  end.
Proof.
  revert w. induction p as [a|r|m k IH|q k IH|o k IH]; intros w; simpl.
  - destruct (run E (f a) w); reflexivity.
  - reflexivity.
  - rewrite IH. destruct (run E k w) as [[r|a] w1 tr out]; reflexivity.
  - destruct (on_ask E q w) as [a w']. apply IH.
  - destruct (on_call E o w) as [r w']. simpl. rewrite IH.
    destruct (run E (k r) w') as [[r'|a] w1 tr out]; reflexivity.
Qed.

Lemma run_try_except {A : Type} (p : prog A) (h : exception -> option (prog A)) (w : W) :
  run E (try_except p h) w =
  match result (run E p w) with
  | inl (Exc e) =>
      match h e with
      | Some q => and_then (run E p w) (run E q (world (run E p w)))
      | None => run E p w
      end
  | _ => run E p w
  end.
Proof.
  revert w. induction p as [a|r|m k IH|q k IH|o k IH]; intros w; simpl.
  - reflexivity.
  - destruct r as [e|c]; simpl; [|reflexivity].
    destruct (h e) as [q|]; simpl; [|reflexivity].
    destruct (run E q w); reflexivity.
  - rewrite IH. destruct (run E k w) as [[[e|c]|a] w1 tr out]; try reflexivity.
    simpl. destruct (h e); reflexivity.
  - destruct (on_ask E q w) as [a w']. apply IH.
  - destruct (on_call E o w) as [r w']. simpl. rewrite IH.
    destruct (run E (k r) w') as [[[e|c]|a] w1 tr out]; try reflexivity.
    simpl. destruct (h e); reflexivity.
Qed.

Lemma run_bind_assoc {A B C : Type} (p : prog A) (f : A -> prog B) (g : B -> prog C) (w : W) :
  run E (bind (bind p f) g) w = run E (bind p (fun a => bind (f a) g)) w.
Proof.
  revert w. induction p as [a|r|m k IH|q k IH|o k IH]; intros w; simpl.
  - reflexivity.
  - reflexivity.
  - rewrite IH. reflexivity.
  - destruct (on_ask E q w) as [a w']. apply IH.
  - destruct (on_call E o w) as [r w']. rewrite IH. reflexivity.
Qed.

End Run.

(** ** The helpers on examples *)

Example strip_spaces : Text.strip "  25.3  " = "25.3".
Proof. reflexivity. Qed.

Example join_features : Text.join "," ["25.5"; "68.2"; "8"] = "25.5,68.2,8".
Proof. reflexivity. Qed.

Example not_found_says_does_not_exist :
  contains "does not exist" (str (ControlPlane.not_found "Endpoint" "sensor-prediction-endpoint")) = true.
Proof. reflexivity. Qed.

Example access_denied_is_another_error :
  contains "does not exist" (str (ClientError "AccessDeniedException")) = false.
Proof. reflexivity. Qed.

Example parse_prediction : WholeNumbers.parse " 25.0 " = Some 25%Z.
Proof. reflexivity. Qed.

Example parse_no_number : WholeNumbers.parse "error" = None.
Proof. reflexivity. Qed.

(** The waiter on an endpoint seen in service at the third query. *)
Example waiter_third_query :
  let s := fun k => if k <? 2 then "Creating" else "InService" in
  let o := run (PollEnv.poll_env (PollEnv.statuses s) (fun _ => 1%Z))
             (Botocore.endpoint_in_service_wait "sensor-prediction-endpoint" 30 20)
             PollEnv.start in
  result o = inr tt /\ PollEnv.polls (world o) = 3 /\ PollEnv.clock (world o) = 63%Z.
Proof. cbv zeta. repeat split; vm_compute; reflexivity. Qed.

(** ** Resource names *)

Section Names.

Import Naming.


(** The names the scripts carry in their source are of this form, and the
    calendar counts the days as [date.toordinal] does. *)
Example endpoint_name_20250805 :
  endpoint_name (mk_datetime 2025 8 5 12 46 42 123456) =
  "sensor-prediction-endpoint-20250805-124642".
Proof. reflexivity. Qed.

Example toordinal_epoch : toordinal (mk_datetime 1970 1 1 0 0 0 0) = 719163%Z.
Proof. reflexivity. Qed.

Example toordinal_leap_day : toordinal (mk_datetime 2024 3 1 0 0 0 0) = 738946%Z.
Proof. reflexivity. Qed.












End Names.

(** ** Programs by the calls they can make *)

Section CallsOnly.

Context {W : Type} (E : env W) (P : op -> bool).

Lemma calls_only_run {A : Type} (p : prog A) (w : W) :
  calls_only P p -> Forall (fun ev => P (ev_op ev) = true) (trace (run E p w)).
Proof.
  revert w. induction p as [a|r|m k IH|q k IH|o k IH]; intros w Hp; simpl in *.
  - constructor.
  - constructor.
  - apply IH, Hp.
  - destruct (on_ask E q w) as [a w']. apply IH, Hp.
  - destruct (on_call E o w) as [r w']. simpl. destruct Hp as [Ho Hk].
    constructor; [exact Ho|]. apply IH, Hk.
Qed.

Lemma calls_only_bind {A B : Type} (p : prog A) (f : A -> prog B) :
  calls_only P p -> (forall a, calls_only P (f a)) -> calls_only P (bind p f).
Proof.
  intros Hp Hf. induction p as [a|r|m k IH|q k IH|o k IH]; simpl in *.
  - apply Hf.
  - exact I.
  - apply IH, Hp.
  - intros a. apply IH, Hp.
  - destruct Hp as [Ho Hk]. split; [exact Ho|]. intros r. apply IH, Hk.
Qed.

Lemma calls_only_try_except {A : Type} (p : prog A) (h : exception -> option (prog A)) :
  calls_only P p -> (forall e q, h e = Some q -> calls_only P q) ->
  calls_only P (try_except p h).
Proof.
  intros Hp Hh. induction p as [a|r|m k IH|q k IH|o k IH]; simpl in *.
  - exact I.
  - destruct r as [e|c]; simpl; [|exact I].
    destruct (h e) as [q|] eqn:Hq; simpl; [|exact I]. eapply Hh, Hq.
  - apply IH, Hp.
  - intros a. apply IH, Hp.
  - destruct Hp as [Ho Hk]. split; [exact Ho|]. intros r. apply IH, Hk.
Qed.

Lemma calls_only_for_each {A : Type} (l : list A) (body : A -> prog unit) :
  (forall x, calls_only P (body x)) -> calls_only P (for_each l body).
Proof.
  intros Hb. induction l as [|x l IH]; simpl; [exact I|].
  apply calls_only_bind; [apply Hb|]. intros _. exact IH.
Qed.

End CallsOnly.

Lemma filter_none {A : Type} (f g : A -> bool) (l : list A) :
  Forall (fun x => g x = true) l -> (forall x, g x = true -> f x = false) ->
  List.filter f l = [].
Proof.
  intros Hl Hfg. induction Hl as [|x l Hx _ IH]; simpl; [reflexivity|].
  rewrite (Hfg x Hx). exact IH.
Qed.

Lemma creations_nil {W A : Type} (E : env W) (p : prog A) (w : W) :
  calls_only not_creation p -> creations (trace (run E p w)) = [].
Proof.
  intros Hp. unfold creations.
  apply (filter_none _ (fun ev => not_creation (ev_op ev))).
  - apply calls_only_run, Hp.
  - intros ev. unfold not_creation. destruct (is_creation (ev_op ev)); [discriminate|reflexivity].
Qed.

(** ** The waiter *)

Lemma wait_loop_describes (more : nat) (name : string) (delay : Z) :
  calls_only is_describe (Botocore.wait_loop more name delay).
Proof.
  induction more as [|more IH]; simpl.
  - split; [reflexivity|]. intros [[]|d]; simpl; try exact I.
    repeat case_bool_decide; exact I.
  - split; [reflexivity|]. intros [[]|d]; simpl; try exact I.
    repeat case_bool_decide; simpl; try exact I.
    intros _. exact IH.
Qed.

Lemma calls_only_weaken {A : Type} (P Q : op -> bool) (p : prog A) :
  (forall o, P o = true -> Q o = true) -> calls_only P p -> calls_only Q p.
Proof.
  intros HPQ. induction p as [a|r|m k IH|q k IH|o k IH]; simpl; auto.
  intros [Ho Hk]. split; auto.
Qed.

Lemma wait_not_creation (name : string) (delay : Z) (n : nat) :
  calls_only not_creation (Botocore.endpoint_in_service_wait name delay n).
Proof.
  apply (calls_only_weaken is_describe); [|apply wait_loop_describes].
  intros []; simpl; intros; try discriminate; reflexivity.
Qed.

(** ** The deployment stage *)

Section Deployment.

Context {W : Type} (E : env W).

Local Opaque Botocore.endpoint_in_service_wait.

Lemma deploy_model_creations (w : W) :
  ordered_creations (trace (run E DeployModel.deploy_model w)).
Proof.
  unfold DeployModel.deploy_model. simpl.
  destruct (on_ask E datetime_now w) as [t1 w1]. simpl.
  destruct (on_ask E datetime_now w1) as [t2 w2]. simpl.
  destruct (on_ask E datetime_now w2) as [t3 w3]. simpl.
  destruct (on_call E _ w3) as [[e|a] w4]; simpl.
  { left. do 5 eexists. reflexivity. }
  destruct (on_call E _ w4) as [[e|a'] w5]; simpl.
  { right; left. do 8 eexists. reflexivity. }
  destruct (on_call E _ w5) as [rep w6]; simpl.
  right; right. do 10 eexists. unfold creations. simpl. do 3 f_equal.
  destruct rep as [e|a'']; simpl; [reflexivity|].
  apply (creations_nil E).
  apply calls_only_try_except.
  - apply calls_only_bind; [apply wait_not_creation|]. intros _. simpl.
    split; [reflexivity|]. intros [e|d]; exact I.
  - intros e q [= <-]. exact I.
Qed.

Lemma deploy_model_github_creations (w : W) (cfg : DeployModelGithub.config)
    (path : string) (mn en : option string) :
  ordered_creations (trace (run E (DeployModelGithub.deploy_model cfg path mn en) w)).
Proof.
  unfold DeployModelGithub.deploy_model. simpl.
  destruct (on_ask E datetime_now w) as [t1 w1]. simpl.
  destruct (on_call E _ w1) as [[e|a] w4]; simpl.
  { left. do 5 eexists. reflexivity. }
  destruct (on_call E _ w4) as [[e|a'] w5]; simpl.
  { right; left. do 8 eexists. reflexivity. }
  destruct (on_call E _ w5) as [rep w6]; simpl.
  right; right. do 10 eexists. unfold creations. simpl. do 3 f_equal.
  destruct rep as [e|a'']; simpl; [reflexivity|].
  apply (creations_nil E).
  apply calls_only_try_except.
  - apply calls_only_bind; [apply wait_not_creation|]. intros _. simpl.
    split; [reflexivity|]. intros [e|d]; simpl; [exact I|].
    case_bool_decide; simpl; [exact I|].
    destruct (FailureReason d); exact I.
  - intros e q [= <-]. exact I.
Qed.

End Deployment.

Lemma filter_eq_cons {A : Type} (f : A -> bool) (l : list A) (x : A) (rest : list A) :
  List.filter f l = x :: rest ->
  exists l1 l2, l = l1 ++ x :: l2 /\ List.filter f l1 = [] /\ List.filter f l2 = rest.
Proof.
  induction l as [|y l IH]; simpl; [discriminate|].
  destruct (f y) eqn:Hy.
  - intros [= -> <-]. exists [], l. simpl. auto.
  - intros H. destruct (IH H) as (l1 & l2 & -> & H1 & H2).
    exists (y :: l1), l2. simpl. rewrite Hy. auto.
Qed.

Lemma ordered_creations_endpoint (tr : list event) :
  ordered_creations tr -> endpoint_after_model_and_config tr.
Proof.
  intros Hord pre n c rep post ->.
  unfold ordered_creations, creations in Hord.
  rewrite List.filter_app in Hord. simpl in Hord.
  destruct (List.filter (fun ev => is_creation (ev_op ev)) pre) as [|e1 [|e2 [|e3 l]]] eqn:Hpre;
    simpl in Hord.
  - destruct Hord as [H|[H|H]];
      [destruct H as (m & i & d & r & e & H)
      |destruct H as (m & i & d & r & a & c0 & t & e & H)
      |destruct H as (m & i & d & r & a & c0 & t & a' & n0 & rep0 & H)];
      discriminate H.
  - destruct Hord as [H|[H|H]];
      [destruct H as (m & i & d & r & e & H)
      |destruct H as (m & i & d & r & a & c0 & t & e & H)
      |destruct H as (m & i & d & r & a & c0 & t & a' & n0 & rep0 & H)];
      injection H; intros; discriminate.
  - destruct Hord as [H|[H|H]];
      [destruct H as (m & i & d & r & e & H)
      |destruct H as (m & i & d & r & a & c0 & t & e & H)
      |destruct H as (m & i & d & r & a & c0 & t & a' & n0 & rep0 & H)];
      try discriminate H.
    injection H as H1 H2 H3 H4 H5. subst e1 e2 n0.
    assert (c0 = c) as -> by congruence.
    apply filter_eq_cons in Hpre as (l1 & l2 & -> & _ & Hl2).
    apply filter_eq_cons in Hl2 as (l3 & l4 & -> & _ & _).
    exists m, i, d, r, a, t, a', l1, l3, l4. reflexivity.
  - destruct Hord as [H|[H|H]];
      [destruct H as (m & i & d & r & e & H)
      |destruct H as (m & i & d & r & a & c0 & t & e & H)
      |destruct H as (m & i & d & r & a & c0 & t & a' & n0 & rep0 & H)];
      try discriminate H.
    injection H. intros. destruct l; discriminate.
Qed.

(** C3.  In every execution of the deployment stage (both scripts), the
    creation calls are made in the order model, endpoint configuration,
    endpoint, each only when the one before returned without an error; so
    wherever the endpoint is created, the model and the configuration were
    created before it, in this order, and both calls succeeded. *)
Theorem creation_calls_ordered {W : Type} (E : env W) (w : W)
    (cfg : DeployModelGithub.config) (path : string) (mn en : option string) :
  (ordered_creations (trace (run E DeployModel.deploy_model w)) /\
   endpoint_after_model_and_config (trace (run E DeployModel.deploy_model w))) /\
  (ordered_creations (trace (run E (DeployModelGithub.deploy_model cfg path mn en) w)) /\
   endpoint_after_model_and_config
     (trace (run E (DeployModelGithub.deploy_model cfg path mn en) w))).
Proof.
  split; split.
  - apply deploy_model_creations.
  - apply ordered_creations_endpoint, deploy_model_creations.
  - apply deploy_model_github_creations.
  - apply ordered_creations_endpoint, deploy_model_github_creations.
Qed.

(** ** The orchestration run *)

Section Orchestration.

Context {W : Type} (E : env W).

Local Ltac leaf :=
  simpl;
  repeat split;
  [ repeat (constructor; [reflexivity|]); constructor
  | intros ev Hin Hinv; simpl in Hin;
    repeat (destruct Hin as [<-|Hin]; [try discriminate Hinv|]);
    try contradiction
  | auto
  | try discriminate ].

Lemma pipeline_run_shape (w : W) :
  let o := run E RunFullPipeline.run_full_ml_pipeline w in
  Forall (fun ev => read_or_invoke (ev_op ev) = true) (trace o) /\
  (forall ev, In ev (trace o) -> is_invoke (ev_op ev) = true -> reuses_existing (trace o) ev) /\
  (result o = inr true \/ result o = inr false) /\
  (result o = inr true ->
   exists ev, In ev (trace o) /\ is_invoke (ev_op ev) = true /\ ev_ok ev = true).
Proof.
  unfold RunFullPipeline.run_full_ml_pipeline. simpl.
  destruct (on_call E _ w) as [[e|n] w1]; simpl; [leaf|].
  case_bool_decide as Hn; simpl; [leaf|].
  destruct (on_call E _ w1) as [[e|jobs] w2]; simpl; [leaf|].
  destruct (List.find _ jobs) as [job|] eqn:Hjob; simpl; [|leaf].
  destruct (on_call E _ w2) as [[e|[|ep rest]] w3]; simpl; [leaf|leaf|].
  case_bool_decide as Hst; simpl; [|leaf].
  case_bool_decide as Hname; simpl; [leaf|].
  destruct (on_call E _ w3) as [[e|body] w4]; simpl.
  - leaf. exists n, jobs, job, ep, rest. auto.
  - leaf.
    + exists n, jobs, job, ep, rest. auto.
    + eexists. split; [do 3 right; left; reflexivity|]. split; reflexivity.
Qed.


(** C10.  Whatever the control plane answers, the orchestration run makes
    no creation and no deletion call: its calls are listings and at most
    one invocation.  The invocation is made only after the listings have
    shown training data, a completed job among the most recent training
    jobs and the most recent endpoint in service, and it invokes that
    endpoint.  The run never raises; it returns [True] only when the
    invocation was made and succeeded, and [False] otherwise. *)
Theorem pipeline_run_creates_nothing (w : W) :
  let o := run E RunFullPipeline.run_full_ml_pipeline w in
  Forall (fun ev => read_or_invoke (ev_op ev) = true) (trace o) /\
  (forall ev, In ev (trace o) -> is_invoke (ev_op ev) = true -> reuses_existing (trace o) ev) /\
  (result o = inr true \/ result o = inr false) /\
  (result o = inr true ->
   exists ev, In ev (trace o) /\ is_invoke (ev_op ev) = true /\ ev_ok ev = true).
Proof.
  exact (pipeline_run_shape w).
Qed.

End Orchestration.

(** ** The cleanup sweep *)

Section CleanupTrace.

Context {W : Type} (E : env W).

Lemma for_each_app {A : Type} (l1 l2 : list A) (body : A -> prog unit) (w : W) :
  run E (for_each (l1 ++ l2) body) w = run E (for_each l1 body ;; for_each l2 body) w.
Proof.
  revert w. induction l1 as [|x l1 IH]; intros w; simpl; [reflexivity|].
  rewrite run_bind_assoc, !(run_bind E (body x)).
  destruct (result (run E (body x) w)) as [r|[]]; [reflexivity|].
  rewrite IH. reflexivity.
Qed.

Lemma for_each_fmap {A B : Type} (g : A -> B) (l : list A) (body : B -> prog unit) :
  for_each (g <$> l) body = for_each l (fun x => body (g x)).
Proof.
  induction l as [|x l IH]; [reflexivity|].
  rewrite fmap_cons. cbn [for_each]. rewrite IH. reflexivity.
Qed.

Local Ltac raised_at pos :=
  right; eexists _, _; split; [pos; reflexivity|];
  split; [reflexivity|]; split; [reflexivity|discriminate].

Local Ltac after_error e pos :=
  destruct e; simpl; try destruct (contains _ _); simpl;
  (split; [|first [left; reflexivity | raised_at pos]]).

Lemma cleanup_step_segment (c : candidate) (w : W) :
  let o := run E (cleanup_step c) w in
  candidate_segment c (trace o) /\
  (result o = inr tt \/
   exists ev e, In ev (trace o) /\ ev_error ev = Some e /\
                result o = inl (Exc e) /\ forall m, e <> ClientError m).
Proof.
  destruct c as [n|n|n]; simpl.
  - destruct (on_call E _ w) as [[e|d] w1]; simpl.
    + after_error e ltac:(left); left; eauto.
    + case_bool_decide as Hd; simpl.
      * assert (Hst : EndpointStatus d = "Failed" \/ EndpointStatus d = "OutOfService")
          by (rewrite !elem_of_cons, elem_of_nil in Hd; tauto).
        destruct (on_call E _ w1) as [[e|[]] w2]; simpl.
        -- after_error e ltac:(right; left); right; right; eauto.
        -- split; [right; right; eauto|left; reflexivity].
      * assert (Hst : EndpointStatus d <> "Failed" /\ EndpointStatus d <> "OutOfService")
          by (rewrite !not_elem_of_cons in Hd; tauto).
        case_bool_decide; simpl; (split; [right; left; eauto|left; reflexivity]).
  - destruct (on_call E _ w) as [[e|[]] w1]; simpl.
    + after_error e ltac:(left); eauto.
    + split; [eauto|left; reflexivity].
  - destruct (on_call E _ w) as [[e|[]] w1]; simpl.
    + after_error e ltac:(left); eauto.
    + split; [eauto|left; reflexivity].
Qed.

Lemma client_errors_only_app (t1 t2 : list event) :
  client_errors_only (t1 ++ t2) -> client_errors_only t1 /\ client_errors_only t2.
Proof.
  intros H. split; intros ev e Hin; apply H, in_or_app; auto.
Qed.

Lemma sweep_segments (l : list candidate) (w : W) :
  let o := run E (for_each l cleanup_step) w in
  exists done segs,
    done `prefix_of` l /\
    Forall2 candidate_segment done segs /\
    trace o = concat segs /\
    (result o = inr tt -> done = l) /\
    (client_errors_only (trace o) -> result o = inr tt).
Proof.
  cbv zeta. revert w. induction l as [|c l IH]; intros w.
  - exists [], []. simpl. repeat split; auto.
  - cbn [for_each]. rewrite run_bind.
    destruct (cleanup_step_segment c w) as [Hseg Hres]. cbv zeta in Hseg, Hres.
    destruct Hres as [Hok|(ev & e & Hin & Herr & Hraised & Hnot)].
    + rewrite Hok.
      destruct (IH (world (run E (cleanup_step c) w)))
        as (done & segs & Hpre & Hsegs & Htr & Hall & Hcl).
      exists (c :: done), (trace (run E (cleanup_step c) w) :: segs).
      unfold and_then; cbn [trace result concat].
      split; [apply prefix_cons, Hpre|].
      split; [constructor; assumption|].
      split; [rewrite Htr; reflexivity|].
      split; [intros Hr; rewrite (Hall Hr); reflexivity|].
      intros Hc. apply client_errors_only_app in Hc as [_ Hc]. auto.
    + rewrite Hraised.
      exists [c], [trace (run E (cleanup_step c) w)].
      unfold cut_short; cbn [trace result concat].
      split; [apply prefix_cons, prefix_nil|].
      split; [constructor; [assumption|constructor]|].
      split; [rewrite app_nil_r; reflexivity|].
      split; [discriminate|].
      intros Hc. destruct (Hc ev e Hin Herr) as [m ->]. destruct (Hnot m eq_refl).
Qed.

Lemma cleanup_as_sweep (eps cfgs mds : list string) (w : W) :
  let o1 := run E (Cleanup.cleanup_failed_resources_on eps cfgs mds) w in
  let o2 := run E (for_each (candidates eps cfgs mds) cleanup_step) w in
  result o1 = result o2 /\ world o1 = world o2 /\ trace o1 = trace o2 /\
  forall m, In m (stdout o2) -> In m (stdout o1).
Proof.
  cbv zeta. unfold Cleanup.cleanup_failed_resources_on, candidates. simpl.
  rewrite for_each_app, !for_each_fmap.
  change (fun x : string => cleanup_step (CEndpoint x)) with Cleanup.cleanup_endpoint.
  rewrite !(run_bind E (for_each eps _)).
  destruct (run E (for_each eps Cleanup.cleanup_endpoint) w) as [[r|[]] w1 t1 out1];
    simpl; [auto|].
  rewrite for_each_app, !for_each_fmap.
  change (fun x : string => cleanup_step (CConfig x)) with Cleanup.cleanup_config.
  change (fun x : string => cleanup_step (CModel x)) with Cleanup.cleanup_model.
  rewrite !(run_bind E (for_each cfgs _)).
  destruct (run E (for_each cfgs Cleanup.cleanup_config) w1) as [[r|[]] w2 t2 out2];
    simpl; [auto|].
  rewrite (run_bind E (for_each mds _)).
  destruct (run E (for_each mds Cleanup.cleanup_model) w2) as [[r|[]] w3 t3 out3];
    simpl; rewrite ?app_nil_r; repeat split; auto;
    intros m Hm; right; rewrite !in_app_iff in *; tauto.
Qed.

End CleanupTrace.

(** C5 as stated fails: an endpoint candidate whose status is
    ['OutOfService'] is deleted as well. *)
Lemma out_of_service_endpoint_deleted :
  let d := mk_endpoint_description "OutOfService" "arn:aws:sagemaker:endpoint/ep" None
             "2025-08-05 12:46:42+00:00" in
  let s := ControlPlane.mk_state {["ep" := d]} ∅ ∅ ControlPlane.no_faults in
  let o := run ControlPlane.control_plane (Cleanup.cleanup_failed_resources_on ["ep"] [] []) s in
  EndpointStatus d <> "Failed" /\
  ops (trace o) = [describe_endpoint "ep"; delete_endpoint "ep"] /\
  ControlPlane.endpoints (world o) !! "ep" = None.
Proof.
  cbv zeta. split; [discriminate|]. split; vm_compute; reflexivity.
Qed.

(** C5, amended.  In every execution of the sweep the calls are, candidate
    by candidate in the order of the lists: for an endpoint, the status
    query, followed by the deletion if and only if the query returned the
    status ['Failed'] or ['OutOfService']; for an endpoint configuration
    and for a model, the deletion alone, without a status query.  A sweep
    that returns has gone through every candidate. *)
Theorem cleanup_deletes_by_status {W : Type} (E : env W) (w : W) (eps cfgs mds : list string) :
  let o := run E (Cleanup.cleanup_failed_resources_on eps cfgs mds) w in
  exists done segs,
    done `prefix_of` candidates eps cfgs mds /\
    Forall2 candidate_segment done segs /\
    trace o = concat segs /\
    (result o = inr tt -> done = candidates eps cfgs mds).
Proof.
  cbv zeta.
  destruct (cleanup_as_sweep E eps cfgs mds w) as (Hr & _ & Ht & _). cbv zeta in Hr, Ht.
  destruct (sweep_segments E (candidates eps cfgs mds) w)
    as (done & segs & Hpre & Hsegs & Htr & Hall & _).
  exists done, segs. rewrite Hr, Ht. auto.
Qed.

(** ** The sweep on the reference control plane *)

Section SweepOnControlPlane.

Import ControlPlane Sweep.

Local Ltac faulted e :=
  destruct e; simpl; try destruct (contains _ _); simpl.

Lemma step_world_eq (c : candidate) (s : state) :
  world (run control_plane (cleanup_step c) s) =
  if will_delete c s then remove c s else s.
Proof.
  destruct c as [n|n|n]; simpl; unfold ControlPlane.on_call.
  - destruct (faults s (describe_endpoint n)) as [e|]; simpl.
    { faulted e; reflexivity. }
    destruct (endpoints s !! n) as [d|] eqn:Hn; simpl; [|reflexivity].
    case_bool_decide as Hd; simpl.
    + unfold ControlPlane.on_call.
      destruct (faults s (delete_endpoint n)) as [e|]; simpl.
      { faulted e; reflexivity. }
      rewrite Hn. reflexivity.
    + destruct (faults s (delete_endpoint n)); case_bool_decide; reflexivity.
  - destruct (faults s (delete_endpoint_config n)) as [e|]; simpl.
    { faulted e; reflexivity. }
    destruct (decide (n ∈ endpoint_configs s)) as [Hn|Hn]; simpl.
    + rewrite bool_decide_eq_true_2 by assumption. reflexivity.
    + rewrite bool_decide_eq_false_2 by assumption. reflexivity.
  - destruct (faults s (delete_model n)) as [e|]; simpl.
    { faulted e; reflexivity. }
    destruct (decide (n ∈ models s)) as [Hn|Hn]; simpl.
    + rewrite bool_decide_eq_true_2 by assumption. reflexivity.
    + rewrite bool_decide_eq_false_2 by assumption. reflexivity.
Qed.






Lemma sweep_world_cons (c : candidate) (l : list candidate) (s : state) :
  sweep_world (c :: l) s =
  match result (run control_plane (cleanup_step c) s) with
  | inr _ => sweep_world l (world (run control_plane (cleanup_step c) s))
  | inl _ => world (run control_plane (cleanup_step c) s)
  end.
Proof.
  unfold sweep_world. cbn [for_each]. rewrite run_bind.
  destruct (result (run control_plane (cleanup_step c) s)); reflexivity.
Qed.















(** The sweep as the script runs it: its state after the three loops. *)
Lemma cleanup_world (eps cfgs mds : list string) (s : state) :
  world (run control_plane (Cleanup.cleanup_failed_resources_on eps cfgs mds) s) =
  sweep_world (candidates eps cfgs mds) s.
Proof.
  destruct (cleanup_as_sweep control_plane eps cfgs mds s) as (_ & Hw & _). exact Hw.
Qed.


End SweepOnControlPlane.


(** An error response on one candidate does not stop the sweep. *)
Example sweep_continues_after_error_response :
  let faults := fun o : op =>
    match o with
    | delete_endpoint_config n =>
        if bool_decide (n = "a") then Some (ClientError "AccessDeniedException") else None
    | _ => None
    end in
  let s := ControlPlane.mk_state ∅ {["a"; "b"]} {["m"]} faults in
  let o := run ControlPlane.control_plane (Cleanup.cleanup_failed_resources_on [] ["a"; "b"] ["m"]) s in
  result o = inr tt /\
  ops (trace o) = [delete_endpoint_config "a"; delete_endpoint_config "b"; delete_model "m"] /\
  bool_decide ("b" ∈ ControlPlane.endpoint_configs (world o)) = false /\
  bool_decide ("m" ∈ ControlPlane.models (world o)) = false.
Proof.
  cbv zeta. repeat split; vm_compute; reflexivity.
Qed.

Section SweepTwice.

Import ControlPlane Sweep.


End SweepTwice.

(** ** The invocation tests *)

Section InvocationTests.

Context {W : Type} (E : env W) (F : float_ops).

Import TestEndpoint BatchReport.

Lemma batch_turn_run (name : string) (draws : nat -> draw F) (i : nat)
    (acc : list (prediction F)) (w : W) :
  let o := run E (batch_turn name draws i acc) w in
  exists ev,
    trace o = [ev] /\
    ev_op ev = invoke_endpoint name (test_data (draws i)) /\
    result o = inr (acc ++ option_list (turn_entry draws i (invoke_reply ev))) /\
    stdout o = [turn_line draws i (invoke_reply ev)].
Proof.
  unfold batch_turn. simpl.
  destruct (on_call E _ w) as [[e|body] w1]; simpl.
  - eexists. split; [reflexivity|]. simpl. rewrite app_nil_r. auto.
  - unfold turn_line, turn_entry, turn_error.
    destruct (float_of_string F body) as [p|] eqn:Hp; simpl.
    + eexists. split; [reflexivity|]. simpl. rewrite Hp. simpl. auto.
    + eexists. split; [reflexivity|]. simpl. rewrite Hp. simpl. rewrite app_nil_r. auto.
Qed.

Local Opaque batch_turn.

Lemma batch_loop_run (name : string) (draws : nat -> draw F) (l : list nat)
    (acc : list (prediction F)) (w : W) :
  let o := run E (for_fold l acc (batch_turn name draws)) w in
  ops (trace o) = (fun i => invoke_endpoint name (test_data (draws i))) <$> l /\
  result o =
    inr (acc ++ omap (fun '(i, ev) => turn_entry draws i (invoke_reply ev)) (zip l (trace o))) /\
  stdout o = (fun '(i, ev) => turn_line draws i (invoke_reply ev)) <$> zip l (trace o).
Proof.
  cbv zeta. revert acc w. induction l as [|i l IH]; intros acc w.
  - simpl. rewrite app_nil_r. auto.
  - cbn [for_fold]. rewrite run_bind.
    destruct (batch_turn_run name draws i acc w) as (ev & Htr & Hop & Hres & Hout).
    cbv zeta in Htr, Hres, Hout. rewrite Hres.
    unfold and_then; cbn [trace result stdout]. rewrite Htr, Hout.
    destruct (IH (acc ++ option_list (turn_entry draws i (invoke_reply ev)))
                 (world (run E (batch_turn name draws i acc) w))) as (IH1 & IH2 & IH3).
    simpl. split; [|split].
    + unfold ops in *. simpl. rewrite Hop. f_equal. exact IH1.
    + rewrite IH2, <- app_assoc. f_equal. f_equal.
      destruct (turn_entry draws i (invoke_reply ev)); reflexivity.
    + rewrite IH3. reflexivity.
Qed.


Import TestEndpointPredictions SampleReport.

Lemma test_sample_run (name : string) (i : nat) (smp : features F) (w : W) :
  let o := run E (test_sample name i smp) w in
  exists ev,
    trace o = [ev] /\
    ev_op ev = invoke_endpoint name (csv_input smp) /\
    result o = inr tt /\
    stdout o = sample_header i smp ++ sample_report i smp (invoke_reply ev).
Proof.
  unfold test_sample. simpl.
  destruct (on_call E _ w) as [[e|body] w1]; simpl.
  - eexists. split; [reflexivity|]. simpl. auto.
  - unfold sample_report.
    destruct (float_of_string F (Text.strip body)) as [p|] eqn:Hp; simpl.
    + eexists. split; [reflexivity|]. simpl. rewrite Hp. auto.
    + eexists. split; [reflexivity|]. simpl. rewrite Hp. auto.
Qed.

Local Opaque test_sample.

Lemma sample_loop_run (name : string) (start : nat) (samples : list (features F)) (w : W) :
  let o := run E (for_each (enumerate start samples)
                    (fun '(i, smp) => test_sample name i smp)) w in
  ops (trace o) = (fun smp => invoke_endpoint name (csv_input smp)) <$> samples /\
  result o = inr tt /\
  stdout o =
    concat ((fun '((i, smp), ev) => sample_header i smp ++ sample_report i smp (invoke_reply ev))
              <$> zip (enumerate start samples) (trace o)).
Proof.
  cbv zeta. revert start w. induction samples as [|smp samples IH]; intros start w.
  - simpl. auto.
  - cbn [enumerate for_each]. rewrite run_bind.
    destruct (test_sample_run name start smp w) as (ev & Htr & Hop & Hres & Hout).
    cbv zeta in Htr, Hres, Hout. rewrite Hres.
    unfold and_then; cbn [trace result stdout]. rewrite Htr, Hout.
    destruct (IH (S start) (world (run E (test_sample name start smp) w)))
      as (IH1 & IH2 & IH3).
    split; [|split].
    + unfold ops in *. simpl. rewrite Hop. f_equal. exact IH1.
    + exact IH2.
    + rewrite IH3. reflexivity.
Qed.

End InvocationTests.

(** C4 as stated fails: [test_batch_predictions] returns entries for the
    successful samples only.  Of two samples of which the first is refused
    by the endpoint, both are sent, and the list returned has the one entry
    of the second. *)
Lemma batch_returns_successes_only :
  let faults := fun o : op =>
    match o with
    | invoke_endpoint _ body =>
        if bool_decide (body = "bad") then Some (ClientError "ModelError") else None
    | _ => None
    end in
  let d := mk_endpoint_description "InService" "arn:aws:sagemaker:endpoint/ep" None
             "2025-08-05 12:46:42+00:00" in
  let s := ControlPlane.mk_state {["ep" := d]} ∅ ∅ faults in
  let draws := fun i : nat =>
    TestEndpoint.mk_draw WholeNumbers.ops 25%Z 60%Z (if i is O then "bad" else "25,60") in
  let o := run ControlPlane.control_plane
             (TestEndpoint.test_batch_predictions "ep" draws 2) s in
  ops (trace o) = [invoke_endpoint "ep" "bad"; invoke_endpoint "ep" "25,60"] /\
  result o = inr [@TestEndpoint.mk_prediction WholeNumbers.ops 2 25%Z 60%Z 25%Z 0%Z] /\
  stdout o =
    [ Line "Testing {} batch predictions..." ["2"];
      Line "Error in sample {}: {}" ["1"; "ModelError"];
      Line "Sample {}: Input={:.2f}C, Predicted={:.2f}C, Diff={:.2f}C" ["2"; "25"; "25"; "0"] ].
Proof.
  cbv zeta. repeat split; vm_compute; reflexivity.
Qed.

(** C4, amended.  In every execution, both invocation tests invoke the
    endpoint once per sample, in the order of the samples, whatever the
    earlier invocations answered, and print for every sample, in this
    order, either its result or its error.  [test_endpoint_predictions]
    returns nothing; the list [test_batch_predictions] returns holds the
    entries of the samples that succeeded, in the order of the samples. *)
Theorem invocation_tests_cover_samples {W : Type} (E : env W) (F : float_ops) (w : W)
    (name : string) (samples : list (TestEndpointPredictions.features F))
    (draws : nat -> TestEndpoint.draw F) (n : nat) :
  let o := run E (TestEndpointPredictions.test_endpoint_predictions_on name samples) w in
  let b := run E (TestEndpoint.test_batch_predictions name draws n) w in
  (ops (trace o) =
     (fun smp => invoke_endpoint name (TestEndpointPredictions.csv_input smp)) <$> samples /\
   result o = inr tt /\
   stdout o =
     Line "Testing endpoint: {}" [name] ::
     concat ((fun '((i, smp), ev) =>
                SampleReport.sample_header i smp ++
                SampleReport.sample_report i smp (invoke_reply ev))
               <$> zip (TestEndpointPredictions.enumerate 1 samples) (trace o)) ++
     [Line "Endpoint testing completed!" []]) /\
  (ops (trace b) =
     (fun i => invoke_endpoint name (TestEndpoint.test_data (draws i))) <$> seq 0 n /\
   result b =
     inr (omap (fun '(i, ev) => BatchReport.turn_entry draws i (invoke_reply ev))
            (zip (seq 0 n) (trace b))) /\
   stdout b =
     Line "Testing {} batch predictions..." [pretty n] ::
     ((fun '(i, ev) => BatchReport.turn_line draws i (invoke_reply ev))
        <$> zip (seq 0 n) (trace b))).
Proof.
  cbv zeta. split.
  - unfold TestEndpointPredictions.test_endpoint_predictions_on. simpl.
    rewrite run_bind.
    destruct (sample_loop_run E F name 1 samples w) as (H1 & H2 & H3).
    rewrite H2. unfold and_then; cbn [trace result stdout run].
    rewrite app_nil_r, H3. auto.
  - unfold TestEndpoint.test_batch_predictions. simpl.
    destruct (batch_loop_run E F name draws (seq 0 n) [] w) as (H1 & H2 & H3).
    rewrite H1, H2, H3. auto.
Qed.

(** ** Polling *)

Section Polling.

Import PollEnv.

Context (s : nat -> string) (latency : nat -> Z).

Let E := poll_env (statuses s) latency.

Lemma endpoint_terminal_cases (st : string) :
  endpoint_terminal st = true <-> st = "InService" \/ st = "Failed".
Proof.
  unfold endpoint_terminal. rewrite orb_true_iff, !bool_decide_eq_true. reflexivity.
Qed.

(** The least index below a bound at which a test holds, or none. *)
Lemma first_true (p : nat -> bool) (n : nat) :
  (exists j, j < n /\ p j = true /\ forall i, i < j -> p i = false) \/
  (forall i, i < n -> p i = false).
Proof.
  induction n as [|n [(j & Hj & Ht & Hb)|Hnone]].
  - right. intros i Hi. lia.
  - left. exists j. split; [lia|]. auto.
  - destruct (p n) eqn:Hn.
    + left. exists n. split; [lia|]. auto.
    + right. intros i Hi. destruct (decide (i = n)) as [->|]; [exact Hn|]. apply Hnone. lia.
Qed.

Lemma wait_loop_terminal (name : string) (delay : Z) (j : nat) :
  forall more k c,
    j <= more ->
    endpoint_terminal (s (k + j)) = true ->
    (forall i, i < j -> endpoint_terminal (s (k + i)) = false) ->
    let o := run E (Botocore.wait_loop more name delay) (mk_poll_state k c) in
    result o = (if bool_decide (s (k + j) = "InService") then inr tt
                else inl (Exc (WaiterError TerminalFailure))) /\
    length (trace o) = S j /\
    polls (world o) = k + S j.
Proof.
  induction j as [|j IH]; intros more k c Hle Hterm Hbefore; cbv zeta.
  - rewrite Nat.add_0_r in *.
    apply endpoint_terminal_cases in Hterm.
    destruct more; simpl; unfold statuses;
      (destruct Hterm as [-> | ->]; simpl; repeat split; lia).
  - destruct more as [|more]; [lia|].
    pose proof (Hbefore 0 ltac:(lia)) as H0. rewrite Nat.add_0_r in H0.
    unfold endpoint_terminal in H0. apply orb_false_iff in H0 as [H1 H2].
    simpl. unfold statuses. rewrite H1, H2. simpl.
    destruct (IH more (S k) (clock (mk_poll_state (S k) (c + latency k)) + delay)%Z) as (R & L & P).
    + lia.
    + replace (S k + j) with (k + S j) by lia. exact Hterm.
    + intros i Hi. replace (S k + i) with (k + S i) by lia. apply Hbefore. lia.
    + cbv zeta in R, L, P. simpl in R, L, P.
      split; [|split].
      * replace (k + S j) with (S (k + j)) by lia. exact R.
      * rewrite L. reflexivity.
      * rewrite P. lia.
Qed.


Lemma wait_loop_timeout (name : string) (delay : Z) :
  forall more k c,
    (forall i, i <= more -> endpoint_terminal (s (k + i)) = false) ->
    let o := run E (Botocore.wait_loop more name delay) (mk_poll_state k c) in
    result o = inl (Exc (WaiterError MaxAttemptsExceeded)) /\
    length (trace o) = S more /\
    polls (world o) = k + S more.
Proof.
  induction more as [|more IH]; intros k c Hnone; cbv zeta;
    pose proof (Hnone 0 ltac:(lia)) as H0; rewrite Nat.add_0_r in H0;
    unfold endpoint_terminal in H0; apply orb_false_iff in H0 as [H1 H2];
    simpl; unfold statuses; rewrite H1, H2; simpl.
  - repeat split; lia.
  - destruct (IH (S k) (c + latency k + delay)%Z) as (R & L & P).
    + intros i Hi. replace (S k + i) with (k + S i) by lia. apply Hnone. lia.
    + cbv zeta in R, L, P. rewrite R, L, P. repeat split; lia.
Qed.

(** The waiter with an attempt ceiling. *)
Lemma waiter_poll (name : string) (delay : Z) (n : nat) :
  1 <= n ->
  let o := run E (Botocore.endpoint_in_service_wait name delay n) start in
  length (trace o) <= n /\
  polls (world o) = length (trace o) /\
  (forall t, waiter_outcome (result o) = Some (Terminal t) <->
             reaches_within endpoint_terminal s n t) /\
  (waiter_outcome (result o) = Some TimedOut <->
   ~ exists t, reaches_within endpoint_terminal s n t).
Proof.
  intros Hn. cbv zeta. unfold Botocore.endpoint_in_service_wait, start.
  destruct (first_true (fun k => endpoint_terminal (s k)) n)
    as [(j & Hj & Ht & Hb)|Hnone].
  - destruct (wait_loop_terminal name delay j (n - 1) 0 0%Z) as (R & L & P);
      [lia|exact Ht|exact Hb|].
    cbv zeta in R, L, P. simpl in R, P. rewrite R, L, P.
    assert (Huniq : forall t, reaches_within endpoint_terminal s n t -> t = s j).
    { intros t (k & Hk & <- & Hkt & Hkb).
      destruct (Nat.lt_trichotomy k j) as [Hlt|[->|Hgt]]; [|reflexivity|].
      - rewrite (Hb k Hlt) in Hkt. discriminate.
      - rewrite (Hkb j Hgt) in Ht. discriminate. }
    assert (Hreach : reaches_within endpoint_terminal s n (s j))
      by (exists j; auto).
    split; [lia|]. split; [reflexivity|].
    apply endpoint_terminal_cases in Ht as Hcases.
    split.
    + intros t. split.
      * intros Hout. case_bool_decide as Hin; simpl in Hout.
        -- injection Hout as <-. rewrite <- Hin. exact Hreach.
        -- injection Hout as <-. destruct Hcases as [Hc|Hc]; [contradiction|].
           rewrite <- Hc. exact Hreach.
      * intros Hr. rewrite (Huniq t Hr).
        destruct Hcases as [Hc|Hc]; rewrite Hc; reflexivity.
    + split.
      * intros Hout. case_bool_decide; discriminate Hout.
      * intros Hno. destruct Hno. exists (s j). exact Hreach.
  - destruct (wait_loop_timeout name delay (n - 1) 0 0%Z) as (R & L & P).
    { intros i Hi. apply Hnone. lia. }
    cbv zeta in R, L, P. simpl in P. rewrite R, L, P.
    split; [lia|]. split; [reflexivity|]. simpl. split.
    + intros t. split; [discriminate|].
      intros (k & Hk & <- & Hkt & _). rewrite (Hnone k Hk) in Hkt. discriminate.
    + split; [|reflexivity].
      intros _ (t & k & Hk & <- & Hkt & _). rewrite (Hnone k Hk) in Hkt. discriminate.
Qed.

End Polling.

Section Monitor.

Import PollEnv MonitorEndpoint.

Context (fetch : nat -> exception + string) (latency : nat -> Z).
Context (name : string) (c0 max_wait_minutes limit : Z).

Let E := poll_env fetch latency.

Lemma clock_after_poll (k : nat) :
  (c0 + clock_before latency k + latency k - c0)%Z = elapsed_at latency k.
Proof.
  destruct k; simpl; lia.
Qed.

(** One turn of the loop, at the [k]-th query. *)
Lemma monitor_turn_run (k : nat) :
  let o := run E (monitor_turn name c0 max_wait_minutes limit)
             (mk_poll_state k (c0 + clock_before latency k)) in
  polls (world o) = S k /\
  match fetch k with
  | inl e =>
      result o = inr (Return false) /\
      In (Line error_line [str e]) (stdout o) /\
      printed failed_line (stdout o) = false /\
      printed timeout_line (stdout o) = false
  | inr st =>
      if bool_decide (st = "InService") then
        result o = inr (Return true)
      else if bool_decide (st = "Failed") then
        result o = inr (Return false) /\
        printed failed_line (stdout o) = true
      else if (elapsed_at latency k >? limit)%Z then
        result o = inr (Return false) /\
        printed failed_line (stdout o) = false /\
        printed timeout_line (stdout o) = true
      else
        result o = inr Continue /\
        world o = mk_poll_state (S k) (c0 + clock_before latency (S k)) /\
        exists xs, stdout o = [Line status_line xs]
  end.
Proof.
  cbv zeta. unfold monitor_turn. simpl.
  destruct (fetch k) as [e|st]; simpl.
  - split; [reflexivity|]. split; [reflexivity|]. split; [left; reflexivity|].
    split; reflexivity.
  - rewrite clock_after_poll.
    case_bool_decide as H1; simpl; [auto|].
    case_bool_decide as H2; simpl.
    { split; [reflexivity|]. split; reflexivity. }
    destruct (elapsed_at latency k >? limit)%Z eqn:Ht; simpl.
    { split; [reflexivity|]. split; [reflexivity|]. split; reflexivity. }
    split; [reflexivity|]. split; [reflexivity|].
    split; [|eexists; reflexivity].
    f_equal. pose proof (clock_after_poll k). cbn [clock_before]. lia.
Qed.


Local Opaque monitor_turn.

Lemma printed_app (f : string) (a b : list msg) :
  printed f (a ++ b) = printed f a || printed f b.
Proof. apply existsb_app. Qed.

Lemma printed_in (f : string) (l : list msg) (xs : list string) :
  In (Line f xs) l -> printed f l = true.
Proof.
  intros Hin. apply existsb_exists. exists (Line f xs).
  split; [exact Hin|]. apply bool_decide_eq_true_2. reflexivity.
Qed.

Lemma printed_mono (f : string) (a b : list msg) :
  (forall x, In x a -> In x b) -> printed f a = true -> printed f b = true.
Proof.
  intros Hab Ha. apply existsb_exists in Ha as (x & Hx & Hf).
  apply existsb_exists. exists x. auto.
Qed.

(** Turns that do not end the loop. *)
Lemma monitor_loop_quiet (m : nat) :
  forall k fuel,
    (forall i, i < m -> quiet_turn fetch latency limit (k + i)) ->
    let o := run E (monitor_loop (m + fuel) name c0 max_wait_minutes limit)
               (mk_poll_state k (c0 + clock_before latency k)) in
    let o' := run E (monitor_loop fuel name c0 max_wait_minutes limit)
                (mk_poll_state (k + m) (c0 + clock_before latency (k + m))) in
    result o = result o' /\ world o = world o' /\
    (forall f, f <> status_line -> printed f (stdout o) = printed f (stdout o')) /\
    (forall x, In x (stdout o') -> In x (stdout o)).
Proof.
  induction m as [|m IH]; intros k fuel Hq; cbv zeta.
  - rewrite Nat.add_0_r. auto.
  - cbn [Nat.add monitor_loop]. rewrite run_bind.
    destruct (monitor_turn_run k) as [_ Hturn]. cbv zeta in Hturn.
    destruct (Hq 0 ltac:(lia)) as (st & Hst & Hterm & Hel).
    rewrite Nat.add_0_r in Hst, Hel. rewrite Hst in Hturn.
    unfold endpoint_terminal in Hterm. apply orb_false_iff in Hterm as [H1 H2].
    rewrite H1, H2 in Hturn.
    rewrite Z.gtb_ltb, (proj2 (Z.ltb_ge _ _) Hel) in Hturn.
    destruct Hturn as (Hres & Hw & xs & Hout).
    rewrite Hres. unfold and_then; cbn [result world stdout]. rewrite Hw, Hout.
    destruct (IH (S k) fuel) as (R & Wd & Pr & Inc).
    { intros i Hi. replace (S k + i) with (k + S i) by lia. apply Hq. lia. }
    cbv zeta in R, Wd, Pr, Inc.
    replace (k + S m) with (S k + m) by lia.
    split; [exact R|]. split; [exact Wd|]. split.
    + intros f Hf. rewrite printed_app, Pr by exact Hf.
      simpl. rewrite bool_decide_eq_false_2 by congruence. reflexivity.
    + intros x Hx. right. apply Inc, Hx.
Qed.

(** The turn that ends the loop. *)
Lemma monitor_loop_stop (k fuel : nat) (b : bool) :
  let t := run E (monitor_turn name c0 max_wait_minutes limit)
             (mk_poll_state k (c0 + clock_before latency k)) in
  result t = inr (Return b) ->
  let o := run E (monitor_loop (S fuel) name c0 max_wait_minutes limit)
             (mk_poll_state k (c0 + clock_before latency k)) in
  result o = inr (Some b) /\ world o = world t /\ stdout o = stdout t.
Proof.
  cbv zeta. intros Hres. cbn [monitor_loop]. rewrite run_bind, Hres.
  unfold and_then; cbn [result world stdout run]. rewrite app_nil_r. auto.
Qed.

End Monitor.

Section MonitorRun.

Import PollEnv MonitorEndpoint.

Context (fetch : nat -> exception + string) (latency : nat -> Z).
Context (name : string) (max_wait_minutes : Z).

Let E := poll_env fetch latency.
Let limit := (max_wait_minutes * 60)%Z.

Local Opaque monitor_turn.

(** The monitor ends with the first turn that is not quiet. *)
Lemma monitor_run_shape (n fuel : nat) (b : bool) :
  (forall i, i < n -> quiet_turn fetch latency limit i) ->
  n < fuel ->
  let t := run E (monitor_turn name 0 max_wait_minutes limit)
             (mk_poll_state n (0 + clock_before latency n)) in
  result t = inr (Return b) ->
  let o := run E (monitor_endpoint_deployment fuel name max_wait_minutes) start in
  result o = inr (Some b) /\ world o = world t /\
  printed failed_line (stdout o) = printed failed_line (stdout t) /\
  printed timeout_line (stdout o) = printed timeout_line (stdout t) /\
  (forall x, In x (stdout t) -> In x (stdout o)).
Proof.
  intros Hq Hfuel t Ht. cbv zeta. unfold monitor_endpoint_deployment, start. simpl.
  fold limit.
  change {| polls := 0; clock := 0 |}
    with (mk_poll_state 0 (0 + clock_before latency 0)).
  replace fuel with (n + S (fuel - n - 1)) by lia.
  destruct (monitor_loop_quiet fetch latency name 0 max_wait_minutes limit n 0
              (S (fuel - n - 1)) Hq) as (R & Wd & Pr & Inc).
  cbv zeta in R, Wd, Pr, Inc. cbn [Nat.add] in R, Wd, Pr, Inc.
  destruct (monitor_loop_stop fetch latency name 0 max_wait_minutes limit n
              (fuel - n - 1) b Ht) as (R' & Wd' & Out').
  cbv zeta in R', Wd', Out'.
  subst t. unfold E in *.
  rewrite R, Wd, R', Wd'.
  split; [reflexivity|]. split; [reflexivity|].
  rewrite !Pr by discriminate. rewrite Out'.
  split; [reflexivity|]. split; [reflexivity|].
  intros x Hx. do 2 right. apply Inc. rewrite Out'. exact Hx.
Qed.


End MonitorRun.

Section MonitorPoll.

Import PollEnv MonitorEndpoint.

Context (s : nat -> string) (latency : nat -> Z).
Context (name : string) (max_wait_minutes : Z).

Let limit := (max_wait_minutes * 60)%Z.

Local Opaque monitor_turn.

Lemma elapsed_lower (k : nat) :
  (forall i, 0 <= latency i)%Z -> (30 * Z.of_nat k <= elapsed_at latency k)%Z.
Proof.
  intros Hlat. induction k as [|k IH]; simpl elapsed_at.
  - pose proof (Hlat 0). lia.
  - pose proof (Hlat (S k)). lia.
Qed.

(** The monitor with a wall-clock ceiling. *)
Lemma monitor_poll :
  (forall i, 0 <= latency i)%Z -> (0 <= max_wait_minutes)%Z ->
  exists n, n <= Z.to_nat (max_wait_minutes * 2) + 2 /\
    forall fuel, n <= fuel ->
      let o := run (poll_env (statuses s) latency)
                 (monitor_endpoint_deployment fuel name max_wait_minutes) start in
      polls (world o) = n /\
      exists out, monitor_outcome o = Some out /\
        (forall t, out = Terminal t <-> reaches_in_time s latency limit t) /\
        (out = TimedOut <-> ~ exists t, reaches_in_time s latency limit t).
Proof.
  intros Hlat Hmax.
  set (p := fun k => endpoint_terminal (s k) || (elapsed_at latency k >? limit)%Z).
  set (B := Z.to_nat (max_wait_minutes * 2) + 1).
  assert (HB : p B = true).
  { unfold p. apply orb_true_iff. right. apply Z.gtb_lt.
    pose proof (elapsed_lower B Hlat). unfold limit, B in *. lia. }
  destruct (first_true p (S B)) as [(j & Hj & Hpj & Hbefore)|Hnone];
    [|rewrite (Hnone B) in HB by lia; discriminate].
  assert (Hq : forall i, i < j -> quiet_turn (statuses s) latency limit i).
  { intros i Hi. specialize (Hbefore i Hi). unfold p in Hbefore.
    apply orb_false_iff in Hbefore as [Ht Hel].
    exists (s i). split; [reflexivity|]. split; [exact Ht|].
    rewrite Z.gtb_ltb in Hel. apply Z.ltb_ge. exact Hel. }
  assert (Hnot : forall t, reaches_in_time s latency limit t -> t = s j /\ endpoint_terminal (s j) = true).
  { intros t (k & <- & Hkt & Hkb).
    destruct (Nat.lt_trichotomy k j) as [Hlt|[->|Hgt]]; [| auto |].
    - specialize (Hbefore k Hlt). unfold p in Hbefore.
      apply orb_false_iff in Hbefore as [Ht _]. rewrite Ht in Hkt. discriminate.
    - destruct (Hkb j Hgt) as [Ht Hel]. unfold p in Hpj.
      rewrite Ht in Hpj. simpl in Hpj. apply Z.gtb_lt in Hpj. lia. }
  exists (S j). split; [unfold B in Hj; lia|].
  intros fuel Hfuel. cbv zeta. unfold limit in *.
  destruct (monitor_turn_run (statuses s) latency name 0 max_wait_minutes
              (max_wait_minutes * 60) j)
    as [Hp Hturn]. cbv zeta in Hp, Hturn.
  change (statuses s j) with (@inr exception string (s j)) in Hturn. cbv iota in Hturn.
  destruct (bool_decide (s j = "InService")) eqn:H1;
    [apply bool_decide_eq_true in H1|apply bool_decide_eq_false in H1].
  { (* InService *)
    destruct (monitor_run_shape (statuses s) latency name max_wait_minutes j fuel true Hq
                ltac:(lia) Hturn) as (R & Wd & _).
    cbv zeta in R, Wd. rewrite Wd, Hp. split; [reflexivity|].
    exists (Terminal "InService"). unfold monitor_outcome. rewrite R.
    split; [reflexivity|].
    assert (Hreach : reaches_in_time s latency limit "InService").
    { exists j. split; [exact H1|]. split; [reflexivity|].
      intros i Hi. specialize (Hbefore i Hi). unfold p in Hbefore.
      apply orb_false_iff in Hbefore as [Ht Hel]. split; [exact Ht|].
      rewrite Z.gtb_ltb in Hel. apply Z.ltb_ge. exact Hel. }
    split.
    - intros t. split; [intros [= <-]; exact Hreach|].
      intros Hr. destruct (Hnot t Hr) as [-> _]. rewrite H1. reflexivity.
    - split; [discriminate|]. intros Hno. destruct Hno. eauto. }
  destruct (bool_decide (s j = "Failed")) eqn:H2;
    [apply bool_decide_eq_true in H2|apply bool_decide_eq_false in H2].
  { (* Failed *)
    destruct Hturn as [Hres Hpr].
    destruct (monitor_run_shape (statuses s) latency name max_wait_minutes j fuel false Hq
                ltac:(lia) Hres) as (R & Wd & Pf & _).
    cbv zeta in R, Wd, Pf. rewrite Wd, Hp. split; [reflexivity|].
    exists (Terminal "Failed"). unfold monitor_outcome. rewrite R.
    change (printed "Endpoint deployment FAILED!") with (printed failed_line).
    rewrite Pf, Hpr. split; [reflexivity|].
    assert (Hreach : reaches_in_time s latency limit "Failed").
    { exists j. split; [exact H2|]. split; [reflexivity|].
      intros i Hi. specialize (Hbefore i Hi). unfold p in Hbefore.
      apply orb_false_iff in Hbefore as [Ht Hel]. split; [exact Ht|].
      rewrite Z.gtb_ltb in Hel. apply Z.ltb_ge. exact Hel. }
    split.
    - intros t. split; [intros [= <-]; exact Hreach|].
      intros Hr. destruct (Hnot t Hr) as [-> _]. rewrite H2. reflexivity.
    - split; [discriminate|]. intros Hno. destruct Hno. eauto. }
  (* neither: the time is over *)
  assert (Hterm : endpoint_terminal (s j) = false).
  { unfold endpoint_terminal. rewrite !bool_decide_eq_false_2 by assumption. reflexivity. }
  unfold p in Hpj. rewrite Hterm in Hpj. simpl in Hpj. rewrite Hpj in Hturn.
  destruct Hturn as (Hres & Hpf & Hpt).
  destruct (monitor_run_shape (statuses s) latency name max_wait_minutes j fuel false Hq
              ltac:(lia) Hres) as (R & Wd & Pf & Pt & _).
  cbv zeta in R, Wd, Pf, Pt. rewrite Wd, Hp. split; [reflexivity|].
  exists TimedOut. unfold monitor_outcome. rewrite R.
  change (printed "Endpoint deployment FAILED!") with (printed failed_line).
  change (printed "Timeout reached ({} minutes)") with (printed timeout_line).
  rewrite Pf, Hpf, Pt, Hpt. split; [reflexivity|].
  split.
  - intros t. split; [discriminate|].
    intros Hr. destruct (Hnot t Hr) as [_ Ht]. rewrite Ht in Hterm. discriminate.
  - split; [|reflexivity].
    intros _ (t & Hr). destruct (Hnot t Hr) as [_ Ht]. rewrite Ht in Hterm. discriminate.
Qed.

End MonitorPoll.

Section Workflow.

Import PollEnv Deploy.

Context (s : nat -> string) (latency : nat -> Z) (workflow_name : string).

Let E := poll_env (statuses s) latency.

Lemma workflow_loop_running (run_id : string) :
  forall fuel k c,
    (forall i, i < fuel -> workflow_terminal (s (k + i)) = false) ->
    let o := run E (workflow_loop fuel workflow_name run_id) (mk_poll_state k c) in
    result o = inr None /\ polls (world o) = k + fuel.
Proof.
  induction fuel as [|fuel IH]; intros k c Hrun; cbv zeta; simpl.
  - split; [reflexivity|lia].
  - pose proof (Hrun 0 ltac:(lia)) as H0. rewrite Nat.add_0_r in H0.
    unfold workflow_terminal in H0. apply orb_false_iff in H0 as [H1 H2].
    unfold statuses. simpl. rewrite H1, H2. simpl.
    destruct (IH (S k) (c + latency k + 30)%Z) as [R P].
    { intros i Hi. replace (S k + i) with (k + S i) by lia. apply Hrun. lia. }
    cbv zeta in R, P. rewrite R, P. split; [reflexivity|lia].
Qed.

Lemma workflow_loop_terminal (run_id : string) (j : nat) :
  forall fuel k c,
    j < fuel ->
    workflow_terminal (s (k + j)) = true ->
    (forall i, i < j -> workflow_terminal (s (k + i)) = false) ->
    let o := run E (workflow_loop fuel workflow_name run_id) (mk_poll_state k c) in
    result o = (if bool_decide (s (k + j) = "COMPLETED") then inr (Some tt)
                else inl (SystemExit 1)) /\
    polls (world o) = k + S j.
Proof.
  induction j as [|j IH]; intros fuel k c Hfuel Hterm Hbefore; cbv zeta;
    (destruct fuel as [|fuel]; [lia|]); simpl.
  - rewrite Nat.add_0_r in *. unfold workflow_terminal in Hterm.
    apply orb_true_iff in Hterm. unfold statuses. simpl.
    destruct (bool_decide (s k = "COMPLETED")) eqn:H1; simpl.
    + split; [reflexivity|lia].
    + destruct Hterm as [Hc|Hf]; [discriminate|]. rewrite Hf. simpl.
      split; [reflexivity|lia].
  - pose proof (Hbefore 0 ltac:(lia)) as H0. rewrite Nat.add_0_r in H0.
    unfold workflow_terminal in H0. apply orb_false_iff in H0 as [H1 H2].
    unfold statuses. simpl. rewrite H1, H2. simpl.
    destruct (IH fuel (S k) (c + latency k + 30)%Z) as [R P].
    + lia.
    + replace (S k + j) with (k + S j) by lia. exact Hterm.
    + intros i Hi. replace (S k + i) with (k + S i) by lia. apply Hbefore. lia.
    + cbv zeta in R, P. rewrite R, P.
      replace (S k + j) with (k + S j) by lia. split; [reflexivity|lia].
Qed.

Local Opaque workflow_loop.

(** Without a terminal status the loop of [run_glue_workflow] goes on. *)
Lemma run_glue_workflow_running (fuel : nat) :
  (forall i, workflow_terminal (s i) = false) ->
  let o := run E (run_glue_workflow fuel workflow_name) start in
  result o = inr None /\ polls (world o) = fuel.
Proof.
  intros Hrun. cbv zeta. unfold run_glue_workflow, start. simpl.
  rewrite run_try_except.
  destruct (workflow_loop_running "wr_1" fuel 0 0%Z) as [R P]; [auto|].
  cbv zeta in R, P. rewrite R, P. auto.
Qed.

(** With a terminal status it ends at the first one. *)
Lemma run_glue_workflow_terminal (j fuel : nat) :
  j < fuel ->
  workflow_terminal (s j) = true ->
  (forall i, i < j -> workflow_terminal (s i) = false) ->
  let o := run E (run_glue_workflow fuel workflow_name) start in
  result o = (if bool_decide (s j = "COMPLETED") then inr (Some tt)
              else inl (SystemExit 1)) /\
  polls (world o) = S j.
Proof.
  intros Hfuel Hterm Hbefore. cbv zeta. unfold run_glue_workflow, start. simpl.
  rewrite run_try_except.
  destruct (workflow_loop_terminal "wr_1" j fuel 0 0%Z Hfuel Hterm Hbefore) as [R P].
  cbv zeta in R, P. simpl in R, P. rewrite R.
  destruct (bool_decide (s j = "COMPLETED")); rewrite P; auto.
Qed.

End Workflow.

Section DeployPoll.

Import PollEnv.

Context (s : nat -> string) (latency : nat -> Z).

Let E := poll_env (statuses s) latency.

Local Opaque Botocore.endpoint_in_service_wait.

(** What the deployment scripts make of a waiter that raised. *)
Lemma deploy_after_waiter_error (r : waiter_failure) (cfg : DeployModelGithub.config) :
  let poll := run E (Botocore.endpoint_in_service_wait (Naming.endpoint_name today) 30 20) start in
  result poll = inl (Exc (WaiterError r)) ->
  let o := run E DeployModel.deploy_model start in
  let g := run E (DeployModelGithub.deploy_model cfg DeployModel.model_artifacts None None) start in
  let m := run E (DeployModelGithub.main_deploy cfg DeployModel.model_artifacts) start in
  (result o = inl (Exc (WaiterError r)) /\
   polls (world o) = polls (world poll) /\
   In (Line "Error during deployment: {}" [str (WaiterError r)]) (stdout o) /\
   exit_code (run_script E DeployModel.main start) = 1%Z) /\
  (result g = inr None /\
   In (Line "Error deploying model: {}" [str (WaiterError r)]) (stdout g) /\
   In (Line "Deployment failed. Check the logs above for details." []) (stdout m)).
Proof.
  intros poll Hpoll. cbv zeta. subst poll. split.
  - assert (Ho : result (run E DeployModel.deploy_model start) = inl (Exc (WaiterError r)) /\
                 polls (world (run E DeployModel.deploy_model start)) =
                 polls (world (run E (Botocore.endpoint_in_service_wait
                                        (Naming.endpoint_name today) 30 20) start)) /\
                 In (Line "Error during deployment: {}" [str (WaiterError r)])
                    (stdout (run E DeployModel.deploy_model start))).
    { unfold DeployModel.deploy_model. simpl.
      rewrite run_try_except, run_bind, Hpoll. simpl.
      split; [reflexivity|]. split; [reflexivity|].
      repeat match goal with |- _ \/ _ => right end.
      apply in_or_app. right. left. reflexivity. }
    destruct Ho as (R & P & I). split; [exact R|]. split; [exact P|]. split; [exact I|].
    unfold run_script, DeployModel.main. rewrite run_bind, R. reflexivity.
  - assert (Hg : result (run E (DeployModelGithub.deploy_model cfg DeployModel.model_artifacts
                                  None None) start) = inr None /\
                 In (Line "Error deploying model: {}" [str (WaiterError r)])
                    (stdout (run E (DeployModelGithub.deploy_model cfg
                                      DeployModel.model_artifacts None None) start))).
    { unfold DeployModelGithub.deploy_model. simpl.
      rewrite run_try_except, run_bind, Hpoll. simpl.
      split; [reflexivity|].
      repeat match goal with |- _ \/ _ => right end.
      apply in_or_app. right. left. reflexivity. }
    destruct Hg as (R & I). split; [exact R|]. split; [exact I|].
    unfold DeployModelGithub.main_deploy.
    change (negb (String.prefix "s3://" DeployModel.model_artifacts)) with false.
    cbv iota. cbn [bind print]. cbn [run stdout]. right.
    rewrite run_bind, R. unfold and_then. cbn [stdout run]. apply in_or_app. right.
    left. reflexivity.
Qed.

End DeployPoll.

(** C1 as stated fails: the loop of [run_glue_workflow] has no ceiling.  On
    a workflow run that stays ['RUNNING'] it has not returned however often
    it is unrolled, and it has made as many status queries as it was
    unrolled. *)
Lemma workflow_poll_has_no_ceiling :
  never_returns (PollEnv.poll_env (PollEnv.statuses (fun _ => "RUNNING")) (fun _ => 0%Z))
    (fun fuel => Deploy.run_glue_workflow fuel "sensor-workflow") PollEnv.start /\
  polls_without_bound (PollEnv.statuses (fun _ => "RUNNING")) (fun _ => 0%Z)
    (fun fuel => Deploy.run_glue_workflow fuel "sensor-workflow").
Proof.
  split; intros fuel;
    apply (run_glue_workflow_running (fun _ => "RUNNING") (fun _ => 0%Z)
             "sensor-workflow" fuel); reflexivity.
Qed.

(** C1, amended.  For every sequence of statuses: the endpoint waiter with
    a ceiling of [max_attempts] polls makes at most that many polls, ends
    with a terminal status exactly when the sequence reaches one within
    the ceiling, and with the timeout otherwise.  The monitor with a
    wall-clock ceiling returns after at most one poll per 30 seconds of the
    ceiling and two more, with a terminal status exactly when the sequence
    reaches one before a poll is answered past the ceiling, and with the
    timeout otherwise.  The loop of [run_glue_workflow] has no ceiling: it
    ends at the first ['COMPLETED'] or ['FAILED'] of the sequence. *)
Theorem bounded_polls_end (s : nat -> string) (latency : nat -> Z) (name : string)
    (max_attempts : nat) (delay max_wait_minutes : Z) (workflow_name : string) :
  1 <= max_attempts ->
  (forall i, 0 <= latency i)%Z ->
  (0 <= max_wait_minutes)%Z ->
  let E := PollEnv.poll_env (PollEnv.statuses s) latency in
  (let o := run E (Botocore.endpoint_in_service_wait name delay max_attempts) PollEnv.start in
   length (trace o) <= max_attempts /\
   PollEnv.polls (world o) = length (trace o) /\
   (forall t, waiter_outcome (result o) = Some (Terminal t) <->
              reaches_within endpoint_terminal s max_attempts t) /\
   (waiter_outcome (result o) = Some TimedOut <->
    ~ exists t, reaches_within endpoint_terminal s max_attempts t)) /\
  (exists n, n <= Z.to_nat (max_wait_minutes * 2) + 2 /\
     forall fuel, n <= fuel ->
       let o := run E (MonitorEndpoint.monitor_endpoint_deployment fuel name max_wait_minutes)
                  PollEnv.start in
       PollEnv.polls (world o) = n /\
       exists out, monitor_outcome o = Some out /\
         (forall t, out = Terminal t <->
                    reaches_in_time s latency (max_wait_minutes * 60) t) /\
         (out = TimedOut <->
          ~ exists t, reaches_in_time s latency (max_wait_minutes * 60) t)) /\
  (forall j fuel,
     j < fuel ->
     workflow_terminal (s j) = true ->
     (forall i, i < j -> workflow_terminal (s i) = false) ->
     let o := run E (Deploy.run_glue_workflow fuel workflow_name) PollEnv.start in
     result o = (if bool_decide (s j = "COMPLETED") then inr (Some tt)
                 else inl (SystemExit 1)) /\
     PollEnv.polls (world o) = S j).
Proof.
  intros Hn Hlat Hmax. cbv zeta. split; [|split].
  - apply (waiter_poll s latency name delay max_attempts Hn).
  - apply (monitor_poll s latency name max_wait_minutes Hlat Hmax).
  - intros j fuel. apply run_glue_workflow_terminal.
Qed.

Lemma bounded_polls_end_witness :
  length (trace (run (PollEnv.poll_env (PollEnv.statuses (fun k => if k <? 3 then "Creating" else "InService"))
                        (fun _ => 2%Z))
                   (Botocore.endpoint_in_service_wait "sensor-prediction-endpoint" 30 20)
                   PollEnv.start)) <= 20.
Proof.
  apply (bounded_polls_end (fun k => if k <? 3 then "Creating" else "InService")
           (fun _ => 2%Z) "sensor-prediction-endpoint" 20 30 15 "sensor-workflow").
  - lia.
  - intros i. lia.
  - lia.
Defined.

(** C2 as stated fails: the deployment scripts do not tell the timeout of
    the poll from a failed endpoint.  For 21 times ['Creating'] as for
    ['Failed'], [deploy_model_github.py] returns [None] and reports that the
    deployment failed, the process of [deploy_model.py] ends with code 1,
    and the monitor returns [False]. *)
Lemma timeout_reported_as_failure :
  let creating := PollEnv.poll_env
    (PollEnv.statuses (PollEnv.stream_of_list (repeat "Creating" 21) "Creating")) (fun _ => 0%Z) in
  let failed := PollEnv.poll_env (PollEnv.statuses (fun _ => "Failed")) (fun _ => 0%Z) in
  let cfg := DeployModelGithub.mk_config "us-east-1" DeployModel.role_arn
               DeployModel.container_image "ml.t2.medium" "sagemaker-ml-pipeline" in
  let github := DeployModelGithub.deploy_model cfg DeployModel.model_artifacts None None in
  let main := DeployModelGithub.main_deploy cfg DeployModel.model_artifacts in
  let monitor := MonitorEndpoint.monitor_endpoint_deployment 30 "sensor-prediction-endpoint" 10 in
  (result (run creating github PollEnv.start) = inr None /\
   result (run failed github PollEnv.start) = inr None) /\
  (printed "Deployment failed. Check the logs above for details."
     (stdout (run creating main PollEnv.start)) = true /\
   printed "Deployment failed. Check the logs above for details."
     (stdout (run failed main PollEnv.start)) = true) /\
  (exit_code (run_script creating DeployModel.main PollEnv.start) = 1%Z /\
   exit_code (run_script failed DeployModel.main PollEnv.start) = 1%Z) /\
  (result (run creating monitor PollEnv.start) = inr (Some false) /\
   result (run failed monitor PollEnv.start) = inr (Some false)).
Proof.
  cbv zeta. repeat split; vm_compute; reflexivity.
Qed.

(** C2, amended.  For the endpoint status 21 times ['Creating'] under the
    ceiling of 20 attempts, the poll of the deployment stage ends with the
    timeout after 20 polls, as a [WaiterError].  Both deployment scripts
    handle it in the handler that handles every exception of the stage:
    [deploy_model.py] prints the error and raises it again, which ends the
    process with code 1; [deploy_model_github.py] prints it and returns
    [None], which its entry point reports as a failed deployment. *)
Theorem deployment_poll_times_out (d : string) (latency : nat -> Z) (cfg : DeployModelGithub.config) :
  let E := PollEnv.poll_env
             (PollEnv.statuses (PollEnv.stream_of_list (repeat "Creating" 21) d)) latency in
  let poll := run E (Botocore.endpoint_in_service_wait
                       (Naming.endpoint_name PollEnv.today) 30 20) PollEnv.start in
  let o := run E DeployModel.deploy_model PollEnv.start in
  let g := run E (DeployModelGithub.deploy_model cfg DeployModel.model_artifacts None None)
             PollEnv.start in
  let m := run E (DeployModelGithub.main_deploy cfg DeployModel.model_artifacts) PollEnv.start in
  (waiter_outcome (result poll) = Some TimedOut /\ PollEnv.polls (world poll) = 20) /\
  (result o = inl (Exc (WaiterError MaxAttemptsExceeded)) /\
   PollEnv.polls (world o) = 20 /\
   In (Line "Error during deployment: {}" [str (WaiterError MaxAttemptsExceeded)]) (stdout o) /\
   exit_code (run_script E DeployModel.main PollEnv.start) = 1%Z) /\
  (result g = inr None /\
   In (Line "Error deploying model: {}" [str (WaiterError MaxAttemptsExceeded)]) (stdout g) /\
   In (Line "Deployment failed. Check the logs above for details." []) (stdout m)).
Proof.
  cbv zeta.
  set (s := PollEnv.stream_of_list (repeat "Creating" 21) d).
  assert (Hs : forall i, i <= 19 -> endpoint_terminal (s (0 + i)) = false).
  { intros i Hi. unfold s, PollEnv.stream_of_list. simpl.
    do 20 (destruct i as [|i]; [reflexivity|]). lia. }
  destruct (wait_loop_timeout s latency (Naming.endpoint_name PollEnv.today) 30 19 0 0%Z Hs)
    as (R & L & P).
  cbv zeta in R, L, P.
  change (Botocore.wait_loop 19 (Naming.endpoint_name PollEnv.today) 30)
    with (Botocore.endpoint_in_service_wait (Naming.endpoint_name PollEnv.today) 30 20) in R, L, P.
  change (PollEnv.mk_poll_state 0 0) with PollEnv.start in R, L, P.
  destruct (deploy_after_waiter_error s latency MaxAttemptsExceeded cfg R) as [Ho Hg].
  cbv zeta in Ho, Hg.
  split; [rewrite R, P; auto|]. split; [|exact Hg].
  destruct Ho as (Ho1 & Ho2 & Ho3 & Ho4). rewrite Ho2, P. auto.
Qed.

(** * Further properties of the scripts *)

(** ** The stages of [deploy.py] *)

Section Terraform.

Context {W J : Type} (E : env W) (json_loads : string -> string + J).

Local Ltac stop :=
  split; [eexists; reflexivity|]; split; [discriminate|]; split;
  [ intros i ev Hi Hok;
    repeat (destruct i as [|i]; simpl in Hi;
            [injection Hi as <-; first [discriminate Hok | simpl; auto]|]);
    discriminate Hi
  | split; [intros ev [= <-] Hok; discriminate Hok|discriminate] ].

(** X1.  [deploy_infrastructure] runs the Terraform commands in the order
    init, plan, apply, output, each when the one before succeeded and only
    then.  It runs at least the first; it goes on after every command that
    succeeded, so that the last command it runs either failed or is the
    fourth; a command that fails is the last one run: a non-zero exit
    status ends the process with code 1, any other exception passes
    through.  When the fourth command succeeded, its output is parsed: the
    function returns the parsed value, or raises the error of the parser.
    So the function returns only when all four commands succeeded, and
    then it returns the parsed output of the last one. *)
Theorem terraform_stops_at_first_failure (w : W) :
  let o := run E (Deploy.deploy_infrastructure json_loads) w in
  ops (trace o) `prefix_of` (subprocess_run <$> terraform_commands) /\
  trace o <> [] /\
  (forall i ev, trace o !! i = Some ev -> ev_ok ev = false ->
     S i = length (trace o) /\
     match ev_error ev with
     | Some (CalledProcessError _ _) => result o = inl (SystemExit 1)
     | Some e => result o = inl (Exc e)
     | None => False
     end) /\
  (forall ev, last (trace o) = Some ev -> ev_ok ev = true ->
     ops (trace o) = subprocess_run <$> terraform_commands /\
     exists outputs,
       ev = Ev (subprocess_run "terraform output -json") (inr outputs) /\
       result o = match json_loads outputs with
                  | inr v => inr v
                  | inl m => inl (Exc (ValueError m))
                  end) /\
  (forall v, result o = inr v ->
     ops (trace o) = subprocess_run <$> terraform_commands /\
     exists outputs, last (trace o) = Some (Ev (subprocess_run "terraform output -json") (inr outputs)) /\
                     json_loads outputs = inr v).
Proof.
  cbv zeta. unfold Deploy.deploy_infrastructure, Deploy.run_command. simpl.
  destruct (on_call E _ w) as [[e|o1] w1]; simpl; [destruct e; simpl; stop|].
  destruct (on_call E _ w1) as [[e|o2] w2]; simpl; [destruct e; simpl; stop|].
  destruct (on_call E _ w2) as [[e|o3] w3]; simpl; [destruct e; simpl; stop|].
  destruct (on_call E _ w3) as [[e|o4] w4]; simpl; [destruct e; simpl; stop|].
  destruct (json_loads o4) as [m|v'] eqn:Hj; simpl;
    (split; [exists []; reflexivity|]; split; [discriminate|]; split;
     [intros i ev Hi Hok;
      repeat (destruct i as [|i]; simpl in Hi; [injection Hi as <-; discriminate Hok|]);
      discriminate Hi|]);
    (split; [intros ev [= <-] _; split; [reflexivity|]; exists o4; rewrite Hj; auto|]);
    [discriminate|].
  intros v [= <-]. split; [reflexivity|]. exists o4. auto.
Qed.

End Terraform.

Section EndpointWait.

Import PollEnv Deploy.

Context (fetch : nat -> exception + string) (latency : nat -> Z) (name : string).

Let E := poll_env fetch latency.

(** One check of the endpoint at the [k]-th query. *)
Lemma check_sagemaker_endpoint_run (k : nat) (c : Z) :
  let o := run E (check_sagemaker_endpoint name) (mk_poll_state k c) in
  world o = mk_poll_state (S k) (c + latency k) /\
  ((result o = inr true /\ fetch k = inr "InService") \/
   (result o = inr false /\ fetch k <> inr "InService")).
Proof.
  cbv zeta. unfold check_sagemaker_endpoint. simpl.
  destruct (fetch k) as [e|st]; simpl.
  - split; [reflexivity|]. right. split; [reflexivity|discriminate].
  - case_bool_decide as Hst; simpl; (split; [reflexivity|]).
    + left. subst st. auto.
    + right. split; [reflexivity|congruence].
Qed.

Local Opaque check_sagemaker_endpoint.

Lemma endpoint_wait_loop_run (fuel : nat) :
  forall k c,
    let o := run E (endpoint_wait_loop fuel name) (mk_poll_state k c) in
    (result o = inr (Some tt) /\
     exists j, j < fuel /\ fetch (k + j) = inr "InService" /\
               (forall i, i < j -> fetch (k + i) <> inr "InService") /\
               polls (world o) = k + S j) \/
    (result o = inr None /\
     (forall i, i < fuel -> fetch (k + i) <> inr "InService") /\
     polls (world o) = k + fuel).
Proof.
  unfold E. induction fuel as [|fuel IH]; intros k c; cbv zeta.
  - right. simpl. split; [reflexivity|]. split; [intros i Hi; lia|lia].
  - cbn [endpoint_wait_loop]. rewrite run_bind.
    destruct (check_sagemaker_endpoint_run k c) as [Hw [[Hr Hk]|[Hr Hk]]];
      cbv zeta in Hr, Hw; unfold E in Hr, Hw; rewrite Hr; unfold and_then; rewrite Hw.
    + left. cbn [run result world polls]. split; [reflexivity|].
      exists 0. rewrite Nat.add_0_r. split; [lia|]. split; [exact Hk|].
      split; [intros i Hi; lia|lia].
    + cbn [bind ask run Py.on_ask poll_env PollEnv.on_ask polls clock].
      destruct (IH (S k) (c + latency k + 60)%Z) as [(R & j & Hj & Hin & Hb & Hp)|(R & Hb & Hp)];
        cbv zeta in R, Hp; cbn [result world]; rewrite R, Hp.
      * left. split; [reflexivity|]. exists (S j). split; [lia|].
        replace (k + S j) with (S k + j) by lia. split; [exact Hin|].
        split; [|lia].
        intros [|i] Hi; [rewrite Nat.add_0_r; exact Hk|].
        replace (k + S i) with (S k + i) by lia. apply Hb. lia.
      * right. split; [reflexivity|]. split; [|lia].
        intros [|i] Hi; [rewrite Nat.add_0_r; exact Hk|].
        replace (k + S i) with (S k + i) by lia. apply Hb. lia.
Qed.

End EndpointWait.

(** X2.  The wait for the endpoint at the end of [deploy.py] ends at the
    first status query that shows ['InService'], and only there: a query
    that raises and every other status, ['Failed'] included, make it sleep
    and ask again.  If no query ever shows ['InService'] the loop has not
    returned however often it is unrolled, and it has made as many queries
    as it was unrolled. *)
Theorem endpoint_wait_ends_at_in_service (fetch : nat -> exception + string)
    (latency : nat -> Z) (name : string) :
  let E := PollEnv.poll_env fetch latency in
  (forall fuel,
     let o := run E (Deploy.endpoint_wait_loop fuel name) PollEnv.start in
     (result o = inr (Some tt) <-> exists k, k < fuel /\ fetch k = inr "InService") /\
     (result o = inr None <-> forall k, k < fuel -> fetch k <> inr "InService") /\
     (forall k, k < fuel -> fetch k = inr "InService" ->
        (forall i, i < k -> fetch i <> inr "InService") ->
        PollEnv.polls (world o) = S k)) /\
  ((forall k, fetch k <> inr "InService") ->
   never_returns E (fun fuel => Deploy.endpoint_wait_loop fuel name) PollEnv.start /\
   polls_without_bound fetch latency (fun fuel => Deploy.endpoint_wait_loop fuel name)).
Proof.
  cbv zeta. split.
  - intros fuel.
    destruct (endpoint_wait_loop_run fetch latency name fuel 0 0%Z)
      as [(R & j & Hj & Hin & Hb & Hp)|(R & Hb & Hp)];
      cbv zeta in R, Hp; change (PollEnv.mk_poll_state 0 0) with PollEnv.start in R, Hp;
      rewrite R, Hp; simpl in *.
    + split; [|split].
      * split; [intros _; eauto|reflexivity].
      * split; [discriminate|]. intros Hno. destruct (Hno j Hj Hin).
      * intros k Hk Hink Hbk. f_equal.
        destruct (Nat.lt_trichotomy k j) as [Hlt|[->|Hgt]]; [|reflexivity|].
        -- destruct (Hb k Hlt Hink).
        -- destruct (Hbk j Hgt Hin).
    + split; [|split].
      * split; [discriminate|]. intros (k & Hk & Hink). destruct (Hb k Hk Hink).
      * split; [intros _; exact Hb|reflexivity].
      * intros k Hk Hink. destruct (Hb k Hk Hink).
  - intros Hno. split; intros fuel;
      destruct (endpoint_wait_loop_run fetch latency name fuel 0 0%Z)
        as [(R & j & Hj & Hin & Hb & Hp)|(R & Hb & Hp)];
      cbv zeta in R, Hp; change (PollEnv.mk_poll_state 0 0) with PollEnv.start in R, Hp;
      try (destruct (Hno _ Hin)); assumption.
Qed.

Lemma endpoint_wait_ends_at_in_service_witness :
  never_returns (PollEnv.poll_env (PollEnv.statuses (fun _ => "Failed")) (fun _ => 0%Z))
    (fun fuel => Deploy.endpoint_wait_loop fuel "sensor-prediction-endpoint") PollEnv.start.
Proof.
  apply (endpoint_wait_ends_at_in_service (PollEnv.statuses (fun _ => "Failed")) (fun _ => 0%Z)
           "sensor-prediction-endpoint").
  intros k. discriminate.
Defined.

Section EndpointStage.

Import Deploy.

Context {W : Type} (E : env W) (name : string).

Lemma check_sagemaker_endpoint_shape (w : W) :
  let o := run E (check_sagemaker_endpoint name) w in
  (exists d, result o = inr true /\ trace o = [Ev (describe_endpoint name) (inr d)] /\
             EndpointStatus d = "InService") \/
  (exists ev, result o = inr false /\ trace o = [ev] /\ not_ready name ev).
Proof.
  cbv zeta. unfold check_sagemaker_endpoint, not_ready. simpl.
  destruct (on_call E _ w) as [[e|d] w1]; simpl.
  - right. eexists. split; [reflexivity|]. split; [reflexivity|]. left. eauto.
  - case_bool_decide as Hd; simpl.
    + left. eauto.
    + right. eexists. split; [reflexivity|]. split; [reflexivity|]. right. eauto.
Qed.

Local Opaque check_sagemaker_endpoint.

Lemma endpoint_wait_loop_shape (fuel : nat) (w : W) :
  let o := run E (endpoint_wait_loop fuel name) w in
  exists waits,
    Forall (not_ready name) waits /\
    ((result o = inr None /\ trace o = waits /\ length waits = fuel) \/
     (exists d, result o = inr (Some tt) /\
                trace o = waits ++ [Ev (describe_endpoint name) (inr d)] /\
                EndpointStatus d = "InService" /\ length waits < fuel)).
Proof.
  cbv zeta. revert w. induction fuel as [|fuel IH]; intros w.
  - exists []. split; [constructor|]. left. simpl. auto.
  - cbn [endpoint_wait_loop]. rewrite run_bind.
    destruct (check_sagemaker_endpoint_shape w) as [(d & R & T & Hd)|(ev & R & T & Hev)];
      cbv zeta in R, T; rewrite R; unfold and_then; rewrite T.
    + exists []. split; [constructor|]. right. exists d. simpl. repeat split; auto; lia.
    + cbn [bind ask run].
      destruct (on_ask E (time_sleep 60) _) as [[] w2].
      destruct (IH w2) as (waits & Hw & [(R' & T' & L)|(d & R' & T' & Hd & L)]);
        exists (ev :: waits); (split; [constructor; assumption|]);
        cbn [result trace]; rewrite R', T'.
      * left. simpl. auto.
      * right. exists d. simpl. repeat split; auto; lia.
Qed.

Local Opaque endpoint_wait_loop.

(** X3.  In every execution of the end of [deploy.py], the calls are the
    status queries of the wait, none of which shows the endpoint in service
    but the last, followed by exactly one test invocation of that endpoint.
    The endpoint is not invoked before a query has shown ['InService'].
    Whatever the test invocation answers, an error included, the script
    reports that the deployment completed successfully. *)
Theorem endpoint_tested_once_in_service (fuel : nat) (data_bucket : string) (w : W) :
  let o := run E (main_endpoint_stage fuel name data_bucket) w in
  exists waits,
    Forall (not_ready name) waits /\
    ((result o = inr None /\ trace o = waits /\ length waits = fuel) \/
     (exists d r,
        result o = inr (Some tt) /\
        trace o = waits ++ [Ev (describe_endpoint name) (inr d);
                            Ev (invoke_endpoint name test_data) r] /\
        EndpointStatus d = "InService" /\ length waits < fuel /\
        In (Line "Deployment completed successfully!" []) (stdout o))).
Proof.
  cbv zeta. unfold main_endpoint_stage. cbn [bind print run result trace stdout].
  rewrite run_bind.
  destruct (endpoint_wait_loop_shape fuel w) as (waits & Hw & [(R & T & L)|(d & R & T & Hd & L)]);
    cbv zeta in R, T; exists waits; (split; [exact Hw|]); rewrite R;
    unfold and_then; cbn [result trace stdout]; rewrite T.
  - left. simpl. rewrite app_nil_r. auto.
  - right. unfold test_endpoint. simpl.
    destruct (on_call E _ _) as [[e|body] w2]; simpl.
    + exists d, (inl e). rewrite <- app_assoc. simpl. repeat split; auto.
      right. apply in_or_app. right. simpl. auto 10.
    + exists d, (inr body). rewrite <- app_assoc. simpl. repeat split; auto.
      right. apply in_or_app. right. simpl. auto 10.
Qed.

End EndpointStage.

Section WorkflowErrors.

Import Deploy.

Context {W : Type} (E : env W) (name : string).


Local Opaque workflow_loop.


End WorkflowErrors.

(** ** The deployment stage by its result *)

Section WaiterShape.

Context {W : Type} (E : env W) (name : string) (delay : Z).

(** The waiter in any environment: it returns only after a query has shown
    the endpoint in service, all its queries having been answered; it raises
    nothing but exceptions. *)
Lemma wait_loop_shape (more : nat) (w : W) :
  let o := run E (Botocore.wait_loop more name delay) w in
  stdout o = [] /\
  Forall (fun ev => ev_op ev = describe_endpoint name) (trace o) /\
  ((exists pre d, result o = inr tt /\
                  trace o = pre ++ [Ev (describe_endpoint name) (inr d)] /\
                  EndpointStatus d = "InService" /\
                  Forall (fun ev => ev_ok ev = true) (trace o)) \/
   (exists e, result o = inl (Exc e))).
Proof.
  cbv zeta. revert w. induction more as [|more IH]; intros w; simpl;
    destruct (on_call E _ w) as [[e|d] w1]; simpl.
  - destruct e; simpl; (split; [reflexivity|]); (split; [repeat constructor|]); right; eauto.
  - repeat case_bool_decide; simpl; (split; [reflexivity|]); (split; [repeat constructor|]);
      [left|right; eauto|right; eauto].
    exists [], d. simpl. repeat split; auto.
  - destruct e; simpl; (split; [reflexivity|]); (split; [repeat constructor|]); right; eauto.
  - repeat case_bool_decide; simpl;
      try (split; [reflexivity|]; split; [repeat constructor|]); [left|right; eauto|].
    { exists [], d. simpl. repeat split; auto. }
    destruct (on_ask E (time_sleep delay) w1) as [[] w2].
    destruct (IH w2) as (Hout & Hops & [(pre & d' & R & T & Hd & Hok)|(e & R)]).
    + split; [exact Hout|]. split; [constructor; [reflexivity|exact Hops]|].
      left. exists (Ev (describe_endpoint name) (inr d) :: pre), d'.
      rewrite T in Hok |- *. rewrite R.
      split; [reflexivity|]. split; [reflexivity|]. split; [exact Hd|].
      constructor; [reflexivity|exact Hok].
    + split; [exact Hout|]. split; [constructor; [reflexivity|exact Hops]|].
      right. exists e. exact R.
Qed.

Lemma waiter_shape (max_attempts : nat) (w : W) :
  let o := run E (Botocore.endpoint_in_service_wait name delay max_attempts) w in
  stdout o = [] /\
  Forall (fun ev => ev_op ev = describe_endpoint name) (trace o) /\
  ((exists pre d, result o = inr tt /\
                  trace o = pre ++ [Ev (describe_endpoint name) (inr d)] /\
                  EndpointStatus d = "InService" /\
                  Forall (fun ev => ev_ok ev = true) (trace o)) \/
   (exists e, result o = inl (Exc e))).
Proof.
  apply wait_loop_shape.
Qed.

End WaiterShape.

Section DeployResult.

Context {W : Type} (E : env W).

Local Opaque Botocore.endpoint_in_service_wait.


Lemma github_deploy_returns (w : W) (cfg : DeployModelGithub.config) (path : string)
    (mn en : option string) :
  exists r, result (run E (DeployModelGithub.deploy_model cfg path mn en) w) = inr r.
Proof.
  unfold DeployModelGithub.deploy_model. simpl.
  destruct (on_ask E datetime_now w) as [t w0]. simpl.
  destruct (on_call E _ w0) as [[e|a1] w1]; simpl; [eauto|].
  destruct (on_call E _ w1) as [[e|a2] w2]; simpl; [eauto|].
  destruct (on_call E _ w2) as [[e|a3] w3]; simpl; [eauto|].
  rewrite run_try_except, run_bind.
  destruct (waiter_shape E (DeployModelGithub.or_default en (Naming.endpoint_name t)) 30 20 w3)
    as (_ & _ & [(pre & d & R & _)|(e & R)]); cbv zeta in R; rewrite R; simpl; [|eauto].
  destruct (on_call E _ _) as [[e|d'] w4]; simpl; [eauto|].
  case_bool_decide; simpl; [eauto|].
  destruct (FailureReason d'); simpl; eauto.
Qed.


End DeployResult.

(** ** The monitor in any environment *)

Section MonitorVerdict.

Import MonitorEndpoint.

Context {W : Type} (E : env W) (name : string).


Local Opaque monitor_turn.


Local Opaque monitor_loop.


End MonitorVerdict.

(** ** Status modes and the entry point of the cleanup *)

Section StatusModes.

Context {W : Type} (E : env W).

(** A loop whose body only prints. *)
Lemma for_each_silent {A : Type} (l : list A) (body : A -> prog unit) :
  (forall x w, result (run E (body x) w) = inr tt /\ trace (run E (body x) w) = []) ->
  forall w, result (run E (for_each l body) w) = inr tt /\
            trace (run E (for_each l body) w) = [].
Proof.
  intros Hb. induction l as [|x l IH]; intros w; simpl; [auto|].
  rewrite run_bind. destruct (Hb x w) as [R T]. rewrite R.
  unfold and_then; cbn [result trace]. rewrite T. apply IH.
Qed.

Lemma show_current_status_run (w : W) :
  let o := run E Cleanup.show_current_status w in
  result o = inr tt /\
  exists r, trace o = [Ev (list_endpoints "sensor-prediction" 5) r].
Proof.
  cbv zeta. unfold Cleanup.show_current_status. simpl.
  destruct (on_call E _ w) as [[e|eps] w1]; simpl; [eauto|].
  rewrite run_try_except.
  destruct (for_each_silent eps (fun endpoint : endpoint_summary =>
              print "{} {} - {}"
                [Cleanup.status_icon (SummaryStatus endpoint); EndpointName endpoint;
                 SummaryStatus endpoint]) ltac:(intros; split; reflexivity) w1) as [R T].
  rewrite R, T. eauto.
Qed.

(** The sweep ends by returning, or by an exception that is not an error
    response of the service. *)
Lemma sweep_result (l : list candidate) (w : W) :
  let o := run E (for_each l cleanup_step) w in
  result o = inr tt \/ exists e, result o = inl (Exc e) /\ forall m, e <> ClientError m.
Proof.
  cbv zeta. revert w. induction l as [|c l IH]; intros w; [left; reflexivity|].
  cbn [for_each]. rewrite run_bind.
  destruct (cleanup_step_segment E c w) as [_ [R|(ev & e & _ & _ & R & He)]];
    cbv zeta in R; rewrite R.
  - apply IH.
  - right. exists e. auto.
Qed.

(** X10.  Started without [--status], [cleanup_failed_resources.py] runs
    the sweep and then the status report.  When the sweep returns, the one
    listing of the report follows the calls of the sweep and the process
    ends with code 0.  The sweep ends otherwise only by an exception that
    is not an error response of the service; then the report is not made,
    and the process ends with code 1 and the traceback on standard
    error. *)
Theorem status_report_follows_sweep (argv : list string) (w : W) :
  argv !! 1 <> Some "--status" ->
  let s := run E Cleanup.cleanup_failed_resources w in
  let p := run_script E (Cleanup.main argv) w in
  match result s with
  | inr _ =>
      exit_code p = 0%Z /\ proc_stderr p = [] /\
      exists r, proc_trace p = trace s ++ [Ev (list_endpoints "sensor-prediction" 5) r]
  | inl (Exc e) =>
      exit_code p = 1%Z /\ proc_stderr p = ["Traceback: " +:+ str e] /\
      proc_trace p = trace s /\ forall m, e <> ClientError m
  | inl (SystemExit _) => False
  end.
Proof.
  intros Hargv. cbv zeta. unfold Cleanup.main, run_script.
  rewrite (bool_decide_eq_false_2 (argv !! 1 = Some "--status")) by assumption.
  rewrite andb_false_r, run_bind.
  unfold Cleanup.cleanup_failed_resources.
  destruct (cleanup_as_sweep E Cleanup.failed_endpoints Cleanup.failed_configs
              Cleanup.failed_models w) as (Hr & _ & _ & _). cbv zeta in Hr.
  destruct (sweep_result (candidates Cleanup.failed_endpoints Cleanup.failed_configs
                            Cleanup.failed_models) w) as [R|(e & R & He)];
    cbv zeta in R; rewrite <- Hr in R; rewrite R.
  - unfold and_then.
    destruct (show_current_status_run
                (world (run E (Cleanup.cleanup_failed_resources_on Cleanup.failed_endpoints
                                 Cleanup.failed_configs Cleanup.failed_models) w)))
      as (R' & r & T'). cbv zeta in R', T'.
    cbn [result]. rewrite R'. cbn [exit_code proc_stderr proc_trace trace]. rewrite T'. eauto.
  - unfold cut_short. cbn [result exit_code proc_stderr proc_trace trace]. auto.
Qed.

End StatusModes.

Lemma status_report_follows_sweep_witness :
  exit_code (run_script ControlPlane.control_plane
               (Cleanup.main ["cleanup_failed_resources.py"])
               (ControlPlane.mk_state ∅ ∅ ∅ ControlPlane.no_faults)) = 0%Z.
Proof.
  pose proof (status_report_follows_sweep ControlPlane.control_plane
                ["cleanup_failed_resources.py"]
                (ControlPlane.mk_state ∅ ∅ ∅ ControlPlane.no_faults)
                ltac:(discriminate)) as H.
  vm_compute in H. exact (proj1 H).
Defined.

(** ** The tests of [test_endpoint.py] *)

Section EndpointTests.

Import TestEndpoint.

Context {W : Type} (E : env W) (F : float_ops) (P : frame_ops F) (name : string).





Local Opaque check_endpoint_status test_single_prediction analyze_predictions
  test_batch_predictions.


End EndpointTests.

(** ** What the sweep keeps *)

Section SweepKeeps.

Import ControlPlane Sweep SweepFrame.

Lemma keeps_refl (l : list candidate) (s : state) : keeps l s s.
Proof.
  unfold keeps. repeat split; auto.
Qed.

Lemma keeps_remove (c : candidate) (s : state) :
  will_delete c s = true -> keeps [c] s (remove c s).
Proof.
  intros Hw. unfold keeps. destruct c as [k|k|k]; simpl in *.
  - destruct (faults s (describe_endpoint k)); [discriminate|].
    destruct (endpoints s !! k) as [dk|] eqn:Hk; [|discriminate].
    destruct (faults s (delete_endpoint k)); [discriminate|].
    apply bool_decide_eq_true in Hw.
    repeat split; auto.
    + intros n d Hn [Hc|Hst].
      * rewrite lookup_delete_ne; [exact Hn|].
        intros ->. apply Hc. apply list_elem_of_singleton. reflexivity.
      * destruct (decide (k = n)) as [->|Hne]; [|rewrite lookup_delete_ne; auto].
        rewrite Hk in Hn. injection Hn as <-. contradiction.
    + intros n d Hn. destruct (decide (k = n)) as [->|Hne].
      * rewrite lookup_delete_eq in Hn. discriminate.
      * rewrite lookup_delete_ne in Hn; auto.
  - repeat split; auto.
    + intros n Hn Hc. apply elem_of_difference. split; [exact Hn|].
      intros Heq. apply elem_of_singleton in Heq as ->. apply Hc.
      apply list_elem_of_singleton. reflexivity.
    + intros n Hn. apply elem_of_difference in Hn as [Hn _]. exact Hn.
  - repeat split; auto.
    + intros n Hn Hc. apply elem_of_difference. split; [exact Hn|].
      intros Heq. apply elem_of_singleton in Heq as ->. apply Hc.
      apply list_elem_of_singleton. reflexivity.
    + intros n Hn. apply elem_of_difference in Hn as [Hn _]. exact Hn.
Qed.

Lemma keeps_step (c : candidate) (s : state) :
  keeps [c] s (world (run control_plane (cleanup_step c) s)).
Proof.
  rewrite step_world_eq. destruct (will_delete c s) eqn:Hw;
    [apply keeps_remove, Hw|apply keeps_refl].
Qed.

Lemma keeps_cons (c : candidate) (l : list candidate) (s s1 s2 : state) :
  keeps [c] s s1 -> keeps l s1 s2 -> keeps (c :: l) s s2.
Proof.
  intros (A1 & B1 & C1 & D1 & E1 & F1) (A2 & B2 & C2 & D2 & E2 & F2).
  unfold keeps. repeat split.
  - intros n d Hn H. apply A2.
    + apply A1; [exact Hn|]. destruct H as [H|H]; [left|right; exact H].
      intros Hin. apply H. apply list_elem_of_singleton in Hin as <-. left.
    + destruct H as [H|H]; [left|right; exact H].
      intros Hin. apply H. right. exact Hin.
  - intros n Hn H. apply B2.
    + apply B1; [exact Hn|]. intros Hin. apply H.
      apply list_elem_of_singleton in Hin as <-. left.
    + intros Hin. apply H. right. exact Hin.
  - intros n Hn H. apply C2.
    + apply C1; [exact Hn|]. intros Hin. apply H.
      apply list_elem_of_singleton in Hin as <-. left.
    + intros Hin. apply H. right. exact Hin.
  - intros n d Hn. apply D1, D2, Hn.
  - intros n Hn. apply E1, E2, Hn.
  - intros n Hn. apply F1, F2, Hn.
Qed.

Lemma keeps_weaken (c : candidate) (l : list candidate) (s s' : state) :
  keeps [c] s s' -> keeps (c :: l) s s'.
Proof.
  intros H. apply (keeps_cons c l s s' s'); [exact H|apply keeps_refl].
Qed.

Lemma keeps_sweep (l : list candidate) (s : state) : keeps l s (sweep_world l s).
Proof.
  revert s. induction l as [|c l IH]; intros s; [apply keeps_refl|].
  rewrite sweep_world_cons.
  destruct (result (run control_plane (cleanup_step c) s)).
  - apply keeps_weaken, keeps_step.
  - eapply keeps_cons; [apply keeps_step|apply IH].
Qed.

(** X12.  On the reference control plane, whatever faults it raises, the
    sweep removes nothing but its candidates: an endpoint that is not in
    the endpoint list, or whose status is neither ['Failed'] nor
    ['OutOfService'], is there afterwards with the same description; an
    endpoint configuration or a model that is not in its list is there
    afterwards; and the sweep adds nothing to the state. *)
Theorem sweep_deletes_candidates_only (s : state) (eps cfgs mds : list string) :
  let s' := world (run control_plane (Cleanup.cleanup_failed_resources_on eps cfgs mds) s) in
  (forall n d, endpoints s !! n = Some d ->
     ~ In n eps \/ (EndpointStatus d <> "Failed" /\ EndpointStatus d <> "OutOfService") ->
     endpoints s' !! n = Some d) /\
  (forall n, n ∈ endpoint_configs s -> ~ In n cfgs -> n ∈ endpoint_configs s') /\
  (forall n, n ∈ models s -> ~ In n mds -> n ∈ models s') /\
  (forall n d, endpoints s' !! n = Some d -> endpoints s !! n = Some d) /\
  endpoint_configs s' ⊆ endpoint_configs s /\
  models s' ⊆ models s.
Proof.
  cbv zeta. rewrite cleanup_world.
  destruct (keeps_sweep (candidates eps cfgs mds) s) as (A & B & C & D & Ec & F).
  split; [|split; [|split; [|auto]]].
  - intros n d Hn H. apply A; [exact Hn|]. destruct H as [H|[H1 H2]].
    + left. intros Hin. apply H. unfold candidates in Hin.
      rewrite !elem_of_app, !list_elem_of_fmap in Hin.
      destruct Hin as [(x & [= ->] & Hx)|[(x & Hx & _)|(x & Hx & _)]]; try discriminate.
      apply list_elem_of_In, Hx.
    + right. rewrite !not_elem_of_cons. split; [exact H1|]. split; [exact H2|].
      apply not_elem_of_nil.
  - intros n Hn H. apply B; [exact Hn|]. intros Hin. apply H. unfold candidates in Hin.
    rewrite !elem_of_app, !list_elem_of_fmap in Hin.
    destruct Hin as [(x & Hx & _)|[(x & [= ->] & Hx)|(x & Hx & _)]]; try discriminate.
    apply list_elem_of_In, Hx.
  - intros n Hn H. apply C; [exact Hn|]. intros Hin. apply H. unfold candidates in Hin.
    rewrite !elem_of_app, !list_elem_of_fmap in Hin.
    destruct Hin as [(x & Hx & _)|[(x & Hx & _)|(x & [= ->] & Hx)]]; try discriminate.
    apply list_elem_of_In, Hx.
Qed.

End SweepKeeps.

(** ** The entries of the batch test *)

Section BatchEntries.

Import TestEndpoint BatchReport.

Context {W : Type} (E : env W) (F : float_ops).

Lemma turn_entry_fields (draws : nat -> draw F) (i : nat) (r : exception + string)
    (p : prediction F) :
  turn_entry draws i r = Some p ->
  sample p = i + 1 /\
  input_temp p = avg_temp (draws i) /\
  input_humidity p = avg_humidity (draws i) /\
  parsed_reply F r = Some (predicted_temp p) /\
  difference p = fsub F (predicted_temp p) (input_temp p).
Proof.
  unfold turn_entry, parsed_reply. destruct r as [e|body]; [discriminate|].
  destruct (float_of_string F body) as [x|]; [|discriminate].
  intros [= <-]. simpl. auto.
Qed.

Lemma turn_entry_none (draws : nat -> draw F) (i : nat) (r : exception + string) :
  turn_entry draws i r = None <-> parsed_reply F r = None.
Proof.
  unfold turn_entry, parsed_reply. destruct r as [e|body]; [tauto|].
  destruct (float_of_string F body); split; intros H; try discriminate; reflexivity.
Qed.

Lemma entries_of_replies (draws : nat -> draw F) (n : nat) :
  forall a (tr : list event),
    length tr = n ->
    let l := omap (fun '(i, ev) => turn_entry draws i (invoke_reply ev)) (zip (seq a n) tr) in
    (sample <$> l) `sublist_of` seq (a + 1) n /\
    Forall (entry_of_turn draws tr a) l /\
    length l <= n /\
    (length l = n <-> Forall (fun ev => parsed_reply F (invoke_reply ev) <> None) tr).
Proof.
  induction n as [|n IH]; intros a tr Hlen; cbv zeta.
  - destruct tr; [|discriminate]. simpl. repeat split; auto; constructor.
  - destruct tr as [|ev tr]; [discriminate|]. injection Hlen as Hlen.
    cbn [seq zip zip_with omap list_omap].
    destruct (IH (S a) tr Hlen) as (Sub & Fa & L & Iff). cbv zeta in Sub, Fa, L, Iff.
    replace (S a + 1) with (S (S a)) in Sub by lia.
    replace (a + 1) with (S a) by lia.
    assert (Fa' : Forall (entry_of_turn draws (ev :: tr) a)
                    (omap (fun '(i, ev0) => turn_entry draws i (invoke_reply ev0))
                       (zip (seq (S a) n) tr))).
    { eapply Forall_impl; [exact Fa|]. intros q (Hq & (ev' & Hev & Hp) & Hrest).
      split; [lia|]. split; [|exact Hrest].
      exists ev'. split; [|exact Hp].
      replace (sample q - 1 - a) with (S (sample q - 1 - S a)) by lia. exact Hev. }
    destruct (turn_entry draws a (invoke_reply ev)) as [p|] eqn:Hp.
    + assert (Hsome : parsed_reply F (invoke_reply ev) <> None).
      { intros Hn. apply (proj2 (turn_entry_none draws a _)) in Hn. congruence. }
      apply turn_entry_fields in Hp as (Hs & Hit & Hih & Hpr & Hdf).
      split; [|split; [|split]].
      * simpl. rewrite Hs. replace (a + 1) with (S a) by lia. apply sublist_skip. exact Sub.
      * constructor; [|exact Fa'].
        split; [lia|]. split.
        -- exists ev. replace (sample p - 1 - a) with 0 by lia. auto.
        -- replace (sample p - 1) with a by lia. auto.
      * simpl. lia.
      * simpl. split.
        -- intros H. constructor; [exact Hsome|]. apply Iff. lia.
        -- intros H. apply Forall_cons in H as [_ H]. apply Iff in H. lia.
    + apply turn_entry_none in Hp.
      split; [|split; [|split]].
      * simpl. apply sublist_cons. exact Sub.
      * exact Fa'.
      * lia.
      * split; [lia|]. intros H. apply Forall_cons in H as [H _]. contradiction.
Qed.

(** X13.  [test_batch_predictions] never raises, and the entries of the
    list it returns tell which samples succeeded: their sample numbers are
    a subsequence of 1, ..., [n], so they are in increasing order without
    repetition; the entry numbered [k] holds the number the reply to the
    [k]-th invocation stands for, the inputs drawn for that turn, and their
    difference.  The list has [n] entries exactly when every invocation
    returned a number. *)
Theorem batch_entries_numbered (name : string) (draws : nat -> draw F) (n : nat) (w : W) :
  let b := run E (test_batch_predictions name draws n) w in
  exists l,
    result b = inr l /\
    (sample <$> l) `sublist_of` seq 1 n /\
    Forall (fun p =>
              (exists ev, trace b !! (sample p - 1) = Some ev /\
                          parsed_reply F (invoke_reply ev) = Some (predicted_temp p)) /\
              input_temp p = avg_temp (draws (sample p - 1)) /\
              input_humidity p = avg_humidity (draws (sample p - 1)) /\
              difference p = fsub F (predicted_temp p) (input_temp p)) l /\
    (length l = n <->
     Forall (fun ev => parsed_reply F (invoke_reply ev) <> None) (trace b)).
Proof.
  cbv zeta. unfold test_batch_predictions. cbn [bind print run result trace].
  destruct (batch_loop_run E F name draws (seq 0 n) [] w) as (Hops & Hres & _).
  set (tr := trace (run E (for_fold (seq 0 n) [] (batch_turn name draws)) w)) in *.
  assert (Hlen : length tr = n).
  { apply (f_equal length) in Hops. unfold ops in Hops.
    rewrite !length_fmap, length_seq in Hops. exact Hops. }
  destruct (entries_of_replies draws n 0 tr Hlen) as (Sub & Fa & _ & Iff).
  cbv zeta in Sub, Fa, Iff.
  eexists. split; [exact Hres|]. cbn [app]. split; [exact Sub|]. split; [|exact Iff].
  eapply Forall_impl; [exact Fa|]. intros p (_ & (ev & Hev & Hp) & Hrest).
  split; [|exact Hrest]. exists ev. rewrite Nat.sub_0_r in Hev. auto.
Qed.

End BatchEntries.

(** ** The time the deployment stage waits *)

Section WaitTime.

Import PollEnv.

Context (fetch : nat -> exception + string) (latency : nat -> Z).

Let E := poll_env fetch latency.

Lemma answer_time_cons (k n : nat) :
  answer_time latency k (S n) = (latency k + answer_time latency (S k) n)%Z.
Proof. reflexivity. Qed.

Lemma answer_time_snoc (n : nat) :
  forall k, answer_time latency k (S n) = (answer_time latency k n + latency (k + n))%Z.
Proof.
  induction n as [|n IH]; intros k.
  - unfold answer_time. simpl. rewrite Nat.add_0_r. lia.
  - rewrite answer_time_cons, IH, (answer_time_cons k n).
    replace (S k + n) with (k + S n) by lia. lia.
Qed.

(** The waiter by the clock: its queries are answered one after the other,
    with a sleep of [delay] seconds between two of them and none after the
    last. *)
Lemma wait_loop_clock (name : string) (delay : Z) (more : nat) :
  forall k c,
    let o := run E (Botocore.wait_loop more name delay) (mk_poll_state k c) in
    exists j, j <= more /\
      polls (world o) = k + S j /\
      clock (world o) = (c + answer_time latency k (S j) + delay * Z.of_nat j)%Z /\
      ((exists e, result o = inl (Exc e)) \/ result o = inr tt).
Proof.
  unfold E. induction more as [|more IH]; intros k c; cbv zeta; simpl;
    destruct (fetch k) as [e|st]; simpl.
  - exists 0. unfold answer_time.
    destruct e; simpl; (split; [lia|]); (split; [lia|]); (split; [lia|]); eauto.
  - exists 0. unfold answer_time.
    repeat case_bool_decide; simpl; (split; [lia|]); (split; [lia|]); (split; [lia|]); eauto.
  - exists 0. unfold answer_time.
    destruct e; simpl; (split; [lia|]); (split; [lia|]); (split; [lia|]); eauto.
  - case_bool_decide as H1; simpl.
    { exists 0. unfold answer_time. simpl. split; [lia|]. split; [lia|]. split; [lia|]. auto. }
    case_bool_decide as H2; simpl.
    { exists 0. unfold answer_time. simpl. split; [lia|]. split; [lia|]. split; [lia|]. eauto. }
    destruct (IH (S k) (c + latency k + delay)%Z) as (j & Hj & Hp & Hc & Hr).
    cbv zeta in Hp, Hc, Hr. exists (S j). split; [lia|]. split; [rewrite Hp; lia|].
    split; [|exact Hr]. rewrite Hc, (answer_time_cons k (S j)). lia.
Qed.

Lemma waiter_clock (name : string) (delay : Z) (max_attempts : nat) :
  let o := run E (Botocore.endpoint_in_service_wait name delay max_attempts) start in
  exists j, j <= max_attempts - 1 /\
    polls (world o) = S j /\
    clock (world o) = (answer_time latency 0 (S j) + delay * Z.of_nat j)%Z /\
    ((exists e, result o = inl (Exc e)) \/ result o = inr tt).
Proof.
  destruct (wait_loop_clock name delay (max_attempts - 1) 0 0%Z) as (j & Hj & Hp & Hc & Hr).
  exists j. cbv zeta in *. unfold Botocore.endpoint_in_service_wait, start.
  rewrite Hp, Hc. repeat split; auto.
Qed.

Local Opaque Botocore.endpoint_in_service_wait.

(** X14.  The deployment stage of both scripts waits with a bound: for
    every sequence of answers to the status queries, the waiter sleeps at
    most 19 times, 30 seconds each, and the stage makes at most two status
    queries more than it sleeps, the last one being the description after
    the wait.  The clock at the end of the stage is the time the queries
    took to be answered plus the time slept, so the stage spends at most
    570 seconds asleep. *)
Theorem deployment_wait_is_bounded (cfg : DeployModelGithub.config) (path : string)
    (mn en : option string) :
  let o := run E DeployModel.deploy_model start in
  let g := run E (DeployModelGithub.deploy_model cfg path mn en) start in
  (exists sleeps, sleeps <= 19 /\
     polls (world o) <= sleeps + 2 /\
     clock (world o) = (answer_time latency 0 (polls (world o)) + 30 * Z.of_nat sleeps)%Z) /\
  (exists sleeps, sleeps <= 19 /\
     polls (world g) <= sleeps + 2 /\
     clock (world g) = (answer_time latency 0 (polls (world g)) + 30 * Z.of_nat sleeps)%Z).
Proof.
  cbv zeta. split.
  - unfold DeployModel.deploy_model, E. simpl.
    rewrite run_try_except, run_bind.
    destruct (waiter_clock (Naming.endpoint_name today) 30 20) as (j & Hj & Hp & Hc & Hr).
    cbv zeta in Hp, Hc, Hr. unfold E in Hp, Hc, Hr.
    destruct (run (poll_env fetch latency)
                (Botocore.endpoint_in_service_wait (Naming.endpoint_name today) 30 20) start)
      as [res [k c] tw outw].
    cbn [result world polls clock] in *. subst k c.
    exists j. split; [lia|].
    destruct Hr as [(e & ->)| ->]; simpl.
    + split; [lia|reflexivity].
    + destruct (fetch (S j)) as [e|st]; simpl;
        (split; [lia|]); rewrite (answer_time_snoc (S j) 0); simpl; lia.
  - unfold DeployModelGithub.deploy_model, E. simpl.
    rewrite run_try_except, run_bind.
    destruct (waiter_clock (DeployModelGithub.or_default en (Naming.endpoint_name today)) 30 20)
      as (j & Hj & Hp & Hc & Hr).
    cbv zeta in Hp, Hc, Hr. unfold E in Hp, Hc, Hr.
    destruct (run (poll_env fetch latency)
                (Botocore.endpoint_in_service_wait
                   (DeployModelGithub.or_default en (Naming.endpoint_name today)) 30 20) start)
      as [res [k c] tw outw].
    cbn [result world polls clock] in *. subst k c.
    exists j. split; [lia|].
    destruct Hr as [(e & ->)| ->]; simpl.
    + split; [lia|reflexivity].
    + destruct (fetch (S j)) as [e|st]; simpl; [|case_bool_decide; simpl];
        (split; [lia|]); rewrite (answer_time_snoc (S j) 0); simpl; lia.
Qed.

End WaitTime.

(** ** [run_full_pipeline.py] and the status modes, from their first line *)

Section PipelineScript.

Context {W : Type} (E : env W).

Local Ltac unbuilt_at :=
  left; eexists; split;
  [split; [eexists; reflexivity|eexists; split; reflexivity]|];
  split; reflexivity.

Local Ltac side :=
  try assumption; try congruence; simpl; try assumption; try exact I; try congruence;
  try (rewrite ?(bool_decide_eq_false_2 (_ = "InService")),
               ?(bool_decide_eq_true_2 (_ = "")) by assumption;
       simpl; rewrite ?andb_false_r; reflexivity).

Local Ltac stopped c :=
  right; eexists _, false; split; [reflexivity|];
  split; [c; side|]; split; [reflexivity|]; split; [discriminate|];
  intros err (evl & Hl & He); simpl in Hl; injection Hl as <-; simpl in He;
  first [discriminate He | injection He as <-; simpl; split; [reflexivity|auto 20]].

(** The run of [run_full_ml_pipeline] from its first line. *)
Lemma pipeline_script_shape (w : W) :
  let o := run E RunFullPipelineScript.run_full_ml_pipeline w in
  (exists e, unbuilt pipeline_clients (trace o) e /\ result o = inl (Exc e) /\
             stdout o = [Line "STARTING COMPLETE ML PIPELINE" []]) \/
  (exists checks b,
     trace o = pipeline_clients_built ++ checks /\
     pipeline_run checks b /\
     result o = inr b /\
     (b = true -> In (Line "ML Pipeline is fully operational!" []) (stdout o)) /\
     (forall e, ended_by checks e ->
        b = false /\
        In (Line "Pipeline execution failed: {}" [str e]) (stdout o))).
Proof.
  cbv zeta. unfold RunFullPipelineScript.run_full_ml_pipeline, pipeline_clients,
    pipeline_clients_built, unbuilt, ended_by. simpl.
  destruct (on_call E _ w) as [[e|[]] v1]; simpl; [unbuilt_at|].
  destruct (on_call E _ v1) as [[e|[]] v2]; simpl; [unbuilt_at|].
  destruct (on_call E _ v2) as [[e|[]] v3]; simpl; [unbuilt_at|].
  destruct (on_call E _ v3) as [[e|n] w1]; simpl; [stopped ltac:(apply stop_at_data)|].
  case_bool_decide as Hn; simpl; [stopped ltac:(apply stop_at_data)|].
  destruct (on_call E _ w1) as [[e|jobs] w2]; simpl;
    [stopped ltac:(apply stop_at_jobs)|].
  destruct (List.find _ jobs) as [job|] eqn:Hjob; simpl;
    [|stopped ltac:(apply stop_at_jobs)].
  assert (Hjob' : completed_job jobs <> None) by (unfold completed_job; congruence).
  destruct (on_call E _ w2) as [[e|eps] w3]; simpl;
    [stopped ltac:(apply stop_at_endpoints)|].
  destruct eps as [|ep rest]; simpl; [stopped ltac:(apply stop_at_endpoints)|].
  case_bool_decide as Hst; simpl.
  2:{ stopped ltac:(apply stop_at_endpoints). }
  case_bool_decide as Hname; simpl.
  { stopped ltac:(apply stop_at_endpoints). }
  assert (Hact : active_endpoint (ep :: rest) = Some (EndpointName ep)).
  { simpl. rewrite bool_decide_eq_true_2 by assumption.
    rewrite bool_decide_eq_false_2 by assumption. reflexivity. }
  destruct (on_call E _ w3) as [[e|[]] w4]; simpl.
  { stopped ltac:(apply stop_at_runtime). }
  destruct (on_call E _ w4) as [[e|body] w5]; simpl.
  - right. eexists _, false. split; [reflexivity|].
    split; [apply (tested n jobs (ep :: rest) (EndpointName ep) (inl e)); auto|].
    split; [reflexivity|]. split; [discriminate|].
    intros e' (ev & Hl & He). simpl in Hl. injection Hl as <-. simpl in He.
    injection He as <-. simpl. auto 20.
  - right. eexists _, true. split; [reflexivity|].
    split; [apply (tested n jobs (ep :: rest) (EndpointName ep) (inr body)); auto|].
    split; [reflexivity|]. split; [intros _; simpl; auto 20|].
    intros e' (ev & Hl & He). simpl in Hl. injection Hl as <-. discriminate He.
Qed.





End PipelineScript.






(** X15.  The orchestration run builds its three clients and then makes
    its checks in the order of the source, stopping at the first that does
    not pass.  If a client cannot be built, the exception leaves the run
    and no check is made.  Otherwise the calls after the clients are the
    listing of the training data; then, only if it showed data, the listing
    of the training jobs; then, only if it showed a completed job, the
    listing of the endpoints; then, only if it showed an active endpoint,
    the client of the runtime and one invocation of that endpoint.  A check
    that raises or does not pass is the last call, and the run returns
    [False]; the run returns [True] exactly when the invocation
    returned. *)
Theorem pipeline_checks_in_order {W : Type} (E : env W) (w : W) :
  let o := run E RunFullPipelineScript.run_full_ml_pipeline w in
  (exists e, unbuilt pipeline_clients (trace o) e /\ result o = inl (Exc e)) \/
  (exists checks b,
     trace o = pipeline_clients_built ++ checks /\
     pipeline_run checks b /\
     result o = inr b).
Proof.
  cbv zeta.
  destruct (pipeline_script_shape E w) as [(e & U & R & _)|(checks & b & T & Hrun & R & _)].
  - left. eauto.
  - right. eauto.
Qed.

(** ** The stages from the first line of their functions *)

Section StagesFromFirstLine.

Context {W : Type} (E : env W).




End StagesFromFirstLine.

(** ** The entry point of [deploy_model_github.py] *)

Section GithubEntry.

Import DeployModelGithub.

Context {W : Type} (E : env W).







Local Opaque DeployModelGithubScript.check_endpoint_status
  DeployModelGithubScript.list_recent_training_jobs DeployModelGithubScript.deploy_model.


End GithubEntry.

(** ** [test_endpoint.py] from the first line of [main] *)

Section EndpointTestsScript.

Context {W : Type} (E : env W) (F : float_ops) (P : TestEndpoint.frame_ops F).



Local Opaque TestEndpointScript.get_endpoint_name TestEndpoint.main_tests.


End EndpointTestsScript.

(** ** Fetch errors during a poll *)

Section FetchErrors.

Import PollEnv.

Context (fetch : nat -> exception + string) (latency : nat -> Z) (name : string).

Let E := poll_env fetch latency.



End FetchErrors.



